(** * pdf-pipeline: the extraction decision pipeline

    A shallow embedding of the rule matcher ([src/rules/extraction-rules.js]),
    the cost ledger ([llm/cost-tracker.js]), the fallback provider
    ([llm/llm-provider.js]) and the orchestrator
    ([extractors/field-extractor.js]), followed by the properties that the
    design document states about them.

    Conventions of the embedding.
    - JavaScript numbers that carry money or confidence are exact rationals
      ([Q]); token counts are naturals ([N]).  Rounding of IEEE doubles is
      not modelled; the statement about the daily cap uses only what holds
      of rounded sums as well.
    - JavaScript strings are [string]s over the 8-bit alphabet; case folding
      and whitespace are the ASCII ones.
    - A plain object used as a dictionary, and a [Map] that is iterated, is an
      insertion-ordered association list with unique keys ([Obj]); field names
      that look like array indices, which an object would list first, are not
      told apart.  The look-up [o[k]] is [Obj.get], which is what JavaScript
      gives for every name except the twelve that a plain object inherits
      from [Object.prototype] ([Obj.inherited]); [Obj.plainName] holds of
      the other names.  Likewise the assignment [o[k] = v] is [Obj.set] for
      every name but [__proto__].  The three maps of the ledger, which are
      only looked up, are [gmap]s.
    - An exception is the message of its [Error]; code that can throw returns
      a [result].
    - What the JavaScript runtime itself provides (regular-expression
      matching, [Date.parse], [parseFloat], [JSON.parse], number and date
      formatting) is a record of functions, [Runtime], which keep no state
      between calls.  The reply of the backend, once decoded, holds strings
      and [null]s; a reply with another truthy value, on which the
      post-processing throws, is not described.
    - The validators of a [Rule] are functions of the value.  [Closures] is
      the rule matcher for validators that are closures with a state of
      their own, and shows what this changes.
    - The clock is read once per call ([now]). *)

From Stdlib Require Import Ascii String QArith Qminmax Qround Lqa Lia Sorted.
From stdpp Require Import gmap strings list.

Local Open Scope string_scope.

(** ** JavaScript strings *)

Module JsString.

(** [\s], restricted to ASCII: space, and tab to carriage return. *)
Definition isSpace (c : ascii) : bool :=
  let n := nat_of_ascii c in
  Nat.eqb n 32 || (Nat.leb 9 n && Nat.leb n 13).

(** [\d]. *)
Definition isDigit (c : ascii) : bool :=
  let n := nat_of_ascii c in Nat.leb 48 n && Nat.leb n 57.

Definition isUpper (c : ascii) : bool :=
  let n := nat_of_ascii c in Nat.leb 65 n && Nat.leb n 90.

Definition isLower (c : ascii) : bool :=
  let n := nat_of_ascii c in Nat.leb 97 n && Nat.leb n 122.

(** [\w]: letters, digits and the underscore. *)
Definition isWord (c : ascii) : bool :=
  isUpper c || isLower c || isDigit c || Nat.eqb (nat_of_ascii c) 95.

Definition lowerChar (c : ascii) : ascii :=
  if isUpper c then ascii_of_nat (nat_of_ascii c + 32) else c.

Definition upperChar (c : ascii) : ascii :=
  if isLower c then ascii_of_nat (nat_of_ascii c - 32) else c.

Fixpoint mapChars (f : ascii -> ascii) (s : string) : string :=
  match s with
  | EmptyString => EmptyString
  | String c s' => String (f c) (mapChars f s')
  end.

Fixpoint filterChars (p : ascii -> bool) (s : string) : string :=
  match s with
  | EmptyString => EmptyString
  | String c s' => if p c then String c (filterChars p s') else filterChars p s'
  end.

(** [s.toLowerCase()] and [s.toUpperCase()]. *)
Definition toLowerCase : string -> string := mapChars lowerChar.
Definition toUpperCase : string -> string := mapChars upperChar.

Fixpoint trimStart (s : string) : string :=
  match s with
  | String c s' => if isSpace c then trimStart s' else s
  | EmptyString => EmptyString
  end.

Definition trimEnd (s : string) : string :=
  String.rev (trimStart (String.rev s)).

(** [s.trim()]. *)
Definition trim (s : string) : string := trimEnd (trimStart s).

(** [s.includes(sub)]. *)
Fixpoint includes (s sub : string) : bool :=
  String.prefix sub s ||
  match s with
  | EmptyString => false
  | String _ s' => includes s' sub
  end.

(** [s.substring(a, b)]: both bounds are clamped to the length and swapped
    when out of order. *)
Definition substring (s : string) (a b : nat) : string :=
  let n := String.length s in
  let a' := Nat.min a n in
  let b' := Nat.min b n in
  String.substring (Nat.min a' b') (Nat.max a' b' - Nat.min a' b') s.

(** [s.substring(a)]. *)
Definition substringFrom (s : string) (a : nat) : string :=
  substring s a (String.length s).

(** [s.replace(/\s+/g, ' ')]: every run of whitespace becomes one space. *)
Fixpoint collapseSpaces (s : string) : string :=
  match s with
  | EmptyString => EmptyString
  | String c s' =>
      if isSpace c then
        match s' with
        | String c' _ =>
            if isSpace c' then collapseSpaces s'
            else String " "%char (collapseSpaces s')
        | EmptyString => String " "%char EmptyString
        end
      else String c (collapseSpaces s')
  end.

(** [s.split(/\s+/).length]: one more than the number of whitespace runs. *)
Fixpoint countSpaceRuns (inRun : bool) (s : string) : nat :=
  match s with
  | EmptyString => 0
  | String c s' =>
      if isSpace c then (if inRun then 0 else 1) + countSpaceRuns true s'
      else countSpaceRuns false s'
  end.

Definition splitSpacesLength (s : string) : nat := S (countSpaceRuns false s).

(** [s.indexOf(c)] and [s.lastIndexOf(c)] for a one-character needle;
    [None] stands for [-1]. *)
Fixpoint indexOfChar (c : ascii) (s : string) : option nat :=
  match s with
  | EmptyString => None
  | String d s' =>
      if Ascii.eqb c d then Some 0 else option_map S (indexOfChar c s')
  end.

Fixpoint lastIndexOfChar (c : ascii) (s : string) : option nat :=
  match s with
  | EmptyString => None
  | String d s' =>
      match lastIndexOfChar c s' with
      | Some i => Some (S i)
      | None => if Ascii.eqb c d then Some 0 else None
      end
  end.

(** [s.replace(/\w\S*/g, t => t.charAt(0).toUpperCase() +
    t.substr(1).toLowerCase())]: [inTok] tells whether the scan is inside
    a token. *)
Fixpoint titleCaseFrom (inTok : bool) (s : string) : string :=
  match s with
  | EmptyString => EmptyString
  | String c s' =>
      if inTok then
        if isSpace c then String c (titleCaseFrom false s')
        else String (lowerChar c) (titleCaseFrom true s')
      else
        if isWord c then String (upperChar c) (titleCaseFrom true s')
        else String c (titleCaseFrom false s')
  end.

Definition titleCase : string -> string := titleCaseFrom false.

(** A string is truthy when it is not empty. *)
Definition truthy (s : string) : bool :=
  match s with EmptyString => false | _ => true end.

(** [xs.join(', ')]. *)
Fixpoint join (sep : string) (xs : list string) : string :=
  match xs with
  | [] => ""
  | [x] => x
  | x :: xs' => x ++ sep ++ join sep xs'
  end.

End JsString.

(** ** Numbers *)

(** [a < b] on numbers, as a boolean. *)
Definition Qltb (a b : Q) : bool := negb (Qle_bool b a).

(** A number is truthy when it is not zero. *)
Definition Qtruthy (a : Q) : bool := negb (Qeq_bool a 0%Q).

Definition QofN (n : N) : Q := inject_Z (Z.of_N n).
Definition Qofnat (n : nat) : Q := inject_Z (Z.of_nat n).

(** ** Arrays *)

Module JsArray.

(** [xs.sort(compareFn)], where [after a b] tells whether [compareFn(a, b)]
    is positive, that is whether [a] has to come after [b].  The sort is
    stable: an element stays ahead of the later ones it ties with. *)
Fixpoint insert {A} (after : A -> A -> bool) (x : A) (l : list A) : list A :=
  match l with
  | [] => [x]
  | y :: l' => if after x y then y :: insert after x l' else x :: l
  end.

Definition sort {A} (after : A -> A -> bool) (l : list A) : list A :=
  fold_right (insert after) [] l.

(** [xs.includes(x)] on an array of strings. *)
Definition includes (xs : list string) (x : string) : bool :=
  existsb (String.eqb x) xs.

End JsArray.

(** ** Insertion-ordered dictionaries *)

Module Obj.

Definition t (V : Type) : Type := list (string * V).

Definition empty {V} : t V := [].

(** [o[k]]; [None] stands for [undefined]. *)
Fixpoint get {V} (o : t V) (k : string) : option V :=
  match o with
  | [] => None
  | (k', v) :: o' => if String.eqb k k' then Some v else get o' k
  end.

Definition has {V} (o : t V) (k : string) : bool :=
  match get o k with Some _ => true | None => false end.

(** [o[k] = v]: an existing key keeps its place, a new key goes last. *)
Fixpoint set {V} (o : t V) (k : string) (v : V) : t V :=
  match o with
  | [] => [(k, v)]
  | (k', v') :: o' =>
      if String.eqb k k' then (k', v) :: o' else (k', v') :: set o' k v
  end.

Fixpoint delete {V} (o : t V) (k : string) : t V :=
  match o with
  | [] => []
  | (k', v') :: o' =>
      if String.eqb k k' then o' else (k', v') :: delete o' k
  end.

Definition keys {V} (o : t V) : list string := map fst o.
Definition values {V} (o : t V) : list V := map snd o.
Definition entries {V} (o : t V) : list (string * V) := o.
Definition size {V} (o : t V) : nat := length o.

(** [Object.fromEntries(es)]. *)
Definition fromEntries {V} (es : list (string * V)) : t V :=
  fold_left (fun o e => set o (fst e) (snd e)) es empty.

(** The names under which [o[k]] on a plain object finds a member of
    [Object.prototype] when the object has no property of its own under
    that name.  For every other name [o[k]] is [get o k]. *)
Definition inherited : list string :=
  [ "constructor"; "__defineGetter__"; "__defineSetter__"; "hasOwnProperty";
    "__lookupGetter__"; "__lookupSetter__"; "isPrototypeOf";
    "propertyIsEnumerable"; "toString"; "valueOf"; "__proto__";
    "toLocaleString" ].

Definition plainName (k : string) : bool :=
  negb (existsb (String.eqb k) inherited).

End Obj.

(** ** What the runtime provides *)

(** One element of [text.matchAll(pattern)]. *)
Record RegExpMatch := {
  m_full : string;           (* match[0] *)
  m_group1 : option string;  (* match[1]; [None] when it is undefined *)
  m_index : nat;             (* match.index *)
  m_input : string           (* match.input *)
}.

(** A [RegExp] object: its [source], its flags, and the matches it yields on
    a text. *)
Record RegExp := {
  source : string;
  flags : string;
  matchAll : string -> list RegExpMatch
}.

Record Runtime := {
  (** [Array.from(text.matchAll(new RegExp(source, flags)))] *)
  rt_matchAll : string -> string -> string -> list RegExpMatch;
  (** [Date.parse(s)] in milliseconds; [None] is [NaN]. *)
  rt_Date_parse : string -> option Z;
  (** [parseFloat(s)]; [None] is [NaN]. *)
  rt_parseFloat : string -> option Q;
  (** [x.toFixed(2)] *)
  rt_toFixed2 : Q -> string;
  (** [new Date(s).toLocaleDateString('en-US')] *)
  rt_toLocaleDateString : string -> string;
  (** [JSON.parse(s)] for a text that decodes to an object whose
      properties are strings or [null]: [None] when it throws; otherwise the
      lookup of a property, [None] for one that is absent or [null]. *)
  rt_JSON_parse : string -> option (string -> option string)
}.

(** The regular-expression literal [/src/fl]. *)
Definition regex (rt : Runtime) (src fl : string) : RegExp :=
  {| source := src; flags := fl; matchAll := rt_matchAll rt src fl |}.

(** ** The rule matcher ([src/rules/extraction-rules.js]) *)

(** A validator returns a truth value or throws ([None]). *)
Definition Validator : Type := string -> option bool.

Record Rule := {
  patterns : list RegExp;
  validators : option (list Validator);
  priority : Z
}.

Record Candidate := {
  value : string;
  confidence : Q;
  position : option nat;
  context : string;
  cand_source : option string
}.

(** Field name to ranked candidates. *)
Abbreviation Fields := (Obj.t (list Candidate)).

Section BuiltinRules.

Variable rt : Runtime.

Let re := regex rt.
Let len := String.length.
Let digitsOf := JsString.filterChars JsString.isDigit.
Let noCommaDollar :=
  JsString.filterChars
    (fun c => negb (Ascii.eqb c ","%char || Ascii.eqb c "$"%char)).
Let hasChar (p : ascii -> bool) (s : string) : bool :=
  JsString.truthy (JsString.filterChars p s).
Let numGt (x : option Q) (y : Q) : bool :=
  match x with Some v => Qltb y v | None => false end.
Let numLt (x : option Q) (y : Q) : bool :=
  match x with Some v => Qltb v y | None => false end.

Definition EXTRACTION_RULES : Obj.t Rule :=
  [ ("email",
     {| patterns :=
          [ re "([a-zA-Z0-9._%+-]+@[a-zA-Z0-9.-]+\.[a-zA-Z]{2,})" "g";
            re "\b[A-Z0-9._%+-]+@[A-Z0-9.-]+\.[A-Z]{2,}\b" "gi" ];
        validators := Some
          [ (fun email => Some (JsString.includes email "@" && JsString.includes email "."));
            (fun email => Some (Nat.ltb 5 (len email) && Nat.ltb (len email) 255)) ];
        priority := 1 |});
    ("phone",
     {| patterns :=
          [ re "(\+?1[-.\s]?)?\(?([0-9]{3})\)?[-.\s]?([0-9]{3})[-.\s]?([0-9]{4})" "g";
            re "(\+?[1-9]\d{0,3}[-.\s]?)?(\d{1,4}[-.\s]?)?\d{4,}" "g" ];
        validators := Some
          [ (fun phone => Some (Nat.leb 10 (len (digitsOf phone))));
            (fun phone => Some (Nat.leb (len (digitsOf phone)) 15)) ];
        priority := 2 |});
    ("name",
     {| patterns :=
          [ re "(?:name[:\s]+)([A-Z][a-z]+ [A-Z][a-z]+)" "gi";
            re "(?:from[:\s]+)([A-Z][a-z]+ [A-Z][a-z]+)" "gi";
            re "^([A-Z][a-z]+ [A-Z][a-z]+)" "gm" ];
        validators := Some
          [ (fun name => Some (hasChar (Ascii.eqb " "%char) name));
            (fun name => Some (Nat.ltb 3 (len name) && Nat.ltb (len name) 100)) ];
        priority := 3 |});
    ("date",
     {| patterns :=
          [ re "(\d{1,2}\/\d{1,2}\/\d{4})" "g";
            re "(\d{4}-\d{2}-\d{2})" "g";
            re "(\w+ \d{1,2}, \d{4})" "g";
            re "(\d{1,2} \w+ \d{4})" "g" ];
        validators := Some
          [ (fun date =>
               Some (match rt_Date_parse rt date with Some _ => true | None => false end));
            (fun date =>
               Some (match rt_Date_parse rt date, rt_Date_parse rt "1900-01-01" with
                     | Some d, Some d0 => Z.ltb d0 d
                     | _, _ => false
                     end)) ];
        priority := 4 |});
    ("amount",
     {| patterns :=
          [ re "\$([0-9,]+\.?\d{0,2})" "g";
            re "([0-9,]+\.?\d{0,2})\s*(?:dollars?|USD)" "gi";
            re "(?:amount[:\s]+)\$?([0-9,]+\.?\d{0,2})" "gi" ];
        validators := Some
          [ (fun amount => Some (numGt (rt_parseFloat rt (noCommaDollar amount)) 0%Q));
            (fun amount => Some (numLt (rt_parseFloat rt (noCommaDollar amount)) 1000000%Q)) ];
        priority := 5 |});
    ("address",
     {| patterns :=
          [ re "(\d+\s+[A-Z][a-z\s]+(?:Street|St|Avenue|Ave|Road|Rd|Lane|Ln|Drive|Dr|Boulevard|Blvd))" "gi";
            re "(\d+\s+[A-Z0-9][A-Za-z0-9\s,.-]+\s+[A-Z]{2}\s+\d{5})" "gi" ];
        validators := Some
          [ (fun address => Some (Nat.ltb 10 (len address)));
            (fun address => Some (hasChar JsString.isDigit address)) ];
        priority := 6 |});
    ("invoiceNumber",
     {| patterns :=
          [ re "(?:invoice[#\s:]+)([A-Z0-9-]+)" "gi";
            re "(?:inv[#\s:]+)([A-Z0-9-]+)" "gi";
            re "#([A-Z0-9-]{6,})" "gi" ];
        validators := Some
          [ (fun num => Some (Nat.leb 3 (len num)));
            (fun num =>
               Some (hasChar (fun c => JsString.isUpper c || JsString.isDigit c) num)) ];
        priority := 7 |});
    ("company",
     {| patterns :=
          [ re "(?:company[:\s]+)([A-Z][A-Za-z\s&.,]+(?:Inc|LLC|Corp|Ltd))" "gi";
            re "([A-Z][A-Za-z\s&.,]+(?:Inc|LLC|Corp|Ltd))" "g";
            re "(?:organization[:\s]+)([A-Z][A-Za-z\s&.,]+)" "gi" ];
        validators := Some
          [ (fun company => Some (Nat.ltb 2 (len company)));
            (fun company => Some (Nat.ltb (len company) 100)) ];
        priority := 8 |}) ].

End BuiltinRules.

Module RulesEngine.

(** The instance: the built-in table and the rules added at run time. *)
Record t := {
  rules : Obj.t Rule;
  customRules : Obj.t Rule
}.

Definition new (rt : Runtime) : t :=
  {| rules := EXTRACTION_RULES rt; customRules := Obj.empty |}.

Definition addCustomRule (this : t) (fieldName : string) (rule : Rule) : t :=
  {| rules := rules this;
     customRules := Obj.set (customRules this) fieldName rule |}.

Definition cleanValue (value fieldType : string) : option string :=
  if negb (JsString.truthy value) then None
  else
    let cleaned := JsString.trim value in
    Some
      (if String.eqb fieldType "email" then JsString.toLowerCase cleaned
       else if String.eqb fieldType "phone" then
         JsString.filterChars JsString.isDigit cleaned
       else if String.eqb fieldType "amount" then
         JsString.filterChars
           (fun c => negb (Ascii.eqb c "$"%char || Ascii.eqb c ","%char))
           cleaned
       else if String.eqb fieldType "name" || String.eqb fieldType "company" then
         JsString.trim (JsString.collapseSpaces cleaned)
       else cleaned).

(** A validator that throws rejects the value. *)
Definition validateValue (v : string) (vs : option (list Validator)) : bool :=
  match vs with
  | None => true
  | Some vs =>
      forallb (fun validator =>
                 match validator v with
                 | Some b => b
                 | None => false
                 end) vs
  end.

Definition calculateConfidence (m : RegExpMatch) (pattern : RegExp) (rule : Rule) : Q :=
  let confidence := 0.5%Q in
  let confidence :=
    if Nat.ltb 20 (String.length (source pattern))
    then (confidence + 0.1)%Q else confidence in
  let context :=
    JsString.toLowerCase
      (JsString.substring (m_input m) (m_index m - 20)
         (m_index m + String.length (m_full m) + 20)) in
  let confidence :=
    if JsString.includes context "email" then (confidence + 0.2)%Q else confidence in
  let confidence :=
    if JsString.includes context "phone" then (confidence + 0.2)%Q else confidence in
  let confidence :=
    if JsString.includes context "amount" then (confidence + 0.2)%Q else confidence in
  let confidence :=
    (confidence + (10 - inject_Z (priority rule)) * 0.05)%Q in
  Qmin confidence 1.0%Q.

Definition extractContext (text : string) (position radius : nat) : string :=
  let start := position - radius in
  let stop := Nat.min (String.length text) (position + radius) in
  JsString.trim (JsString.collapseSpaces (JsString.substring text start stop)).

(** [xs.sort((a, b) => b.confidence - a.confidence)] *)
Definition sortByConfidence : list Candidate -> list Candidate :=
  JsArray.sort (fun a b => Qltb (confidence a) (confidence b)).

(** [match[1] || match[0]] *)
Definition matchValue (m : RegExpMatch) : string :=
  match m_group1 m with
  | Some g => if JsString.truthy g then g else m_full m
  | None => m_full m
  end.

Definition extractField (text : string) (rule : Rule) (fieldName : string)
  : list Candidate :=
  let matches :=
    flat_map (fun pattern =>
      flat_map (fun m =>
        match cleanValue (matchValue m) fieldName with
        | Some cleanValue =>
            if JsString.truthy cleanValue
               && validateValue cleanValue (validators rule)
            then [ {| value := cleanValue;
                      confidence := calculateConfidence m pattern rule;
                      position := Some (m_index m);
                      context := extractContext text (m_index m) 50;
                      cand_source := None |} ]
            else []
        | None => []
        end) (matchAll pattern text)) (patterns rule) in
  sortByConfidence matches.

(** One step of the loop of [removeDuplicates] over its [Map]. *)
Definition keepBest (unique : Obj.t Candidate) (m : Candidate) : Obj.t Candidate :=
  let key := JsString.toLowerCase (value m) in
  match Obj.get unique key with
  | None => Obj.set unique key m
  | Some old =>
      if Qltb (confidence old) (confidence m)
      then Obj.set unique key m
      else unique
  end.

Definition removeDuplicates (matches : list Candidate) : list Candidate :=
  sortByConfidence (Obj.values (fold_left keepBest matches Obj.empty)).

Definition rankAndCleanResults (results : Fields) : Fields :=
  fold_left (fun ranked '(fieldName, matches) =>
               match matches with
               | [] => ranked
               | _ => Obj.set ranked fieldName (take 5 (removeDuplicates matches))
               end) (Obj.entries results) Obj.empty.

Definition extractFields (this : t) (text : string)
    (specificFields : option (list string)) : Fields :=
  let rulesToApply :=
    match specificFields with
    | Some sf =>
        Obj.fromEntries
          (List.filter (fun '(key, _) => JsArray.includes sf key)
             (Obj.entries (rules this)))
    | None => rules this
    end in
  (* Apply built-in rules *)
  let results :=
    fold_left (fun results '(fieldName, rule) =>
                 Obj.set results fieldName (extractField text rule fieldName))
      (Obj.entries rulesToApply) Obj.empty in
  (* Apply custom rules *)
  let results :=
    fold_left (fun results '(fieldName, rule) =>
                 if match specificFields with
                    | None => true
                    | Some sf => JsArray.includes sf fieldName
                    end
                 then Obj.set results fieldName (extractField text rule fieldName)
                 else results)
      (Obj.entries (customRules this)) results in
  rankAndCleanResults results.

Record Stats := {
  totalFields : nat;
  stats_extractedFields : nat;
  totalMatches : nat;
  stats_averageConfidence : Q;
  stats_extractionRate : Q
}.

Definition getExtractionStats (this : t) (results : Fields) : Stats :=
  let nonEmpty := List.filter (fun ms => negb (Nat.eqb (length ms) 0)) (Obj.values results) in
  let all := concat nonEmpty in
  let confidenceSum := fold_left (fun s m => (s + confidence m)%Q) all 0%Q in
  let matchCount := length all in
  let total := length (Obj.keys (rules this)) + Obj.size (customRules this) in
  {| totalFields := total;
     stats_extractedFields := length nonEmpty;
     totalMatches := matchCount;
     stats_averageConfidence :=
       if Nat.ltb 0 matchCount then (confidenceSum / Qofnat matchCount)%Q else 0%Q;
     stats_extractionRate := (Qofnat (length nonEmpty) / Qofnat total)%Q |}.

End RulesEngine.

(** ** The rule matcher with validators that are closures

    A validator is a JavaScript function: besides its argument it can read
    and write what it captured, such as the [lastIndex] of a regular
    expression with the flag [g], be it one of its own or a pattern of the
    rule.  This module is the rule matcher with such validators; the store
    [S] holds what they captured.  [text.matchAll(pattern)] works on a copy
    of the pattern that starts at the [lastIndex] of the pattern, so that it
    reads the store and leaves it as it is.  [RulesEngine] above is the case
    of validators that capture nothing. *)

Module Closures.

(** Given the value and the store, a validator returns a truth value or
    throws ([None]), and leaves a store. *)
Definition Validator (S : Type) : Type := string -> S -> option bool * S.

(** A pattern is the regular expression as it stands in the store. *)
Record StatefulRule (S : Type) := {
  s_patterns : list (S -> RegExp);
  s_validators : option (list (Validator S));
  s_priority : Z
}.
Arguments s_patterns {S} _.
Arguments s_validators {S} _.
Arguments s_priority {S} _.

Record t (S : Type) := {
  rules : Obj.t (StatefulRule S);
  customRules : Obj.t (StatefulRule S)
}.
Arguments rules {S} _.
Arguments customRules {S} _.

Definition addCustomRule {S} (this : t S) (fieldName : string)
    (rule : StatefulRule S) : t S :=
  {| rules := rules this;
     customRules := Obj.set (customRules this) fieldName rule |}.

(** The rule as a value, each pattern and each validator read at the
    store [store]; of a rule [calculateConfidence] reads the priority
    only. *)
Definition asRule {S} (store : S) (rule : StatefulRule S) : Rule :=
  {| patterns := map (fun pattern => pattern store) (s_patterns rule);
     validators :=
       option_map (map (fun (validator : Validator S) v => fst (validator v store)))
         (s_validators rule);
     priority := s_priority rule |}.

(** [validators.every(validator => ...)]: the validators are called in
    turn, up to the first that rejects or throws. *)
Fixpoint every {S} (vs : list (Validator S)) (v : string) (store : S) : bool * S :=
  match vs with
  | [] => (true, store)
  | validator :: vs' =>
      match validator v store with
      | (Some true, store') => every vs' v store'
      | (_, store') => (false, store')
      end
  end.

Definition validateValue {S} (v : string) (vs : option (list (Validator S)))
    (store : S) : bool * S :=
  match vs with
  | None => (true, store)
  | Some vs => every vs v store
  end.

(** The body of the inner loop of [extractField], for one match. *)
Definition matchStep {S} (text : string) (rule : StatefulRule S) (fieldName : string)
    (pattern : RegExp) (acc : list Candidate * S) (m : RegExpMatch)
  : list Candidate * S :=
  let '(matches, store) := acc in
  match RulesEngine.cleanValue (RulesEngine.matchValue m) fieldName with
  | Some cleanValue =>
      if JsString.truthy cleanValue then
        let '(valid, store') := validateValue cleanValue (s_validators rule) store in
        if valid then
          ((matches ++
            [ {| value := cleanValue;
                 confidence :=
                   RulesEngine.calculateConfidence m pattern (asRule store' rule);
                 position := Some (m_index m);
                 context := RulesEngine.extractContext text (m_index m) 50;
                 cand_source := None |} ])%list, store')
        else (matches, store')
      else (matches, store)
  | None => (matches, store)
  end.

Definition extractField {S} (text : string) (rule : StatefulRule S)
    (fieldName : string) (store : S) : list Candidate * S :=
  let '(matches, store') :=
    fold_left (fun acc pattern =>
                 let pattern := pattern (snd acc) in
                 fold_left (matchStep text rule fieldName pattern)
                   (matchAll pattern text) acc)
      (s_patterns rule) ([], store) in
  (RulesEngine.sortByConfidence matches, store').

Definition extractFields {S} (this : t S) (text : string)
    (specificFields : option (list string)) (store : S) : Fields * S :=
  let rulesToApply :=
    match specificFields with
    | Some sf =>
        Obj.fromEntries
          (List.filter (fun '(key, _) => JsArray.includes sf key)
             (Obj.entries (rules this)))
    | None => rules this
    end in
  (* Apply built-in rules *)
  let acc :=
    fold_left (fun '(results, store) '(fieldName, rule) =>
                 let '(matches, store') := extractField text rule fieldName store in
                 (Obj.set results fieldName matches, store'))
      (Obj.entries rulesToApply) (Obj.empty, store) in
  (* Apply custom rules *)
  let acc :=
    fold_left (fun '(results, store) '(fieldName, rule) =>
                 if match specificFields with
                    | None => true
                    | Some sf => JsArray.includes sf fieldName
                    end
                 then
                   let '(matches, store') := extractField text rule fieldName store in
                   (Obj.set results fieldName matches, store')
                 else (results, store))
      (Obj.entries (customRules this)) acc in
  (RulesEngine.rankAndCleanResults (fst acc), snd acc).

End Closures.

(** A validator that captures nothing, as a closure; a rule and an engine
    with such validators. *)
Definition capturesNothing {S} (validator : Validator) : Closures.Validator S :=
  fun v store => (validator v, store).

Definition asStatefulRule {S} (rule : Rule) : Closures.StatefulRule S :=
  {| Closures.s_patterns := map (fun pattern _ => pattern) (patterns rule);
     Closures.s_validators := option_map (map capturesNothing) (validators rule);
     Closures.s_priority := priority rule |}.

Definition asClosures {S} (this : RulesEngine.t) : Closures.t S :=
  {| Closures.rules :=
       map (fun kv => (fst kv, asStatefulRule (snd kv))) (RulesEngine.rules this);
     Closures.customRules :=
       map (fun kv => (fst kv, asStatefulRule (snd kv)))
         (RulesEngine.customRules this) |}.

(** The engine as a value, its patterns and validators read at the store
    [store]. *)
Definition engineAt {S} (store : S) (this : Closures.t S) : RulesEngine.t :=
  {| RulesEngine.rules :=
       map (fun kv => (fst kv, Closures.asRule store (snd kv))) (Closures.rules this);
     RulesEngine.customRules :=
       map (fun kv => (fst kv, Closures.asRule store (snd kv)))
         (Closures.customRules this) |}.

(** ** The cost ledger ([llm/cost-tracker.js]) *)

(** A [Date]: the two halves of its [toISOString()]. *)
Record Timestamp := {
  isoDate : string;
  isoTime : string
}.

(** [date.toISOString().split('T')[0]] *)
Definition dayOf (now : Timestamp) : string := isoDate now.

Module CostTracker.

Record RequestEntry := {
  req_timestamp : Timestamp;
  req_model : string;
  req_inputTokens : N;
  req_outputTokens : N;
  req_cost : Q
}.

Record Session := {
  totalCost : Q;
  requests : list RequestEntry;
  startTime : Timestamp
}.

Record t := {
  costs : gmap string Session;        (* sessionId -> cost info *)
  dailyTotals : gmap string Q;        (* date -> total cost *)
  requestCounts : gmap string nat     (* sessionId -> request count *)
}.

Definition new : t :=
  {| costs := ∅; dailyTotals := ∅; requestCounts := ∅ |}.

Record Pricing := { input : Q; output : Q }.

(** Local model, no cost. *)
Definition PRICING_ollama : Pricing := {| input := 0%Q; output := 0%Q |}.

(** Price per token; [None] for a model that is not in the table. *)
Definition PRICING (model : string) : option Pricing :=
  if String.eqb model "gpt-4o-mini" then
    Some {| input := (0.00015 / 1000)%Q; output := (0.0006 / 1000)%Q |}
  else if String.eqb model "gpt-3.5-turbo" then
    Some {| input := (0.0005 / 1000)%Q; output := (0.0015 / 1000)%Q |}
  else if String.eqb model "ollama" then Some PRICING_ollama
  else None.

Definition calculateCost (model : string) (inputTokens outputTokens : N) : Q :=
  let pricing := default PRICING_ollama (PRICING model) in
  (QofN inputTokens * input pricing + QofN outputTokens * output pricing)%Q.

Record TrackResult := {
  requestCost : Q;
  sessionTotal : Q;
  dailyTotal : Q;
  requestCount : nat
}.

(** [x || 0] on a number that may be undefined. *)
Definition orZero (x : option Q) : Q :=
  match x with
  | Some v => if Qtruthy v then v else 0%Q
  | None => 0%Q
  end.

Definition trackRequest (this : t) (now : Timestamp) (sessionId model : string)
    (inputTokens outputTokens : N) : TrackResult * t :=
  let cost := calculateCost model inputTokens outputTokens in
  let today := dayOf now in
  (* Track session costs *)
  let session0 :=
    match costs this !! sessionId with
    | Some s => s
    | None => {| totalCost := 0%Q; requests := []; startTime := now |}
    end in
  let session :=
    {| totalCost := (totalCost session0 + cost)%Q;
       requests :=
         requests session0 ++
         [ {| req_timestamp := now; req_model := model;
              req_inputTokens := inputTokens;
              req_outputTokens := outputTokens; req_cost := cost |} ];
       startTime := startTime session0 |} in
  (* Track daily totals *)
  let daily := (orZero (dailyTotals this !! today) + cost)%Q in
  (* Track request counts *)
  let count := (default 0%nat (requestCounts this !! sessionId) + 1)%nat in
  ({| requestCost := cost;
      sessionTotal := totalCost session;
      dailyTotal := daily;
      requestCount := count |},
   {| costs := <[sessionId := session]> (costs this);
      dailyTotals := <[today := daily]> (dailyTotals this);
      requestCounts := <[sessionId := count]> (requestCounts this) |}).

Record CheckResult := {
  allowed : bool;
  reason : option string;
  sessionCost : option Q;
  dailyCost : option Q
}.

(** [maxDailyCost] defaults to [null] ([None]). *)
Definition canMakeRequest (this : t) (now : Timestamp) (sessionId : string)
    (maxCostPerRequest : Q) (maxDailyCost : option Q) : CheckResult :=
  let session := costs this !! sessionId in
  let today := dayOf now in
  let dailyTotal := orZero (dailyTotals this !! today) in
  (* Check per-request limit *)
  if Qtruthy maxCostPerRequest && Qltb 0%Q maxCostPerRequest
     && Qltb maxCostPerRequest maxCostPerRequest
  then
    {| allowed := false;
       reason := Some "Request would exceed per-request cost limit";
       sessionCost := None; dailyCost := None |}
  (* Check daily limit *)
  else if match maxDailyCost with
          | Some cap =>
              Qtruthy cap && Qltb cap (dailyTotal + maxCostPerRequest)%Q
          | None => false
          end
  then
    {| allowed := false;
       reason := Some "Request would exceed daily cost limit";
       sessionCost := None; dailyCost := None |}
  else
    {| allowed := true;
       reason := None;
       sessionCost := Some (orZero (totalCost <$> session));
       dailyCost := Some dailyTotal |}.

(** [reset(sessionId = null)]: an empty session id is falsy too. *)
Definition reset (this : t) (sessionId : option string) : t :=
  match sessionId with
  | Some sid =>
      if JsString.truthy sid then
        {| costs := delete sid (costs this);
           dailyTotals := dailyTotals this;
           requestCounts := delete sid (requestCounts this) |}
      else new
  | None => new
  end.

(** Rough approximation: 1 token is 0.75 words; [Math.ceil(words / 0.75)]. *)
Definition estimateTokens (text : string) : N :=
  let words := Z.of_nat (JsString.splitSpacesLength text) in
  Z.to_N ((4 * words + 2) / 3)%Z.

Definition truncateToTokenLimit (text : string) (maxTokens : N) : string :=
  let estimatedTokens := estimateTokens text in
  if (estimatedTokens <=? maxTokens)%N then text
  else
    let ratio := (QofN maxTokens / QofN estimatedTokens)%Q in
    let targetLength :=
      Z.to_nat (Qfloor (Qofnat (String.length text) * ratio * 0.9)%Q) in
    JsString.substring text 0 targetLength ++ "...[truncated]".

Record SessionStats := {
  ss_totalCost : Q;
  ss_requestCount : nat;
  ss_averageCost : Q;
  ss_startTime : option Timestamp;
  ss_requests : list RequestEntry
}.

Definition getSessionStats (this : t) (sessionId : string) : SessionStats :=
  match costs this !! sessionId with
  | None =>
      {| ss_totalCost := 0%Q; ss_requestCount := 0; ss_averageCost := 0%Q;
         ss_startTime := None; ss_requests := [] |}
  | Some session =>
      {| ss_totalCost := totalCost session;
         ss_requestCount := length (requests session);
         ss_averageCost :=
           if Nat.ltb 0 (length (requests session))
           then (totalCost session / Qofnat (length (requests session)))%Q
           else 0%Q;
         ss_startTime := Some (startTime session);
         ss_requests := requests session |}
  end.

(** The requests of one session that were made on [date]. *)
Definition requestsOn (date : string) (session : Session) : list RequestEntry :=
  List.filter (fun req => String.eqb (dayOf (req_timestamp req)) date)
    (requests session).

Definition getTotalRequestsForDate (this : t) (date : string) : nat :=
  map_fold (fun _ session count => (count + length (requestsOn date session))%nat)
    0%nat (costs this).

Record DailyStats := {
  ds_date : string;
  ds_totalCost : Q;
  ds_requestCount : nat
}.

(** [getDailyStats(date = null)]: an empty date is falsy and stands for
    today as well. *)
Definition getDailyStats (this : t) (now : Timestamp) (date : option string)
  : DailyStats :=
  let targetDate :=
    match date with
    | Some d => if JsString.truthy d then d else dayOf now
    | None => dayOf now
    end in
  {| ds_date := targetDate;
     ds_totalCost := orZero (dailyTotals this !! targetDate);
     ds_requestCount := getTotalRequestsForDate this targetDate |}.

End CostTracker.

(** ** Exceptions *)

(** The outcome of code that may throw: a value, or the message of the
    [Error] thrown. *)
Inductive result (A : Type) : Type :=
| Ok (a : A)
| Throw (message : string).
Arguments Ok {A} a.
Arguments Throw {A} message.

(** ** The fallback provider ([llm/llm-provider.js]) *)

(** The validated configuration ([config/index.js]). *)
Record Config := {
  openaiApiKey : option string;
  ollamaBaseUrl : string;
  llmProvider : string;
  llmModel : string;
  maxLlmCostPerRequest : Q
}.

(** What an HTTP request comes back with. *)
Record AxiosError := {
  err_code : option string;       (* error.code *)
  err_status : option nat;        (* error.response?.status *)
  err_message : string            (* error.message *)
}.

Record ResponseData := {
  (** [response.data.response] (Ollama) *)
  data_response : option string;
  (** [response.data.usage], as prompt and completion tokens (OpenAI) *)
  data_usage : option (N * N);
  (** [response.data.choices[0].message.content] (OpenAI): [None] when
      [choices] is undefined, [Some None] when the content is null. *)
  data_content : option (option string)
}.

Inductive AxiosOutcome :=
| Rejected (e : AxiosError)
| Resolved (d : ResponseData).

(** [axios.post(url, body)]: the network, as a function of the address and
    of the prompt sent. *)
Definition Network : Type := string -> string -> AxiosOutcome.

Module LLMProvider.

Record t := {
  costTracker : CostTracker.t;
  provider : string;
  model : string;
  maxCostPerRequest : Q
}.

Definition new (config : Config) : t :=
  {| costTracker := CostTracker.new;
     provider := llmProvider config;
     model := llmModel config;
     maxCostPerRequest := maxLlmCostPerRequest config |}.

Definition withCostTracker (this : t) (ct : CostTracker.t) : t :=
  {| costTracker := ct;
     provider := provider this;
     model := model this;
     maxCostPerRequest := maxCostPerRequest this |}.

Definition dq : string := String (ascii_of_nat 34) EmptyString.
Definition nl : string := String (ascii_of_nat 10) EmptyString.

Definition fieldDescriptions : Obj.t string :=
  [ ("email", "email addresses");
    ("phone", "phone numbers");
    ("name", "person names");
    ("date", "dates");
    ("amount", "monetary amounts");
    ("address", "physical addresses");
    ("invoiceNumber", "invoice or document numbers");
    ("company", "company or organization names") ].

Definition buildExtractionPrompt (text : string) (missingFields : list string) : string :=
  let fieldsToExtract :=
    JsString.join ", "
      (map (fun field =>
              dq ++ field ++ dq ++ ": " ++ dq
              ++ default field (Obj.get fieldDescriptions field) ++ dq)
         missingFields) in
  "Extract the following information from this document text and return ONLY a valid JSON object:"
  ++ nl ++ nl
  ++ "Fields to extract: {" ++ fieldsToExtract ++ "}" ++ nl ++ nl
  ++ "Document text:" ++ nl
  ++ text ++ nl ++ nl
  ++ "Return format: {" ++ dq ++ "fieldName" ++ dq ++ ": " ++ dq
  ++ "extracted_value" ++ dq ++ ", ...}" ++ nl
  ++ "If a field cannot be found, use null as the value." ++ nl
  ++ "Only return the JSON object, no additional text.".

(** A response text that is undefined makes [trim] throw; like a failure
    of [JSON.parse], that is caught and gives the empty result. *)
Definition parseExtractionResponse (rt : Runtime) (responseText : option string)
    (missingFields : list string) : Fields :=
  match responseText with
  | None => Obj.empty
  | Some responseText =>
      let jsonString := JsString.trim responseText in
      (* Remove any text before the first { *)
      let jsonString :=
        match JsString.indexOfChar "{"%char jsonString with
        | Some jsonStart =>
            if Nat.ltb 0 jsonStart
            then JsString.substringFrom jsonString jsonStart
            else jsonString
        | None => jsonString
        end in
      (* Remove any text after the last } *)
      let jsonString :=
        match JsString.lastIndexOfChar "}"%char jsonString with
        | Some jsonEnd =>
            if Nat.ltb (jsonEnd + 1) (String.length jsonString)
            then JsString.substring jsonString 0 (jsonEnd + 1)
            else jsonString
        | None =>
            if Nat.ltb 0 (String.length jsonString)
            then JsString.substring jsonString 0 0
            else jsonString
        end in
      match rt_JSON_parse rt jsonString with
      | None => Obj.empty
      | Some extracted =>
          fold_left (fun result field =>
                       match extracted field with
                       | Some v =>
                           if JsString.truthy v then
                             Obj.set result field
                               [ {| value := v;
                                    confidence := 0.7%Q;
                                    position := None;
                                    context := "Extracted by LLM fallback";
                                    cand_source := Some "llm" |} ]
                           else result
                       | None => result
                       end) missingFields Obj.empty
      end
  end.

Definition typeErrorReading (property : string) : string :=
  "Cannot read properties of undefined (reading '" ++ property ++ "')".

Definition callOllama (rt : Runtime) (config : Config) (net : Network)
    (now : Timestamp) (this : t) (text : string) (missingFields : list string)
    (sessionId : string) : result Fields * t :=
  let prompt := buildExtractionPrompt text missingFields in
  let truncatedPrompt :=
    CostTracker.truncateToTokenLimit prompt 3000 in
  match net (ollamaBaseUrl config ++ "/api/generate") truncatedPrompt with
  | Resolved d =>
      let inputTokens := CostTracker.estimateTokens truncatedPrompt in
      let outputTokens :=
        CostTracker.estimateTokens (default "" (data_response d)) in
      let '(_, ct) :=
        CostTracker.trackRequest (costTracker this) now sessionId (model this)
          inputTokens outputTokens in
      (Ok (parseExtractionResponse rt (data_response d) missingFields),
       withCostTracker this ct)
  | Rejected error =>
      if match err_code error with
         | Some c => String.eqb c "ECONNREFUSED"
         | None => false
         end
      then (Throw "Ollama server is not running. Please start Ollama and try again.", this)
      else (Throw ("Ollama API error: " ++ err_message error), this)
  end.

Definition callOpenAI (rt : Runtime) (config : Config) (net : Network)
    (now : Timestamp) (this : t) (text : string) (missingFields : list string)
    (sessionId : string) : result Fields * t :=
  if match openaiApiKey config with
     | Some k => negb (JsString.truthy k)
     | None => true
     end
  then (Throw "OpenAI API key not configured", this)
  else
    let requestModel :=
      if JsString.includes (model this) "gpt" then model this else "gpt-4o-mini" in
    match net "https://api.openai.com/v1/chat/completions"
            (buildExtractionPrompt text missingFields) with
    | Resolved d =>
        match data_usage d with
        | None =>
            (Throw ("OpenAI API error: " ++ typeErrorReading "prompt_tokens"), this)
        | Some (prompt_tokens, completion_tokens) =>
            let '(_, ct) :=
              CostTracker.trackRequest (costTracker this) now sessionId
                requestModel prompt_tokens completion_tokens in
            match data_content d with
            | None =>
                (Throw ("OpenAI API error: " ++ typeErrorReading "0"),
                 withCostTracker this ct)
            | Some content =>
                (Ok (parseExtractionResponse rt content missingFields),
                 withCostTracker this ct)
            end
        end
    | Rejected error =>
        match err_status error with
        | Some 401%nat => (Throw "Invalid OpenAI API key", this)
        | Some 429%nat => (Throw "OpenAI API rate limit exceeded", this)
        | _ => (Throw ("OpenAI API error: " ++ err_message error), this)
        end
    end.

(** The [catch] of the source logs the error and throws it again. *)
Definition extractFields (rt : Runtime) (config : Config) (net : Network)
    (now : Timestamp) (this : t) (text : string) (missingFields : list string)
    (sessionId : string) : result Fields * t :=
  (* Check cost limits before making request *)
  let costCheck :=
    CostTracker.canMakeRequest (costTracker this) now sessionId
      (maxCostPerRequest this) None in
  if negb (CostTracker.allowed costCheck) then
    (Throw ("Cost limit exceeded: " ++ default "undefined" (CostTracker.reason costCheck)),
     this)
  else if String.eqb (provider this) "ollama" then
    callOllama rt config net now this text missingFields sessionId
  else if String.eqb (provider this) "openai" then
    callOpenAI rt config net now this text missingFields sessionId
  else
    (Throw ("Unsupported LLM provider: " ++ provider this), this).

End LLMProvider.

(** ** The orchestrator ([extractors/field-extractor.js]) *)

Module FieldExtractor.

Record t := {
  rulesEngine : RulesEngine.t;
  llmProvider : LLMProvider.t
}.

Definition new (rt : Runtime) (config : Config) : t :=
  {| rulesEngine := RulesEngine.new rt; llmProvider := LLMProvider.new config |}.

Definition addCustomRule (this : t) (fieldName : string) (rule : Rule) : t :=
  {| rulesEngine := RulesEngine.addCustomRule (rulesEngine this) fieldName rule;
     llmProvider := llmProvider this |}.

Definition getCostTracker (this : t) : CostTracker.t :=
  LLMProvider.costTracker (llmProvider this).

Record ProcessedDocument := {
  doc_type : string;
  doc_filename : string;
  text : string
}.

Record Options := {
  sessionId : string;
  enableLLMFallback : bool;
  confidenceThreshold : Q;
  maxLLMCost : option Q;
  specificFields : option (list string)
}.

Definition defaultOptions : Options :=
  {| sessionId := "default";
     enableLLMFallback := true;
     confidenceThreshold := 0.6%Q;
     maxLLMCost := None;
     specificFields := None |}.

Record Metadata := {
  extractionMethod : string;
  rulesStats : RulesEngine.Stats;
  timestamp : Timestamp;
  llmFallbackUsed : bool;
  totalFields : nat;
  llmFields : option (list string);
  llmFieldsCount : option nat;
  llmError : option string;
  finalFieldsCount : option nat
}.

Inductive Severity := high | medium | low.

Record Recommendation := {
  field : string;
  severity : Severity;
  message : string;
  extractedValue : option string;
  alternatives : option (list string)
}.

Record Summary := {
  totalFieldsRequested : nat;
  fieldsExtracted : nat;
  highConfidenceFields : nat;
  extractionRate : Q;
  averageConfidence : Q;
  sum_extractionMethod : string;
  sum_llmFallbackUsed : bool;
  fieldsFound : list string;
  recommendedReview : list Recommendation
}.

Record ExtractionResult := {
  res_sessionId : string;
  documentType : string;
  filename : string;
  extractedFields : Fields;
  metadata : Metadata;
  summary : Summary
}.

(** The test of the loop of [identifyMissingFields]: no matches found, or
    the best match is below the confidence threshold. *)
Definition isMissing (rulesResults : Fields) (confidenceThreshold : Q)
    (fieldName : string) : bool :=
  match Obj.get rulesResults fieldName with
  | None | Some [] => true
  | Some (bestMatch :: _) => Qltb (confidence bestMatch) confidenceThreshold
  end.

Definition identifyMissingFields (this : t) (rulesResults : Fields)
    (confidenceThreshold : Q) (specificFields : option (list string))
  : list string :=
  let availableFields :=
    match specificFields with
    | Some sf => sf
    | None => Obj.keys (RulesEngine.rules (rulesEngine this))
    end in
  List.filter (isMissing rulesResults confidenceThreshold) availableFields.

Definition mergeResults (rulesResults llmResults : Fields)
    (missingFields : list string) : Fields :=
  fold_left (fun merged fieldName =>
               match Obj.get llmResults fieldName with
               | Some ((_ :: _) as llmMatches) =>
                   let existingMatches := default [] (Obj.get merged fieldName) in
                   (* Add LLM results to existing matches,
                      keep only top 3 results per field *)
                   Obj.set merged fieldName
                     (take 3 (RulesEngine.sortByConfidence
                                (existingMatches ++ llmMatches)))
               | _ => merged
               end) missingFields rulesResults.

Definition postProcessFieldValue (rt : Runtime) (fieldName v : string) : string :=
  if negb (JsString.truthy v) then v
  else if String.eqb fieldName "email" then
    JsString.trim (JsString.toLowerCase v)
  else if String.eqb fieldName "phone" then
    (* Standardize phone number format *)
    let digits := JsString.filterChars JsString.isDigit v in
    if Nat.eqb (String.length digits) 10 then
      "(" ++ JsString.substring digits 0 3 ++ ") "
      ++ JsString.substring digits 3 6 ++ "-" ++ JsString.substringFrom digits 6
    else v
  else if String.eqb fieldName "amount" then
    (* Ensure proper currency formatting *)
    match rt_parseFloat rt
            (JsString.filterChars
               (fun c => negb (Ascii.eqb c ","%char || Ascii.eqb c "$"%char)) v) with
    | None => v
    | Some num => "$" ++ rt_toFixed2 rt num
    end
  else if String.eqb fieldName "date" then
    (* Standardize date format *)
    rt_toLocaleDateString rt v
  else if String.eqb fieldName "name" || String.eqb fieldName "company" then
    (* Title case *)
    JsString.titleCase v
  else JsString.trim v.

(** Normalize confidence to 0-1 range: [Math.min(Math.max(c, 0), 1)]. *)
Definition clamp01 (c : Q) : Q := Qmin (Qmax c 0%Q) 1%Q.

Definition postProcessMatch (rt : Runtime) (fieldName : string) (m : Candidate)
  : Candidate :=
  {| value := postProcessFieldValue rt fieldName (value m);
     confidence := clamp01 (confidence m);
     position := position m;
     context := context m;
     cand_source := cand_source m |}.

Definition postProcess (rt : Runtime) (extractedFields : Fields) : Fields :=
  fold_left (fun processed '(fieldName, matches) =>
               match matches with
               | [] => processed
               | _ => Obj.set processed fieldName
                        (map (postProcessMatch rt fieldName) matches)
               end) (Obj.entries extractedFields) Obj.empty.

Definition calculateAverageConfidence (extractedFields : Fields) : Q :=
  let best :=
    flat_map (fun matches =>
                match matches with
                | m :: _ => [confidence m]
                | [] => []
                end) (Obj.values extractedFields) in
  let totalConfidence := fold_left Qplus best 0%Q in
  let count := length best in
  if Nat.ltb 0 count then (totalConfidence / Qofnat count)%Q else 0%Q.

Definition severityOrder (s : Severity) : nat :=
  match s with high => 3 | medium => 2 | low => 1 end.

(** The recommendation of one field, if any. *)
Definition recommendationFor (fieldName : string) (matches : list Candidate)
  : list Recommendation :=
  match matches with
  | [] =>
      [ {| field := fieldName; severity := high;
           message := "Field not found - manual entry required";
           extractedValue := None; alternatives := None |} ]
  | bestMatch :: rest =>
      if Qltb (confidence bestMatch) 0.5%Q then
        [ {| field := fieldName; severity := medium;
             message := "Low confidence extraction - please verify";
             extractedValue := Some (value bestMatch); alternatives := None |} ]
      else if match rest with
              | second :: _ => Qltb 0.6%Q (confidence second)
              | [] => false
              end
      then
        [ {| field := fieldName; severity := low;
             message := "Multiple similar matches found - please confirm";
             extractedValue := None;
             alternatives := Some (map value (take 3 matches)) |} ]
      else []
  end.

Definition getReviewRecommendations (extractedFields : Fields)
  : list Recommendation :=
  let recommendations :=
    flat_map (fun '(fieldName, matches) => recommendationFor fieldName matches)
      (Obj.entries extractedFields) in
  JsArray.sort (fun a b =>
                  Nat.ltb (severityOrder (severity a)) (severityOrder (severity b)))
    recommendations.

Definition generateExtractionSummary (extractedFields : Fields) (metadata : Metadata)
  : Summary :=
  let fieldsWithValues :=
    List.filter (fun f =>
                   match Obj.get extractedFields f with
                   | Some (_ :: _) => true
                   | _ => false
                   end) (Obj.keys extractedFields) in
  let highConfidenceFields :=
    List.filter (fun f =>
                   match Obj.get extractedFields f with
                   | Some (bestMatch :: _) => Qle_bool 0.8%Q (confidence bestMatch)
                   | _ => false
                   end) fieldsWithValues in
  {| totalFieldsRequested := RulesEngine.totalFields (rulesStats metadata);
     fieldsExtracted := length fieldsWithValues;
     highConfidenceFields := length highConfidenceFields;
     extractionRate :=
       (Qofnat (length fieldsWithValues)
        / Qofnat (RulesEngine.totalFields (rulesStats metadata)))%Q;
     averageConfidence := calculateAverageConfidence extractedFields;
     sum_extractionMethod := extractionMethod metadata;
     sum_llmFallbackUsed := llmFallbackUsed metadata;
     fieldsFound := fieldsWithValues;
     recommendedReview := getReviewRecommendations extractedFields |}.

(** Phases 1 to 3 of [extract]: the rules results, the gap fields, and
    [extractionResult.extractedFields] with its metadata as they stand when
    phase 4 begins. *)
Record Phase3 := {
  p_rulesResults : Fields;
  p_missingFields : list string;
  p_extractedFields : Fields;
  p_metadata : Metadata
}.

Definition extractPhases123 (rt : Runtime) (config : Config) (net : Network)
    (now : Timestamp) (this : t) (processedDocument : ProcessedDocument)
    (options : Options) : Phase3 * t :=
  (* Phase 1: Rules-based extraction *)
  let rulesResults :=
    RulesEngine.extractFields (rulesEngine this) (text processedDocument)
      (specificFields options) in
  let metadata :=
    {| extractionMethod := "rules";
       rulesStats := RulesEngine.getExtractionStats (rulesEngine this) rulesResults;
       timestamp := now;
       llmFallbackUsed := false;
       totalFields := length (Obj.keys rulesResults);
       llmFields := None;
       llmFieldsCount := None;
       llmError := None;
       finalFieldsCount := None |} in
  (* Phase 2: Identify fields that need LLM fallback *)
  let missingFields :=
    identifyMissingFields this rulesResults (confidenceThreshold options)
      (specificFields options) in
  (* Phase 3: LLM fallback for missing fields *)
  if enableLLMFallback options && Nat.ltb 0 (length missingFields) then
    match LLMProvider.extractFields rt config net now (llmProvider this)
            (text processedDocument) missingFields (sessionId options) with
    | (Ok llmResults, llm) =>
        ({| p_rulesResults := rulesResults;
            p_missingFields := missingFields;
            p_extractedFields := mergeResults rulesResults llmResults missingFields;
            p_metadata :=
              {| extractionMethod := "rules+llm";
                 rulesStats := rulesStats metadata;
                 timestamp := timestamp metadata;
                 llmFallbackUsed := true;
                 totalFields := totalFields metadata;
                 llmFields := Some missingFields;
                 llmFieldsCount := Some (length (Obj.keys llmResults));
                 llmError := None;
                 finalFieldsCount := None |} |},
         {| rulesEngine := rulesEngine this; llmProvider := llm |})
    | (Throw llmError, llm) =>
        ({| p_rulesResults := rulesResults;
            p_missingFields := missingFields;
            p_extractedFields := rulesResults;
            p_metadata :=
              {| extractionMethod := extractionMethod metadata;
                 rulesStats := rulesStats metadata;
                 timestamp := timestamp metadata;
                 llmFallbackUsed := llmFallbackUsed metadata;
                 totalFields := totalFields metadata;
                 llmFields := None;
                 llmFieldsCount := None;
                 llmError := Some llmError;
                 finalFieldsCount := None |} |},
         {| rulesEngine := rulesEngine this; llmProvider := llm |})
    end
  else
    ({| p_rulesResults := rulesResults;
        p_missingFields := missingFields;
        p_extractedFields := rulesResults;
        p_metadata := metadata |}, this).

(** [extract]: every step of the outer [try] block is total on the typed
    inputs of the model, so the result is always a value; the instance
    comes back with the ledger of its provider updated. *)
Definition extract (rt : Runtime) (config : Config) (net : Network)
    (now : Timestamp) (this : t) (processedDocument : ProcessedDocument)
    (options : Options) : ExtractionResult * t :=
  let '(p, this') :=
    extractPhases123 rt config net now this processedDocument options in
  (* Phase 4: Post-processing and validation *)
  let extractedFields := postProcess rt (p_extractedFields p) in
  let metadata :=
    {| extractionMethod := extractionMethod (p_metadata p);
       rulesStats := rulesStats (p_metadata p);
       timestamp := timestamp (p_metadata p);
       llmFallbackUsed := llmFallbackUsed (p_metadata p);
       totalFields := totalFields (p_metadata p);
       llmFields := llmFields (p_metadata p);
       llmFieldsCount := llmFieldsCount (p_metadata p);
       llmError := llmError (p_metadata p);
       finalFieldsCount := Some (length (Obj.keys extractedFields)) |} in
  ({| res_sessionId := sessionId options;
      documentType := doc_type processedDocument;
      filename := doc_filename processedDocument;
      extractedFields := extractedFields;
      metadata := metadata;
      (* Generate summary *)
      summary := generateExtractionSummary extractedFields metadata |},
   this').

End FieldExtractor.

(** ** The pipeline service ([src/services/pipeline-service.js]) *)

Module PipelineService.

(** What is sent to the portal: for each field its best match. *)
Definition formatFieldsForPortal (extractedFields : Fields) : Obj.t string :=
  fold_left (fun formatted '(fieldName, matches) =>
               match matches with
               | [] => formatted
               | bestMatch :: _ => Obj.set formatted fieldName (value bestMatch)
               end) (Obj.entries extractedFields) Obj.empty.

Record CostInfo := {
  ci_session : CostTracker.SessionStats;
  ci_daily : CostTracker.DailyStats;
  ci_timestamp : Timestamp
}.

Definition getCostInfo (fieldExtractor : FieldExtractor.t) (now : Timestamp)
    (sessionId : string) : CostInfo :=
  let costTracker := FieldExtractor.getCostTracker fieldExtractor in
  {| ci_session := CostTracker.getSessionStats costTracker sessionId;
     ci_daily := CostTracker.getDailyStats costTracker now None;
     ci_timestamp := now |}.

End PipelineService.

(** ** Calls on the ledger over a day *)






(** The key under which [removeDuplicates] files a candidate. *)
Definition dedupKey (c : Candidate) : string := JsString.toLowerCase (value c).

(** ** A runtime for running the model

    The concrete runs below use three patterns whose matches are easy to
    state: a literal, and a literal followed by a captured run of digits.
    A run either requests custom fields only, so that no built-in pattern
    and no date or amount helper is consulted, or it is on a text in which
    no built-in rule has a valid match.  A second runtime has one built-in
    pattern of the invoice number, for a text that only this pattern and no
    pattern of the other requested field matches. *)

Module Example.

(** The matches of a pattern all of whose matches are non-empty: [step]
    gives, for the text from a position on, the match that starts there
    and its first group; [skip] counts the characters of the last match
    still to pass. *)
Fixpoint scan (step : string -> option (string * option string))
    (input rest : string) (idx skip : nat) : list RegExpMatch :=
  match rest with
  | EmptyString => []
  | String _ rest' =>
      match skip with
      | S k => scan step input rest' (S idx) k
      | O =>
          match step rest with
          | Some (full, g1) =>
              {| m_full := full; m_group1 := g1; m_index := idx; m_input := input |}
              :: scan step input rest' (S idx) (String.length full - 1)
          | None => scan step input rest' (S idx) 0
          end
      end
  end.

Fixpoint takeDigits (s : string) : string :=
  match s with
  | String c s' => if JsString.isDigit c then String c (takeDigits s') else EmptyString
  | EmptyString => EmptyString
  end.

(** [/lit/g] for a literal without metacharacters. *)
Definition literal (lit : string) (text : string) : list RegExpMatch :=
  scan (fun rest => if String.prefix lit rest then Some (lit, None) else None)
    text text 0 0.

(** [/lit(\d+)/g] for a literal without metacharacters. *)
Definition literalDigits (lit : string) (text : string) : list RegExpMatch :=
  scan (fun rest =>
          if String.prefix lit rest then
            let ds := takeDigits (JsString.substringFrom rest (String.length lit)) in
            if JsString.truthy ds then Some (lit ++ ds, Some ds) else None
          else None)
    text text 0 0.

Definition regExps : list (string * (string -> list RegExpMatch)) :=
  [ ("ID:(\d+)", literalDigits "ID:");
    ("REF-A1", literal "REF-A1");
    ("zzz", literal "zzz") ].

(** The replies of the backend that the runs use, decoded. *)
Definition replyRef : string :=
  "{" ++ LLMProvider.dq ++ "ref" ++ LLMProvider.dq ++ ": "
  ++ LLMProvider.dq ++ "ref-a1" ++ LLMProvider.dq ++ "}".

Definition jsonTexts : list (string * Obj.t string) :=
  [ (replyRef, [("ref", "ref-a1")]) ].

Definition runtime : Runtime :=
  {| rt_matchAll := fun src fl text =>
       match Obj.get regExps src with
       | Some f => if String.eqb fl "g" then f text else []
       | None => []
       end;
     rt_Date_parse := fun _ => None;
     rt_parseFloat := fun _ => None;
     rt_toFixed2 := fun _ => "NaN";
     rt_toLocaleDateString := fun _ => "Invalid Date";
     rt_JSON_parse := fun s => option_map Obj.get (Obj.get jsonTexts s) |}.

Definition config : Config :=
  {| openaiApiKey := None;
     ollamaBaseUrl := "http://localhost:11434";
     llmProvider := "ollama";
     llmModel := "llama3.2:3b";
     maxLlmCostPerRequest := 0.01%Q |}.

Definition now : Timestamp :=
  {| isoDate := "2024-06-01"; isoTime := "12:00:00.000Z" |}.

(** The rule of the test suite: [/ID:(\d+)/g], at least three characters,
    priority 1. *)
Definition customIdRule (prio : Z) : Rule :=
  {| patterns := [ regex runtime "ID:(\d+)" "g" ];
     validators := Some [ fun id => Some (Nat.leb 3 (String.length id)) ];
     priority := prio |}.

Definition refRule : Rule :=
  {| patterns := [ regex runtime "REF-A1" "g" ];
     validators := Some [];
     priority := 9 |}.

(** A rule that finds nothing in the texts below. *)
Definition zzzRule : Rule :=
  {| patterns := [ regex runtime "zzz" "g" ];
     validators := None;
     priority := 5 |}.

Definition doc (t : string) : FieldExtractor.ProcessedDocument :=
  {| FieldExtractor.doc_type := "pdf";
     FieldExtractor.doc_filename := "sample.pdf";
     FieldExtractor.text := t |}.

Definition only (fields : list string) (fallback : bool) : FieldExtractor.Options :=
  {| FieldExtractor.sessionId := "default";
     FieldExtractor.enableLLMFallback := fallback;
     FieldExtractor.confidenceThreshold := 0.6%Q;
     FieldExtractor.maxLLMCost := None;
     FieldExtractor.specificFields := Some fields |}.

(** A backend that answers every prompt with [reply]. *)
Definition answering (reply : string) : Network :=
  fun _ _ =>
    Resolved {| data_response := Some reply; data_usage := None; data_content := None |}.

(** A backend that cannot be reached. *)
Definition unreachable : Network :=
  fun _ _ =>
    Rejected {| err_code := Some "ECONNREFUSED"; err_status := None;
                err_message := "connect ECONNREFUSED 127.0.0.1:11434" |}.

(** The engine and the orchestrator after [addCustomRule]. *)
Definition idEngine (prio : Z) : RulesEngine.t :=
  RulesEngine.addCustomRule (RulesEngine.new runtime) "customId" (customIdRule prio).

Definition extractorWith (fieldName : string) (rule : Rule) : FieldExtractor.t :=
  FieldExtractor.addCustomRule (FieldExtractor.new runtime config) fieldName rule.

(** An orchestrator with both the [customId] and the [ref] rule. *)
Definition idRefExtractor : FieldExtractor.t :=
  FieldExtractor.addCustomRule (extractorWith "customId" (customIdRule 1))
    "ref" refRule.

Definition idRefText : string := "Customer ID:12345, order REF-A1".
Definition idText : string := "Customer ID:12345 and Order ID:67890".
Definition idTwiceText : string := "ID:12345, again ID:12345, then ID:67890".
Definition refText : string := "Order REF-A1 shipped".

(** One invocation of [extract] for the given fields. *)
Definition run (net : Network) (fx : FieldExtractor.t) (t : string)
    (fields : list string) (fallback : bool) : FieldExtractor.ExtractionResult :=
  fst (FieldExtractor.extract runtime config net now fx (doc t) (only fields fallback)).

(** A ledger whose total for the day is 0.001: one request of 2000 input
    tokens at 0.0005 per thousand. *)
Definition ledgerAtCap : CostTracker.t :=
  snd (CostTracker.trackRequest CostTracker.new now "s1" "gpt-3.5-turbo" 2000 0).



(** The digits rule registered for the field [phone].  In [idText] the
    built-in phone rule has no valid match (its only matches have five
    digits), and the result of a custom rule replaces that of the built-in
    rule of the same field in any case. *)
Definition phoneIdEngine : RulesEngine.t :=
  RulesEngine.addCustomRule (RulesEngine.new runtime) "phone" (customIdRule 1).

(** [[A-Z0-9-]] under the flag [i]. *)
Definition isCodeChar (c : ascii) : bool :=
  JsString.isUpper c || JsString.isLower c || JsString.isDigit c
  || Ascii.eqb c "-"%char.

Fixpoint takeCode (s : string) : string :=
  match s with
  | String c s' => if isCodeChar c then String c (takeCode s') else EmptyString
  | EmptyString => EmptyString
  end.

(** [/#([A-Z0-9-]{6,})/gi], the third pattern of the invoice number. *)
Definition hashCode (text : string) : list RegExpMatch :=
  scan (fun rest =>
          match rest with
          | String c rest' =>
              if Ascii.eqb c "#"%char then
                let code := takeCode rest' in
                if Nat.leb 6 (String.length code)
                then Some (String c code, Some code) else None
              else None
          | EmptyString => None
          end)
    text text 0 0.

(** A runtime for texts without [@] and without the letters [inv], in which
    no pattern of [email] and neither of the first two patterns of
    [invoiceNumber] has a match. *)
Definition invoiceRuntime : Runtime :=
  {| rt_matchAll := fun src fl text =>
       if String.eqb src "#([A-Z0-9-]{6,})" && String.eqb fl "gi"
       then hashCode text else [];
     rt_Date_parse := fun _ => None;
     rt_parseFloat := fun _ => None;
     rt_toFixed2 := fun _ => "NaN";
     rt_toLocaleDateString := fun _ => "Invalid Date";
     rt_JSON_parse := fun s => option_map Obj.get (Obj.get jsonTexts s) |}.

Definition invoiceText : string := "#ABC-12345".

(** [id => digits.test(id)] for a [const digits = /^\d+$/g] declared next to
    the rule.  With the flag [g], [test] starts at [lastIndex], which it
    sets to the end of a match and to 0 when there is none; the pattern can
    only match from position 0.  The store is this [lastIndex]. *)
Definition digitsTest : Closures.Validator nat :=
  fun v lastIndex =>
    if Nat.eqb lastIndex 0 && JsString.truthy v
       && String.eqb (JsString.filterChars JsString.isDigit v) v
    then (Some true, String.length v)
    else (Some false, 0%nat).

Definition statefulIdRule : Closures.StatefulRule nat :=
  {| Closures.s_patterns := [ fun _ => regex runtime "ID:(\d+)" "g" ];
     Closures.s_validators := Some [ digitsTest ];
     Closures.s_priority := 1 |}.

(** The built-in rules and the rule above for [customId]. *)
Definition statefulIdEngine : Closures.t nat :=
  Closures.addCustomRule (asClosures (RulesEngine.new runtime)) "customId"
    statefulIdRule.

Definition oneIdText : string := "Customer ID:12345".

End Example.

(** ** Notions used in the statements *)

(** [a] may stand before [b] in a ranked list. *)
Definition rankedBefore (a b : Candidate) : Prop :=
  (confidence b <= confidence a)%Q.

(** The invariant of the [Map] of [removeDuplicates]: keys are unique and
    each candidate is filed under its own key. *)
Definition filed (o : Obj.t Candidate) : Prop :=
  NoDup (Obj.keys o) /\ Forall (fun kv => fst kv = dedupKey (snd kv)) o.

(** [m] is covered: the map holds, under the key of [m], a candidate that is
    at least as confident. *)
Definition covers (o : Obj.t Candidate) (m : Candidate) : Prop :=
  exists k, Obj.get o (dedupKey m) = Some k /\ (confidence m <= confidence k)%Q.

(** What [extractFields] files under a field: the five best of the
    deduplicated matches of a rule for that field. *)
Definition rankedFor (text f : string) (ms : list Candidate) : Prop :=
  exists rule,
    ms = take 5 (RulesEngine.removeDuplicates (RulesEngine.extractField text rule f)).

(** A recommendation of severity high. *)
Definition isHigh (r : FieldExtractor.Recommendation) : bool :=
  match FieldExtractor.severity r with
  | FieldExtractor.high => true
  | _ => false
  end.

(** Every character of [s] satisfies [p]. *)
Fixpoint allChars (p : ascii -> bool) (s : string) : bool :=
  match s with
  | EmptyString => true
  | String c s' => p c && allChars p s'
  end.

(** A rule registered for [f], built in or custom. *)
Definition registeredFor (this : RulesEngine.t) (f : string) (rule : Rule) : Prop :=
  In (f, rule) (RulesEngine.rules this) \/ In (f, rule) (RulesEngine.customRules this).

(** The fields an invocation asks for: the explicit subset, or the keys of
    the built-in table. *)
Definition requestedFields (this : FieldExtractor.t) (sf : option (list string))
  : list string :=
  match sf with
  | Some fields => fields
  | None => Obj.keys (RulesEngine.rules (FieldExtractor.rulesEngine this))
  end.

(** A ranked list: between one and five candidates, in non-increasing
    order of confidence. *)
Definition wellRanked (ms : list Candidate) : Prop :=
  ms <> [] /\ (length ms <= 5)%nat /\ StronglySorted rankedBefore ms.

(** The candidate that [parseExtractionResponse] makes of a value. *)
Definition llmCandidate (v : string) : Candidate :=
  {| value := v;
     confidence := 0.7%Q;
     position := None;
     context := "Extracted by LLM fallback";
     cand_source := Some "llm" |}.

(** Every candidate of [l] is [c] itself or less confident than [c]. *)
Definition dominatedBy (c : Candidate) (l : list Candidate) : Prop :=
  Forall (fun x => x = c \/ (confidence x < confidence c)%Q) l.



(** [a] may stand before [b] in the list of recommendations. *)
Definition atLeastAsSevere (a b : FieldExtractor.Recommendation) : Prop :=
  (FieldExtractor.severityOrder (FieldExtractor.severity b)
   <= FieldExtractor.severityOrder (FieldExtractor.severity a))%nat.

(** The recommendation is about the field [f]. *)
Definition about (f : string) (r : FieldExtractor.Recommendation) : bool :=
  String.eqb (FieldExtractor.field r) f.

(** A validator that keeps no state: it leaves the store as it found it
    and its answer does not depend on the store. *)
Definition stateless {S} (validator : Closures.Validator S) : Prop :=
  forall v store store', validator v store = (fst (validator v store'), store).

Definition statelessRule {S} (rule : Closures.StatefulRule S) : Prop :=
  match Closures.s_validators rule with
  | Some vs => Forall stateless vs
  | None => True
  end.

Definition statelessEngine {S} (this : Closures.t S) : Prop :=
  Forall (fun kv => statelessRule (snd kv))
    (Closures.rules this ++ Closures.customRules this).

(** Case analysis on the ways in which phase 3 ends: the backend answered,
    it failed, or it was not called. *)
Ltac phase3_cases :=
  unfold FieldExtractor.extractPhases123;
  destruct (_ && _);
  [ destruct (LLMProvider.extractFields _ _ _ _ _ _ _ _) as [[? | ?] ?] | ].

(** * Properties *)

(** ** The model on the examples of the test suite *)

(** [rules-engine.test.js], custom rules: the first candidate for
    [Customer ID:12345 and Order ID:67890] is [12345]. *)
Example custom_rule_of_the_test_suite :
  option_map (map value)
    (Obj.get
       (RulesEngine.extractFields (Example.idEngine 1) Example.idText
          (Some ["customId"])) "customId")
  = Some ["12345"; "67890"].
Proof. vm_compute. reflexivity. Qed.

(** Post-processing a ten-digit phone number. *)
Example postProcess_phone (rt : Runtime) :
  FieldExtractor.postProcessFieldValue rt "phone" "5551234567" = "(555) 123-4567".
Proof. reflexivity. Qed.

(** Title case of a name, and the token estimate of three words. *)
Example postProcess_name (rt : Runtime) :
  FieldExtractor.postProcessFieldValue rt "name" "john  o'NEIL-smith"
  = "John  O'neil-smith".
Proof. reflexivity. Qed.

Example estimateTokens_three_words :
  CostTracker.estimateTokens "one two three" = 4%N.
Proof. reflexivity. Qed.

(** ** Numbers *)

Lemma Qltb_lt (a b : Q) : Qltb a b = true <-> (a < b)%Q.
Proof.
  unfold Qltb. rewrite negb_true_iff. split.
  - intros H. destruct (Qlt_le_dec a b) as [Hlt | Hle]; [exact Hlt |].
    apply Qle_bool_iff in Hle. congruence.
  - intros H. destruct (Qle_bool b a) eqn:E; [| reflexivity].
    apply Qle_bool_iff in E. lra.
Qed.

Lemma Qltb_ge (a b : Q) : Qltb a b = false <-> (b <= a)%Q.
Proof.
  unfold Qltb. rewrite negb_false_iff. apply Qle_bool_iff.
Qed.

Lemma Qltb_irrefl (a : Q) : Qltb a a = false.
Proof. apply Qltb_ge. lra. Qed.


Lemma QofN_nonneg (n : N) : (0 <= QofN n)%Q.
Proof.
  unfold QofN, Qle. simpl. lia.
Qed.

Lemma clamp01_range (c : Q) :
  (0 <= FieldExtractor.clamp01 c)%Q /\ (FieldExtractor.clamp01 c <= 1)%Q.
Proof.
  unfold FieldExtractor.clamp01. split.
  - apply Q.min_glb; [apply Q.le_max_r | lra].
  - apply Q.le_min_r.
Qed.

(** ** Dictionaries *)

Section ObjFacts.

Context {V : Type}.
Implicit Types (o : Obj.t V) (k : string) (v : V).

Lemma Obj_get_set_eq o k v : Obj.get (Obj.set o k v) k = Some v.
Proof.
  induction o as [| [k' v'] o IH]; simpl.
  - now rewrite String.eqb_refl.
  - destruct (String.eqb k k') eqn:E; simpl; rewrite E; auto.
Qed.

Lemma Obj_get_set_ne o k k' v :
  k <> k' -> Obj.get (Obj.set o k v) k' = Obj.get o k'.
Proof.
  intros Hne. induction o as [| [k0 v0] o IH]; simpl.
  - destruct (String.eqb k' k) eqn:E; [| reflexivity].
    apply String.eqb_eq in E. congruence.
  - destruct (String.eqb k k0) eqn:E; simpl.
    + apply String.eqb_eq in E. subst k0.
      destruct (String.eqb k' k) eqn:E'; [| reflexivity].
      apply String.eqb_eq in E'. congruence.
    + now rewrite IH.
Qed.

Lemma Obj_get_In o k v : Obj.get o k = Some v -> In (k, v) o.
Proof.
  induction o as [| [k' v'] o IH]; simpl; [discriminate |].
  destruct (String.eqb k k') eqn:E.
  - apply String.eqb_eq in E. intros [= ->]. subst. now left.
  - intros H. right. auto.
Qed.

Lemma Obj_get_None_keys o k : Obj.get o k = None -> ~ In k (Obj.keys o).
Proof.
  induction o as [| [k' v'] o IH]; simpl; [tauto |].
  destruct (String.eqb k k') eqn:E; [discriminate |].
  apply String.eqb_neq in E. intros H [Heq | Hin]; [congruence | now apply IH].
Qed.

Lemma Obj_In_get o k v :
  NoDup (Obj.keys o) -> In (k, v) o -> Obj.get o k = Some v.
Proof.
  induction o as [| [k' v'] o IH]; simpl; [tauto |].
  intros Hnd [Heq | Hin].
  - injection Heq as -> ->. now rewrite String.eqb_refl.
  - apply NoDup_cons in Hnd as [Hk Hnd].
    destruct (String.eqb k k') eqn:E.
    + apply String.eqb_eq in E. subst k'. exfalso. apply Hk.
      apply list_elem_of_In.
      change (In (fst (k, v)) (map fst o)). now apply in_map.
    + auto.
Qed.

Lemma Obj_set_In o k v k' v' :
  In (k', v') (Obj.set o k v) -> (k', v') = (k, v) \/ In (k', v') o.
Proof.
  induction o as [| [k0 v0] o IH]; simpl.
  - intros [H | []]. left. congruence.
  - destruct (String.eqb k k0) eqn:E; simpl.
    + apply String.eqb_eq in E. subst k0. intros [H | H]; [left; congruence | auto].
    + intros [H | H]; [auto |]. destruct (IH H); auto.
Qed.

Lemma Obj_set_Forall (P : string * V -> Prop) o k v :
  Forall P o -> P (k, v) -> Forall P (Obj.set o k v).
Proof.
  intros Ho Hk. apply List.Forall_forall. intros [k' v'] Hin.
  destruct (Obj_set_In _ _ _ _ _ Hin) as [-> | Hin']; [exact Hk |].
  rewrite List.Forall_forall in Ho. now apply Ho.
Qed.

Lemma Obj_keys_set o k v :
  Obj.keys (Obj.set o k v)
  = if Obj.has o k then Obj.keys o else (Obj.keys o ++ [k])%list.
Proof.
  unfold Obj.has. induction o as [| [k0 v0] o IH]; simpl; [reflexivity |].
  destruct (String.eqb k k0) eqn:E; simpl; [reflexivity |].
  rewrite IH. now destruct (Obj.get o k).
Qed.

Lemma Obj_set_NoDup o k v :
  NoDup (Obj.keys o) -> NoDup (Obj.keys (Obj.set o k v)).
Proof.
  intros Hnd. rewrite Obj_keys_set. unfold Obj.has.
  destruct (Obj.get o k) eqn:E; [exact Hnd |].
  apply NoDup_app. split; [exact Hnd |]. split; [| apply NoDup_singleton].
  intros x Hx Hin. apply list_elem_of_In in Hx, Hin.
  destruct Hin as [<- | []]. now apply (Obj_get_None_keys o k).
Qed.

End ObjFacts.

(** ** The ledger *)







(** Without a daily cap the pre-flight check allows every request. *)
Lemma canMakeRequest_no_daily_cap (ct : CostTracker.t) (now : Timestamp)
    (sessionId : string) (maxPerRequest : Q) :
  CostTracker.allowed
    (CostTracker.canMakeRequest ct now sessionId maxPerRequest None) = true.
Proof.
  unfold CostTracker.canMakeRequest.
  now rewrite Qltb_irrefl, andb_false_r.
Qed.




(** C10: the provider calls the pre-flight check without a daily cap and the
    per-request test compares the cap with itself, so the check allows every
    request and [extractFields] goes straight to the dispatch on the
    provider; the branch that throws [Cost limit exceeded] is dead. *)
Theorem C10_preflight_never_denies (rt : Runtime) (config : Config) (net : Network)
    (now : Timestamp) (this : LLMProvider.t) (text : string)
    (missingFields : list string) (sessionId : string) :
  CostTracker.allowed
    (CostTracker.canMakeRequest (LLMProvider.costTracker this) now sessionId
       (LLMProvider.maxCostPerRequest this) None) = true
  /\ LLMProvider.extractFields rt config net now this text missingFields sessionId
     = if String.eqb (LLMProvider.provider this) "ollama" then
         LLMProvider.callOllama rt config net now this text missingFields sessionId
       else if String.eqb (LLMProvider.provider this) "openai" then
         LLMProvider.callOpenAI rt config net now this text missingFields sessionId
       else
         (Throw ("Unsupported LLM provider: " ++ LLMProvider.provider this), this).
Proof.
  split.
  - apply canMakeRequest_no_daily_cap.
  - unfold LLMProvider.extractFields.
    now rewrite canMakeRequest_no_daily_cap.
Qed.

(** ** Sorting *)

Section SortFacts.

Context {A : Type} (after : A -> A -> bool).

Lemma insert_Permutation (x : A) (l : list A) :
  JsArray.insert after x l ≡ₚ x :: l.
Proof.
  induction l as [| y l IH]; simpl; [reflexivity |].
  destruct (after x y); [| reflexivity].
  rewrite IH. apply perm_swap.
Qed.

Lemma sort_Permutation (l : list A) : JsArray.sort after l ≡ₚ l.
Proof.
  induction l as [| x l IH]; simpl; [reflexivity |].
  now rewrite insert_Permutation, IH.
Qed.

Lemma sort_In (l : list A) (x : A) : In x (JsArray.sort after l) <-> In x l.
Proof.
  rewrite <- !list_elem_of_In. now rewrite sort_Permutation.
Qed.

Lemma sort_existsb (p : A -> bool) (l : list A) :
  existsb p (JsArray.sort after l) = existsb p l.
Proof.
  apply eq_true_iff_eq. rewrite !existsb_exists.
  split; intros (x & Hin & Hp); exists x; split; auto; now apply sort_In.
Qed.

End SortFacts.

Lemma insertByConfidence_sorted (x : Candidate) (l : list Candidate) :
  StronglySorted rankedBefore l ->
  StronglySorted rankedBefore
    (JsArray.insert (fun a b => Qltb (confidence a) (confidence b)) x l).
Proof.
  induction 1 as [| y l Hl IH Hy]; simpl.
  - repeat constructor.
  - destruct (Qltb (confidence x) (confidence y)) eqn:E.
    + constructor; [exact IH |].
      apply List.Forall_forall. intros z Hz.
      apply list_elem_of_In in Hz. rewrite insert_Permutation in Hz.
      apply list_elem_of_In in Hz. destruct Hz as [<- | Hz].
      * apply Qltb_lt in E. unfold rankedBefore. lra.
      * rewrite List.Forall_forall in Hy. now apply Hy.
    + apply Qltb_ge in E. constructor.
      * now constructor.
      * constructor; [exact E |].
        rewrite List.Forall_forall in Hy |- *. intros z Hz.
        specialize (Hy z Hz). unfold rankedBefore in *. lra.
Qed.

(** Every ranked list is non-increasing in confidence. *)
Lemma sortByConfidence_sorted (l : list Candidate) :
  StronglySorted rankedBefore (RulesEngine.sortByConfidence l).
Proof.
  unfold RulesEngine.sortByConfidence.
  induction l as [| x l IH]; simpl; [constructor |].
  now apply insertByConfidence_sorted.
Qed.

Lemma StronglySorted_take {A} (R : A -> A -> Prop) (n : nat) (l : list A) :
  StronglySorted R l -> StronglySorted R (take n l).
Proof.
  intros H. revert n. induction H as [| x l Hl IH Hx]; intros [| n]; simpl;
    try constructor.
  - apply IH.
  - rewrite List.Forall_forall in Hx |- *. intros y Hy. apply Hx.
    apply list_elem_of_In in Hy. apply list_elem_of_In.
    eapply elem_of_sublist; [exact Hy | apply sublist_take].
Qed.

(** In a ranked list the first candidate has the highest confidence. *)
Lemma sorted_head_max (best c : Candidate) (rest : list Candidate) :
  StronglySorted rankedBefore (best :: rest) ->
  In c (best :: rest) ->
  (confidence c <= confidence best)%Q.
Proof.
  intros Hs [<- | Hin]; [lra |].
  apply StronglySorted_inv in Hs as [_ Hall].
  rewrite List.Forall_forall in Hall. now apply Hall.
Qed.

(** ** The rules stage *)

Lemma keepBest_filed (o : Obj.t Candidate) (m : Candidate) :
  filed o -> filed (RulesEngine.keepBest o m).
Proof.
  intros [Hnd Hall]. unfold RulesEngine.keepBest. fold (dedupKey m).
  assert (Hset : filed (Obj.set o (dedupKey m) m)).
  { split; [now apply Obj_set_NoDup | now apply Obj_set_Forall]. }
  destruct (Obj.get o (dedupKey m)) as [old |]; [| exact Hset].
  destruct (Qltb (confidence old) (confidence m)); [exact Hset | now split].
Qed.

Lemma fold_keepBest_filed (raw : list Candidate) (o : Obj.t Candidate) :
  filed o -> filed (fold_left RulesEngine.keepBest raw o).
Proof.
  revert o. induction raw as [| m raw IH]; intros o Ho; simpl; [exact Ho |].
  apply IH. now apply keepBest_filed.
Qed.

Lemma filed_keys (o : Obj.t Candidate) :
  Forall (fun kv => fst kv = dedupKey (snd kv)) o ->
  map dedupKey (Obj.values o) = Obj.keys o.
Proof.
  unfold Obj.values, Obj.keys.
  induction 1 as [| [k v] o Hk Ho IH]; simpl; [reflexivity |].
  simpl in Hk. now rewrite IH, Hk.
Qed.

Lemma keepBest_covers_new (o : Obj.t Candidate) (m : Candidate) :
  covers (RulesEngine.keepBest o m) m.
Proof.
  unfold covers, RulesEngine.keepBest. fold (dedupKey m).
  destruct (Obj.get o (dedupKey m)) as [old |] eqn:E.
  - destruct (Qltb (confidence old) (confidence m)) eqn:El.
    + exists m. rewrite Obj_get_set_eq. split; [reflexivity | lra].
    + exists old. split; [exact E | now apply Qltb_ge].
  - exists m. rewrite Obj_get_set_eq. split; [reflexivity | lra].
Qed.

Lemma keepBest_covers_old (o : Obj.t Candidate) (x m : Candidate) :
  covers o m -> covers (RulesEngine.keepBest o x) m.
Proof.
  intros (k & Hk & Hle). unfold covers, RulesEngine.keepBest. fold (dedupKey x).
  destruct (String.eqb (dedupKey x) (dedupKey m)) eqn:E.
  - apply String.eqb_eq in E. rewrite E, Hk.
    destruct (Qltb (confidence k) (confidence x)) eqn:El.
    + exists x. rewrite Obj_get_set_eq. apply Qltb_lt in El.
      split; [reflexivity | lra].
    + exists k. now split.
  - apply String.eqb_neq in E.
    destruct (Obj.get o (dedupKey x)) as [old |].
    + destruct (Qltb (confidence old) (confidence x)).
      * exists k. rewrite Obj_get_set_ne by exact E. now split.
      * exists k. now split.
    + exists k. rewrite Obj_get_set_ne by exact E. now split.
Qed.

Lemma fold_keepBest_covers (raw : list Candidate) (o : Obj.t Candidate)
    (m : Candidate) :
  In m raw \/ covers o m -> covers (fold_left RulesEngine.keepBest raw o) m.
Proof.
  revert o. induction raw as [| x raw IH]; intros o H; simpl.
  - destruct H as [[] | H]. exact H.
  - apply IH. destruct H as [[-> | Hin] | Hc].
    + right. apply keepBest_covers_new.
    + now left.
    + right. now apply keepBest_covers_old.
Qed.

Lemma fold_keepBest_origin (raw : list Candidate) (o : Obj.t Candidate)
    (kv : string * Candidate) :
  In kv (fold_left RulesEngine.keepBest raw o) -> In kv o \/ In (snd kv) raw.
Proof.
  revert o. induction raw as [| x raw IH]; intros o H; simpl in *; [now left |].
  destruct (IH _ H) as [Hin | Hin]; [| now right; right].
  unfold RulesEngine.keepBest in Hin.
  assert (Hset : In kv (Obj.set o (JsString.toLowerCase (value x)) x) ->
                 In kv o \/ (x = snd kv \/ In (snd kv) raw)).
  { destruct kv as [k v]. intros Hs.
    destruct (Obj_set_In _ _ _ _ _ Hs) as [Heq | Ho]; [| now left].
    injection Heq as -> ->. right. now left. }
  destruct (Obj.get o (JsString.toLowerCase (value x))) as [old |]; [| auto].
  destruct (Qltb (confidence old) (confidence x)); auto.
Qed.

Lemma filed_empty : filed Obj.empty.
Proof. split; [apply NoDup_nil_2 | constructor]. Qed.

(** After deduplication no two candidates share a case-insensitive value. *)
Lemma removeDuplicates_NoDup (raw : list Candidate) :
  NoDup (map dedupKey (RulesEngine.removeDuplicates raw)).
Proof.
  unfold RulesEngine.removeDuplicates, RulesEngine.sortByConfidence.
  destruct (fold_keepBest_filed raw Obj.empty filed_empty) as [Hnd Hall].
  eapply NoDup_Permutation_proper.
  - apply Permutation_map. apply sort_Permutation.
  - now rewrite filed_keys.
Qed.

(** Deduplication keeps, for each raw match, a match of the same
    case-insensitive value that is at least as confident. *)
Lemma removeDuplicates_keeps_best (raw : list Candidate) (m : Candidate) :
  In m raw ->
  exists k, In k (RulesEngine.removeDuplicates raw) /\ In k raw
            /\ dedupKey k = dedupKey m /\ (confidence m <= confidence k)%Q.
Proof.
  intros Hin.
  destruct (fold_keepBest_covers raw Obj.empty m (or_introl Hin)) as (k & Hk & Hle).
  apply Obj_get_In in Hk.
  destruct (fold_keepBest_filed raw Obj.empty filed_empty) as [_ Hall].
  rewrite List.Forall_forall in Hall. pose proof (Hall _ Hk) as Hkey. simpl in Hkey.
  exists k. repeat split.
  - unfold RulesEngine.removeDuplicates, RulesEngine.sortByConfidence.
    apply sort_In. unfold Obj.values.
    change k with (snd (dedupKey m, k)). now apply in_map.
  - destruct (fold_keepBest_origin _ _ _ Hk) as [[] | H]. exact H.
  - now symmetry.
  - exact Hle.
Qed.

Lemma removeDuplicates_sorted (raw : list Candidate) :
  StronglySorted rankedBefore (RulesEngine.removeDuplicates raw).
Proof. apply sortByConfidence_sorted. Qed.

Lemma rankAndCleanResults_entries (results : Fields) (kv : string * list Candidate) :
  In kv (RulesEngine.rankAndCleanResults results) ->
  exists raw, In (fst kv, raw) results
              /\ snd kv = take 5 (RulesEngine.removeDuplicates raw).
Proof.
  unfold RulesEngine.rankAndCleanResults, Obj.entries.
  assert (G : forall (todo : Fields) (acc : Fields),
             (forall kv, In kv acc ->
                exists raw, In (fst kv, raw) results
                            /\ snd kv = take 5 (RulesEngine.removeDuplicates raw)) ->
             (forall e, In e todo -> In e results) ->
             forall kv,
               In kv (fold_left
                        (fun ranked '(fieldName, matches) =>
                           match matches with
                           | [] => ranked
                           | _ :: _ =>
                               Obj.set ranked fieldName
                                 (take 5 (RulesEngine.removeDuplicates matches))
                           end) todo acc) ->
               exists raw, In (fst kv, raw) results
                           /\ snd kv = take 5 (RulesEngine.removeDuplicates raw)).
  { induction todo as [| [f ms] todo IH]; intros acc Hacc Hsub kv0 H; simpl in H.
    - now apply Hacc.
    - apply (IH _) in H; [exact H | | intros e He; apply Hsub; now right].
      intros kv1 Hin. destruct ms as [| m ms]; [now apply Hacc |].
      destruct kv1 as [k1 v1].
      destruct (Obj_set_In _ _ _ _ _ Hin) as [Heq | Ho]; [| now apply Hacc].
      injection Heq as -> ->. exists (m :: ms). split; [| reflexivity].
      apply Hsub. now left. }
  apply G; [intros ? [] | auto].
Qed.

Lemma extractFields_rankedFor (this : RulesEngine.t) (text : string)
    (sf : option (list string)) (f : string) (ms : list Candidate) :
  Obj.get (RulesEngine.extractFields this text sf) f = Some ms ->
  rankedFor text f ms.
Proof.
  intros H. apply Obj_get_In in H. unfold RulesEngine.extractFields in H.
  apply rankAndCleanResults_entries in H as (raw & Hraw & Heq).
  simpl in Hraw, Heq. subst ms.
  unfold rankedFor.
  set (P := fun kv : string * list Candidate =>
              exists rule, snd kv = RulesEngine.extractField text rule (fst kv)).
  assert (Hfold : forall (A : Type) (step : Fields -> A -> Fields) (xs : list A)
                         (acc : Fields),
             (forall acc x, Forall P acc -> Forall P (step acc x)) ->
             Forall P acc -> Forall P (fold_left step xs acc)).
  { intros A step xs. induction xs as [| x xs IH]; intros acc Hstep Hacc; simpl; auto. }
  assert (HP : Forall P
                 (fold_left
                    (fun results '(fieldName, rule) =>
                       if match sf with
                          | Some sf0 => JsArray.includes sf0 fieldName
                          | None => true
                          end
                       then Obj.set results fieldName
                              (RulesEngine.extractField text rule fieldName)
                       else results)
                    (Obj.entries (RulesEngine.customRules this))
                    (fold_left
                       (fun results '(fieldName, rule) =>
                          Obj.set results fieldName
                            (RulesEngine.extractField text rule fieldName))
                       (Obj.entries
                          match sf with
                          | Some sf0 =>
                              Obj.fromEntries
                                (List.filter (fun '(key, _) => JsArray.includes sf0 key)
                                   (Obj.entries (RulesEngine.rules this)))
                          | None => RulesEngine.rules this
                          end) Obj.empty))).
  { apply Hfold.
    - intros acc [k rule] Hacc.
      destruct (match sf with Some sf0 => JsArray.includes sf0 k | None => true end);
        [| exact Hacc].
      apply Obj_set_Forall; [exact Hacc | now exists rule].
    - apply Hfold; [| constructor].
      intros acc [k rule] Hacc. apply Obj_set_Forall; [exact Hacc | now exists rule]. }
  rewrite List.Forall_forall in HP. destruct (HP _ Hraw) as (rule & Hrule).
  simpl in Hrule. exists rule. now rewrite Hrule.
Qed.

Lemma rankedFor_sorted (text f : string) (ms : list Candidate) :
  rankedFor text f ms -> StronglySorted rankedBefore ms.
Proof.
  intros (rule & ->). apply StronglySorted_take, removeDuplicates_sorted.
Qed.

Lemma rankedFor_NoDup (text f : string) (ms : list Candidate) :
  rankedFor text f ms -> NoDup (map dedupKey ms).
Proof.
  intros (rule & ->). rewrite <- List.firstn_map.
  eapply sublist_NoDup; [apply removeDuplicates_NoDup | apply sublist_take].
Qed.

(** C4, as the code has it: in the result of the rules stage no field holds
    two candidates whose values are equal up to case; the list of a field is
    the five best of the deduplicated matches of its rule, and for every raw
    match deduplication keeps a match of the same value, up to case, that is
    at least as confident.  (Merging and post-processing do not deduplicate
    again.) *)
Theorem C4_rules_stage_no_duplicates (this : RulesEngine.t) (text : string)
    (specificFields : option (list string)) (f : string) (ms : list Candidate) :
  Obj.get (RulesEngine.extractFields this text specificFields) f = Some ms ->
  NoDup (map dedupKey ms)
  /\ exists rule,
       let raw := RulesEngine.extractField text rule f in
       ms = take 5 (RulesEngine.removeDuplicates raw)
       /\ forall m, In m raw ->
            exists k, In k (RulesEngine.removeDuplicates raw)
                      /\ dedupKey k = dedupKey m
                      /\ (confidence m <= confidence k)%Q.
Proof.
  intros H. apply extractFields_rankedFor in H as Hr. split.
  - now apply (rankedFor_NoDup text f).
  - destruct Hr as (rule & ->). exists rule. split; [reflexivity |].
    intros m Hm. destruct (removeDuplicates_keeps_best _ _ Hm) as (k & ? & ? & ? & ?).
    now exists k.
Qed.

(** The custom rule of the test suite on a text that names one id twice. *)
Lemma C4_rules_stage_no_duplicates_witness :
  let ms :=
    default [] (Obj.get
                  (RulesEngine.extractFields (Example.idEngine 1) Example.idTwiceText
                     (Some ["customId"])) "customId") in
  NoDup (map dedupKey ms)
  /\ exists rule,
       let raw := RulesEngine.extractField Example.idTwiceText rule "customId" in
       ms = take 5 (RulesEngine.removeDuplicates raw)
       /\ forall m, In m raw ->
            exists k, In k (RulesEngine.removeDuplicates raw)
                      /\ dedupKey k = dedupKey m
                      /\ (confidence m <= confidence k)%Q.
Proof.
  apply (C4_rules_stage_no_duplicates (Example.idEngine 1) Example.idTwiceText
           (Some ["customId"]) "customId").
  vm_compute. reflexivity.
Defined.

(** C4 as stated fails after the merge: the rules stage finds [REF-A1] below
    the threshold, the backend answers [ref-a1] for the same field, and the
    merged and post-processed list holds both. *)
Lemma C4_counterexample :
  option_map (map dedupKey)
    (Obj.get
       (FieldExtractor.extractedFields
          (Example.run (Example.answering Example.replyRef)
             (Example.extractorWith "ref" Example.refRule)
             Example.refText ["ref"] true)) "ref")
  = Some ["ref-a1"; "ref-a1"].
Proof. vm_compute. reflexivity. Qed.

(** ** Gap detection and merge *)

Lemma identifyMissingFields_isMissing (this : FieldExtractor.t) (rulesResults : Fields)
    (threshold : Q) (sf : option (list string)) (f : string) :
  In f (FieldExtractor.identifyMissingFields this rulesResults threshold sf) ->
  FieldExtractor.isMissing rulesResults threshold f = true.
Proof.
  unfold FieldExtractor.identifyMissingFields. intros H.
  now apply List.filter_In in H as [_ H].
Qed.

(** [mergeResults] writes gap fields only. *)
Lemma mergeResults_other (rulesResults llmResults : Fields)
    (missingFields : list string) (f : string) :
  ~ In f missingFields ->
  Obj.get (FieldExtractor.mergeResults rulesResults llmResults missingFields) f
  = Obj.get rulesResults f.
Proof.
  unfold FieldExtractor.mergeResults. revert rulesResults.
  induction missingFields as [| g gs IH]; intros acc Hnin; simpl; [reflexivity |].
  rewrite IH by (intros H; apply Hnin; now right).
  destruct (Obj.get llmResults g) as [[| m ms] |]; try reflexivity.
  apply Obj_get_set_ne. intros ->. apply Hnin. now left.
Qed.

(** A field the rules stage filled with a candidate at or above the
    threshold is not a gap. *)
Lemma confident_not_missing (text f : string) (rulesResults : Fields)
    (threshold : Q) (ms : list Candidate) (c : Candidate) :
  Obj.get rulesResults f = Some ms ->
  rankedFor text f ms ->
  In c ms ->
  (threshold <= confidence c)%Q ->
  FieldExtractor.isMissing rulesResults threshold f = false.
Proof.
  intros Hget Hr Hin Hthr. unfold FieldExtractor.isMissing. rewrite Hget.
  destruct ms as [| best rest]; [destruct Hin |].
  apply Qltb_ge.
  pose proof (sorted_head_max best c rest (rankedFor_sorted _ _ _ Hr) Hin).
  lra.
Qed.

Lemma phases123_rulesResults (rt : Runtime) (config : Config) (net : Network)
    (now : Timestamp) (this : FieldExtractor.t)
    (doc : FieldExtractor.ProcessedDocument) (options : FieldExtractor.Options) :
  FieldExtractor.p_rulesResults
    (fst (FieldExtractor.extractPhases123 rt config net now this doc options))
  = RulesEngine.extractFields (FieldExtractor.rulesEngine this)
      (FieldExtractor.text doc) (FieldExtractor.specificFields options).
Proof.
  phase3_cases; reflexivity.
Qed.

Lemma phases123_missingFields (rt : Runtime) (config : Config) (net : Network)
    (now : Timestamp) (this : FieldExtractor.t)
    (doc : FieldExtractor.ProcessedDocument) (options : FieldExtractor.Options) :
  FieldExtractor.p_missingFields
    (fst (FieldExtractor.extractPhases123 rt config net now this doc options))
  = FieldExtractor.identifyMissingFields this
      (RulesEngine.extractFields (FieldExtractor.rulesEngine this)
         (FieldExtractor.text doc) (FieldExtractor.specificFields options))
      (FieldExtractor.confidenceThreshold options)
      (FieldExtractor.specificFields options).
Proof.
  phase3_cases; reflexivity.
Qed.

(** After phase 3 the fields are the rules results, merged with the answer
    of the backend when there was one. *)
Lemma phases123_extractedFields (rt : Runtime) (config : Config) (net : Network)
    (now : Timestamp) (this : FieldExtractor.t)
    (doc : FieldExtractor.ProcessedDocument) (options : FieldExtractor.Options) :
  let p := fst (FieldExtractor.extractPhases123 rt config net now this doc options) in
  FieldExtractor.p_extractedFields p = FieldExtractor.p_rulesResults p
  \/ exists llmResults,
       FieldExtractor.p_extractedFields p
       = FieldExtractor.mergeResults (FieldExtractor.p_rulesResults p) llmResults
           (FieldExtractor.p_missingFields p).
Proof.
  phase3_cases; simpl; [right; eauto | now left | now left].
Qed.

(** C2: whatever the backend does (candidates, nothing, an error), a field
    in which the rules stage found a candidate at or above the threshold
    leaves the merge with exactly the list the rules stage gave it, so that
    candidate is still there. *)
Theorem C2_merge_keeps_confident_candidates (rt : Runtime) (config : Config)
    (net : Network) (now : Timestamp) (this : FieldExtractor.t)
    (doc : FieldExtractor.ProcessedDocument) (options : FieldExtractor.Options)
    (f : string) (ms : list Candidate) (c : Candidate) :
  let p := fst (FieldExtractor.extractPhases123 rt config net now this doc options) in
  Obj.get (FieldExtractor.p_rulesResults p) f = Some ms ->
  In c ms ->
  (FieldExtractor.confidenceThreshold options <= confidence c)%Q ->
  Obj.get (FieldExtractor.p_extractedFields p) f = Some ms
  /\ exists ms', Obj.get (FieldExtractor.p_extractedFields p) f = Some ms' /\ In c ms'.
Proof.
  intros p Hget Hin Hthr.
  assert (Hgoal : Obj.get (FieldExtractor.p_extractedFields p) f = Some ms).
  { destruct (phases123_extractedFields rt config net now this doc options)
      as [Heq | (llm & Heq)]; fold p in Heq; rewrite Heq; [exact Hget |].
    rewrite mergeResults_other; [exact Hget |].
    subst p. rewrite phases123_missingFields. intros Hmiss.
    apply identifyMissingFields_isMissing in Hmiss.
    rewrite phases123_rulesResults in Hget.
    pose proof (extractFields_rankedFor _ _ _ _ _ Hget) as Hr.
    rewrite (confident_not_missing _ _ _ _ _ _ Hget Hr Hin Hthr) in Hmiss.
    discriminate. }
  split; [exact Hgoal | now exists ms].
Qed.

(** Two custom fields: [ref] is a gap and gets the answer of the backend
    merged in, [customId] is above the threshold and keeps its list. *)
Lemma C2_merge_keeps_confident_candidates_witness :
  let p :=
    fst (FieldExtractor.extractPhases123 Example.runtime Example.config
           (Example.answering Example.replyRef) Example.now
           Example.idRefExtractor
           (Example.doc Example.idRefText) (Example.only ["customId"; "ref"] true)) in
  let ms := default [] (Obj.get (FieldExtractor.p_rulesResults p) "customId") in
  let c := default {| value := ""; confidence := 0; position := None;
                      context := ""; cand_source := None |} (head ms) in
  Obj.get (FieldExtractor.p_extractedFields p) "customId" = Some ms
  /\ exists ms', Obj.get (FieldExtractor.p_extractedFields p) "customId" = Some ms'
                 /\ In c ms'.
Proof.
  apply (C2_merge_keeps_confident_candidates Example.runtime Example.config
           (Example.answering Example.replyRef) Example.now
           Example.idRefExtractor
           (Example.doc Example.idRefText) (Example.only ["customId"; "ref"] true)
           "customId").
  - vm_compute. reflexivity.
  - vm_compute. left. reflexivity.
  - apply Qle_bool_iff. vm_compute. reflexivity.
Defined.

(** ** Confidence *)

(** The upper clamp of [calculateConfidence]. *)
Lemma calculateConfidence_le_1 (m : RegExpMatch) (pattern : RegExp) (rule : Rule) :
  (RulesEngine.calculateConfidence m pattern rule <= 1)%Q.
Proof.
  unfold RulesEngine.calculateConfidence.
  eapply Qle_trans; [apply Q.le_min_r |]. unfold Qle; simpl; lia.
Qed.

(** There is no lower clamp: the confidence is non-negative as long as the
    priority is at most 20. *)
Lemma calculateConfidence_nonneg (m : RegExpMatch) (pattern : RegExp) (rule : Rule) :
  (priority rule <= 20)%Z ->
  (0 <= RulesEngine.calculateConfidence m pattern rule)%Q.
Proof.
  intros Hp. unfold RulesEngine.calculateConfidence.
  assert (Hq : (inject_Z (priority rule) <= 20)%Q).
  { change 20%Q with (inject_Z 20). now rewrite <- Zle_Qle. }
  apply Q.min_glb; [| lra].
  repeat match goal with
         | |- context [if ?b then _ else _] => destruct b
         end; lra.
Qed.

Lemma postProcess_entries (rt : Runtime) (fields : Fields)
    (kv : string * list Candidate) :
  In kv (FieldExtractor.postProcess rt fields) ->
  exists ms, ms <> [] /\ snd kv = map (FieldExtractor.postProcessMatch rt (fst kv)) ms.
Proof.
  unfold FieldExtractor.postProcess, Obj.entries.
  assert (G : forall (todo acc : Fields),
             (forall kv, In kv acc ->
                exists ms, ms <> []
                           /\ snd kv = map (FieldExtractor.postProcessMatch rt (fst kv)) ms) ->
             forall kv,
               In kv (fold_left
                        (fun processed '(fieldName, matches) =>
                           match matches with
                           | [] => processed
                           | _ :: _ =>
                               Obj.set processed fieldName
                                 (map (FieldExtractor.postProcessMatch rt fieldName) matches)
                           end) todo acc) ->
               exists ms, ms <> []
                          /\ snd kv = map (FieldExtractor.postProcessMatch rt (fst kv)) ms).
  { induction todo as [| [f ms] todo IH]; intros acc Hacc kv0 H; simpl in H.
    - now apply Hacc.
    - apply (IH _) in H; [exact H |].
      intros [k1 v1] Hin. destruct ms as [| m ms]; [now apply Hacc |].
      destruct (Obj_set_In _ _ _ _ _ Hin) as [Heq | Ho]; [| now apply Hacc].
      injection Heq as -> ->. now exists (m :: ms). }
  apply G. intros ? [].
Qed.

(** Every candidate of the final output has its confidence in [0,1]. *)
Lemma extract_confidence_range (rt : Runtime) (config : Config) (net : Network)
    (now : Timestamp) (this : FieldExtractor.t)
    (doc : FieldExtractor.ProcessedDocument) (options : FieldExtractor.Options)
    (f : string) (ms : list Candidate) (c : Candidate) :
  Obj.get (FieldExtractor.extractedFields
             (fst (FieldExtractor.extract rt config net now this doc options))) f
  = Some ms ->
  In c ms ->
  (0 <= confidence c)%Q /\ (confidence c <= 1)%Q.
Proof.
  unfold FieldExtractor.extract.
  destruct (FieldExtractor.extractPhases123 _ _ _ _ _ _ _) as [p this']. simpl.
  intros Hget Hin. apply Obj_get_In in Hget.
  apply postProcess_entries in Hget as (raw & _ & Heq). simpl in Heq. subst ms.
  apply List.in_map_iff in Hin as (c0 & <- & _). simpl.
  apply clamp01_range.
Qed.

(** C3 fails in the rules stage: a custom rule of priority 30 matches, and
    [extractFields] returns its candidates with confidence
    0.5 + (10 - 30) * 0.05 = -0.5. *)
Theorem C3_rules_stage_negative_confidence :
  option_map (map (fun c => (value c, Qred (confidence c))))
    (Obj.get
       (RulesEngine.extractFields (Example.idEngine 30) Example.idText
          (Some ["customId"])) "customId")
  = Some [("12345", (-1 # 2)%Q); ("67890", (-1 # 2)%Q)].
Proof. vm_compute. reflexivity. Qed.

(** ** Failure of the fallback *)

(** The ways in which the call of the backend fails: a provider that is not
    supported, a request that is rejected, a key that is refused.  A reply
    that cannot be parsed is no failure of the call: it gives the empty
    result. *)
Lemma fallback_unsupported_provider (rt : Runtime) (config : Config) (net : Network)
    (now : Timestamp) (this : LLMProvider.t) (text : string)
    (missingFields : list string) (sessionId : string) :
  String.eqb (LLMProvider.provider this) "ollama" = false ->
  String.eqb (LLMProvider.provider this) "openai" = false ->
  LLMProvider.extractFields rt config net now this text missingFields sessionId
  = (Throw ("Unsupported LLM provider: " ++ LLMProvider.provider this), this).
Proof.
  intros H1 H2. unfold LLMProvider.extractFields.
  now rewrite canMakeRequest_no_daily_cap, H1, H2.
Qed.

Lemma fallback_request_rejected (rt : Runtime) (config : Config) (net : Network)
    (now : Timestamp) (this : LLMProvider.t) (text : string)
    (missingFields : list string) (sessionId : string) (error : AxiosError) :
  LLMProvider.provider this = "ollama" ->
  (forall url body, net url body = Rejected error) ->
  exists message,
    LLMProvider.extractFields rt config net now this text missingFields sessionId
    = (Throw message, this).
Proof.
  intros Hp Hnet. unfold LLMProvider.extractFields, LLMProvider.callOllama.
  rewrite canMakeRequest_no_daily_cap, Hp, Hnet. simpl.
  destruct (match err_code error with Some c => _ | None => _ end); eauto.
Qed.

Lemma fallback_key_refused (rt : Runtime) (config : Config) (net : Network)
    (now : Timestamp) (this : LLMProvider.t) (text : string)
    (missingFields : list string) (sessionId : string) (error : AxiosError)
    (key : string) :
  LLMProvider.provider this = "openai" ->
  openaiApiKey config = Some key ->
  JsString.truthy key = true ->
  err_status error = Some 401%nat ->
  (forall url body, net url body = Rejected error) ->
  LLMProvider.extractFields rt config net now this text missingFields sessionId
  = (Throw "Invalid OpenAI API key", this).
Proof.
  intros Hp Hkey Htruthy Hstatus Hnet.
  unfold LLMProvider.extractFields, LLMProvider.callOpenAI.
  rewrite canMakeRequest_no_daily_cap, Hp, Hkey, Htruthy, Hnet, Hstatus.
  reflexivity.
Qed.

Lemma parseExtractionResponse_unparsable (rt : Runtime) (responseText : option string)
    (missingFields : list string) :
  (forall s, rt_JSON_parse rt s = None) ->
  LLMProvider.parseExtractionResponse rt responseText missingFields = Obj.empty.
Proof.
  intros Hparse. unfold LLMProvider.parseExtractionResponse.
  destruct responseText; [| reflexivity]. now rewrite Hparse.
Qed.

(** C5, as the code has it: when the call of the provider throws (the
    backend cannot be reached or answers with an error, the key is missing
    or refused, the rate limit is hit, the provider is not supported, the
    response lacks its usage or its choices), [extract] still returns; the
    fields are the post-processed rules results, the same as with the
    fallback switched off, and the message is recorded in the metadata.
    The requested fields are taken to have ordinary names: for a name that
    a plain object inherits, the look-up of the rules results does not give
    [undefined] as [Obj.get] has it, and the gap detection of the code can
    throw before the provider is called. *)
Theorem C5_provider_exception_is_absorbed (rt : Runtime) (config : Config)
    (net : Network) (now : Timestamp) (this : FieldExtractor.t)
    (doc : FieldExtractor.ProcessedDocument) (options : FieldExtractor.Options)
    (message : string) (llm' : LLMProvider.t) :
  let rulesResults :=
    RulesEngine.extractFields (FieldExtractor.rulesEngine this)
      (FieldExtractor.text doc) (FieldExtractor.specificFields options) in
  let missingFields :=
    FieldExtractor.identifyMissingFields this rulesResults
      (FieldExtractor.confidenceThreshold options)
      (FieldExtractor.specificFields options) in
  let rulesOnly :=
    {| FieldExtractor.sessionId := FieldExtractor.sessionId options;
       FieldExtractor.enableLLMFallback := false;
       FieldExtractor.confidenceThreshold := FieldExtractor.confidenceThreshold options;
       FieldExtractor.maxLLMCost := FieldExtractor.maxLLMCost options;
       FieldExtractor.specificFields := FieldExtractor.specificFields options |} in
  let r := fst (FieldExtractor.extract rt config net now this doc options) in
  FieldExtractor.enableLLMFallback options = true ->
  forallb Obj.plainName
    (requestedFields this (FieldExtractor.specificFields options)) = true ->
  missingFields <> [] ->
  LLMProvider.extractFields rt config net now (FieldExtractor.llmProvider this)
    (FieldExtractor.text doc) missingFields (FieldExtractor.sessionId options)
  = (Throw message, llm') ->
  FieldExtractor.extractedFields r = FieldExtractor.postProcess rt rulesResults
  /\ FieldExtractor.extractedFields r
     = FieldExtractor.extractedFields
         (fst (FieldExtractor.extract rt config net now this doc rulesOnly))
  /\ FieldExtractor.llmError (FieldExtractor.metadata r) = Some message
  /\ FieldExtractor.extractionMethod (FieldExtractor.metadata r) = "rules"
  /\ FieldExtractor.llmFallbackUsed (FieldExtractor.metadata r) = false.
Proof.
  intros rulesResults missingFields rulesOnly r Hon _ Hgap Hthrow.
  subst r. unfold FieldExtractor.extract, FieldExtractor.extractPhases123. simpl.
  fold rulesResults. fold missingFields.
  rewrite Hon, Hthrow.
  destruct missingFields as [| g gs]; [contradiction |]. simpl. auto.
Qed.

(** The backend cannot be reached while [ref] is a gap. *)
Lemma C5_provider_exception_is_absorbed_witness :
  let r :=
    Example.run Example.unreachable (Example.extractorWith "ref" Example.refRule)
      Example.refText ["ref"] true in
  FieldExtractor.extractedFields r
  = FieldExtractor.postProcess Example.runtime
      (RulesEngine.extractFields
         (FieldExtractor.rulesEngine (Example.extractorWith "ref" Example.refRule))
         Example.refText (Some ["ref"]))
  /\ FieldExtractor.extractedFields r
     = FieldExtractor.extractedFields
         (Example.run Example.unreachable
            (Example.extractorWith "ref" Example.refRule) Example.refText ["ref"] false)
  /\ FieldExtractor.llmError (FieldExtractor.metadata r)
     = Some "Ollama server is not running. Please start Ollama and try again."
  /\ FieldExtractor.extractionMethod (FieldExtractor.metadata r) = "rules"
  /\ FieldExtractor.llmFallbackUsed (FieldExtractor.metadata r) = false.
Proof.
  apply (C5_provider_exception_is_absorbed Example.runtime Example.config
           Example.unreachable Example.now
           (Example.extractorWith "ref" Example.refRule)
           (Example.doc Example.refText) (Example.only ["ref"] true)
           "Ollama server is not running. Please start Ollama and try again."
           (FieldExtractor.llmProvider (Example.extractorWith "ref" Example.refRule))).
  - reflexivity.
  - reflexivity.
  - vm_compute. discriminate.
  - vm_compute. reflexivity.
Defined.

(** C5 as stated fails for a reply that cannot be parsed: that failure is
    swallowed inside [parseExtractionResponse], which answers with no field
    at all, so nothing reaches the [catch] of [extract].  The result keeps
    the rules-only fields, as the claim says, but no message is recorded in
    the metadata, and the result is marked as obtained with the fallback. *)
Lemma C5_counterexample :
  let r :=
    Example.run (Example.answering "I could not find anything.")
      Example.idRefExtractor Example.idRefText ["customId"; "ref"] true in
  rt_JSON_parse Example.runtime "" = None
  /\ FieldExtractor.llmError (FieldExtractor.metadata r) = None
  /\ FieldExtractor.extractionMethod (FieldExtractor.metadata r) = "rules+llm"
  /\ FieldExtractor.llmFallbackUsed (FieldExtractor.metadata r) = true
  /\ FieldExtractor.llmFieldsCount (FieldExtractor.metadata r) = Some 0%nat
  /\ FieldExtractor.extractedFields r
     = FieldExtractor.extractedFields
         (Example.run (Example.answering "I could not find anything.")
            Example.idRefExtractor Example.idRefText ["customId"; "ref"] false).
Proof. vm_compute. repeat split. Qed.

(** ** The gap set *)

Lemma includes_In (xs : list string) (x : string) :
  JsArray.includes xs x = true <-> In x xs.
Proof.
  unfold JsArray.includes. rewrite existsb_exists. split.
  - intros (y & Hin & Heq). apply String.eqb_eq in Heq. now subst.
  - intros Hin. exists x. split; [exact Hin | apply String.eqb_refl].
Qed.

(** A requested field for which the rules stage has no candidates is a gap:
    with an explicit subset every listed field counts as requested, without
    one the built-in fields do. *)
Lemma requested_empty_field_is_gap (this : FieldExtractor.t) (rulesResults : Fields)
    (threshold : Q) (sf : option (list string)) (f : string) :
  In f (match sf with
        | Some fields => fields
        | None => Obj.keys (RulesEngine.rules (FieldExtractor.rulesEngine this))
        end) ->
  Obj.get rulesResults f = None ->
  In f (FieldExtractor.identifyMissingFields this rulesResults threshold sf).
Proof.
  intros Hreq Hnone. unfold FieldExtractor.identifyMissingFields.
  apply List.filter_In. split; [exact Hreq |].
  unfold FieldExtractor.isMissing. now rewrite Hnone.
Qed.

(** C6 fails for custom rules: without an explicit subset the gap fields are
    drawn from the built-in table alone, so a field that only has a custom
    rule is never passed to the backend, whatever the rules stage found for
    it. *)
Theorem C6_custom_field_left_out_of_gap_set (rt : Runtime) (config : Config)
    (net : Network) (now : Timestamp) (this : FieldExtractor.t)
    (doc : FieldExtractor.ProcessedDocument) (options : FieldExtractor.Options)
    (f : string) :
  FieldExtractor.specificFields options = None ->
  JsArray.includes
    (Obj.keys (RulesEngine.rules (FieldExtractor.rulesEngine this))) f = false ->
  JsArray.includes
    (FieldExtractor.p_missingFields
       (fst (FieldExtractor.extractPhases123 rt config net now this doc options))) f
  = false.
Proof.
  intros Hsf Hbuiltin. rewrite phases123_missingFields, Hsf.
  destruct (JsArray.includes (FieldExtractor.identifyMissingFields _ _ _ _) f) eqn:E;
    [| reflexivity].
  apply includes_In in E. unfold FieldExtractor.identifyMissingFields in E.
  apply List.filter_In in E as [E _]. apply includes_In in E. congruence.
Qed.

(** On the empty text the custom field [zzz] has no candidates, and with
    the default options it is not among the gap fields. *)
Lemma C6_custom_field_left_out_of_gap_set_witness :
  Obj.get
    (FieldExtractor.p_rulesResults
       (fst (FieldExtractor.extractPhases123 Example.runtime Example.config
               Example.unreachable Example.now
               (Example.extractorWith "zzz" Example.zzzRule)
               (Example.doc "") FieldExtractor.defaultOptions))) "zzz" = None
  /\ JsArray.includes
       (FieldExtractor.p_missingFields
          (fst (FieldExtractor.extractPhases123 Example.runtime Example.config
                  Example.unreachable Example.now
                  (Example.extractorWith "zzz" Example.zzzRule)
                  (Example.doc "") FieldExtractor.defaultOptions))) "zzz"
     = false.
Proof.
  split; [vm_compute; reflexivity |].
  apply (C6_custom_field_left_out_of_gap_set Example.runtime Example.config
           Example.unreachable Example.now
           (Example.extractorWith "zzz" Example.zzzRule)
           (Example.doc "") FieldExtractor.defaultOptions "zzz").
  - reflexivity.
  - vm_compute. reflexivity.
Defined.

(** ** The summary *)

Lemma phases123_rulesStats (rt : Runtime) (config : Config) (net : Network)
    (now : Timestamp) (this : FieldExtractor.t)
    (doc : FieldExtractor.ProcessedDocument) (options : FieldExtractor.Options) :
  let p := fst (FieldExtractor.extractPhases123 rt config net now this doc options) in
  FieldExtractor.rulesStats (FieldExtractor.p_metadata p)
  = RulesEngine.getExtractionStats (FieldExtractor.rulesEngine this)
      (FieldExtractor.p_rulesResults p).
Proof.
  phase3_cases; reflexivity.
Qed.

(** C7 fails for an explicit subset: the denominator of [extractionRate],
    reported as [totalFieldsRequested], is always the number of built-in
    rules plus the number of custom rules, whatever fields were requested.
    With one field requested and found, and nine rules registered, the rate
    is 1/9. *)
Theorem C7_extraction_rate_over_all_rules :
  (forall (rt : Runtime) (config : Config) (net : Network) (now : Timestamp)
          (this : FieldExtractor.t) (doc : FieldExtractor.ProcessedDocument)
          (options : FieldExtractor.Options),
      let s :=
        FieldExtractor.summary
          (fst (FieldExtractor.extract rt config net now this doc options)) in
      let registered :=
        (length (Obj.keys (RulesEngine.rules (FieldExtractor.rulesEngine this)))
         + Obj.size (RulesEngine.customRules (FieldExtractor.rulesEngine this)))%nat in
      FieldExtractor.totalFieldsRequested s = registered
      /\ FieldExtractor.extractionRate s
         = (Qofnat (length (FieldExtractor.fieldsFound s)) / Qofnat registered)%Q)
  /\ (let s :=
        FieldExtractor.summary
          (Example.run Example.unreachable
             (Example.extractorWith "customId" (Example.customIdRule 1))
             Example.idText ["customId"] false) in
      FieldExtractor.fieldsFound s = ["customId"]
      /\ FieldExtractor.totalFieldsRequested s = 9%nat
      /\ Qred (FieldExtractor.extractionRate s) = (1 # 9)%Q).
Proof.
  split.
  - intros rt config net now this doc options.
    pose proof (phases123_rulesStats rt config net now this doc options) as Hstats.
    unfold FieldExtractor.extract. cbv zeta in Hstats.
    destruct (FieldExtractor.extractPhases123 _ _ _ _ _ _ _) as [p this'].
    simpl in *. rewrite Hstats. simpl. split; reflexivity.
  - vm_compute. auto.
Qed.

Lemma recommendationFor_not_high (f : string) (ms : list Candidate) :
  ms <> [] -> existsb isHigh (FieldExtractor.recommendationFor f ms) = false.
Proof.
  intros Hne. unfold FieldExtractor.recommendationFor.
  destruct ms as [| best rest]; [contradiction |].
  destruct (Qltb (confidence best) 0.5); [reflexivity |].
  now destruct (match rest with [] => false | _ => _ end).
Qed.

Lemma getReviewRecommendations_not_high (fields : Fields) :
  Forall (fun kv => snd kv <> []) fields ->
  existsb isHigh (FieldExtractor.getReviewRecommendations fields) = false.
Proof.
  intros Hall. unfold FieldExtractor.getReviewRecommendations, Obj.entries.
  rewrite sort_existsb.
  induction Hall as [| [f ms] fields Hne _ IH]; simpl; [reflexivity |].
  rewrite existsb_app, IH, orb_false_r. now apply recommendationFor_not_high.
Qed.

(** The post-processed fields hold non-empty lists only. *)
Lemma postProcess_nonempty (rt : Runtime) (fields : Fields) :
  Forall (fun kv => snd kv <> []) (FieldExtractor.postProcess rt fields).
Proof.
  apply List.Forall_forall. intros kv Hin.
  apply postProcess_entries in Hin as (ms & Hne & ->).
  destruct ms; [contradiction | discriminate].
Qed.

(** C8 fails: a field without candidates is no key of the fields that
    [getReviewRecommendations] walks over, since the rules stage and the
    post-processing both leave empty fields out.  No summary ever holds a
    recommendation of severity high; a run that requests one field and finds
    nothing for it recommends nothing. *)
Theorem C8_no_manual_entry_recommendation :
  (forall (rt : Runtime) (config : Config) (net : Network) (now : Timestamp)
          (this : FieldExtractor.t) (doc : FieldExtractor.ProcessedDocument)
          (options : FieldExtractor.Options),
      existsb isHigh
        (FieldExtractor.recommendedReview
           (FieldExtractor.summary
              (fst (FieldExtractor.extract rt config net now this doc options))))
      = false)
  /\ (let r :=
        Example.run Example.unreachable
          (Example.extractorWith "zzz" Example.zzzRule) Example.idText ["zzz"] false in
      Obj.get (FieldExtractor.extractedFields r) "zzz" = None
      /\ FieldExtractor.recommendedReview (FieldExtractor.summary r) = []).
Proof.
  split.
  - intros rt config net now this doc options. unfold FieldExtractor.extract.
    destruct (FieldExtractor.extractPhases123 _ _ _ _ _ _ _) as [p this']. simpl.
    apply getReviewRecommendations_not_high, postProcess_nonempty.
  - vm_compute. auto.
Qed.

(** ** Determinism *)

(** With the fallback off, phases 1 to 3 hand the rules results on and leave
    the instance as it was. *)
Lemma phases123_rules_only (rt : Runtime) (config : Config) (net : Network)
    (now : Timestamp) (this : FieldExtractor.t)
    (doc : FieldExtractor.ProcessedDocument) (options : FieldExtractor.Options) :
  FieldExtractor.enableLLMFallback options = false ->
  FieldExtractor.p_extractedFields
    (fst (FieldExtractor.extractPhases123 rt config net now this doc options))
  = RulesEngine.extractFields (FieldExtractor.rulesEngine this)
      (FieldExtractor.text doc) (FieldExtractor.specificFields options)
  /\ snd (FieldExtractor.extractPhases123 rt config net now this doc options) = this.
Proof.
  intros Hoff. unfold FieldExtractor.extractPhases123. rewrite Hoff. now simpl.
Qed.

(** An invocation never changes the rule set of the instance. *)
Lemma extract_keeps_rulesEngine (rt : Runtime) (config : Config) (net : Network)
    (now : Timestamp) (this : FieldExtractor.t)
    (doc : FieldExtractor.ProcessedDocument) (options : FieldExtractor.Options) :
  FieldExtractor.rulesEngine
    (snd (FieldExtractor.extract rt config net now this doc options))
  = FieldExtractor.rulesEngine this.
Proof.
  unfold FieldExtractor.extract. phase3_cases; reflexivity.
Qed.

(** With the fallback off, the fields of the result are the post-processed
    fields of the rules stage. *)
Lemma rules_only_extractedFields (rt : Runtime) (config : Config) (net : Network)
    (now : Timestamp) (this : FieldExtractor.t)
    (doc : FieldExtractor.ProcessedDocument) (options : FieldExtractor.Options) :
  FieldExtractor.enableLLMFallback options = false ->
  FieldExtractor.extractedFields
    (fst (FieldExtractor.extract rt config net now this doc options))
  = FieldExtractor.postProcess rt
      (RulesEngine.extractFields (FieldExtractor.rulesEngine this)
         (FieldExtractor.text doc) (FieldExtractor.specificFields options)).
Proof.
  intros Hoff.
  destruct (phases123_rules_only rt config net now this doc options Hoff) as [Hp _].
  unfold FieldExtractor.extract.
  destruct (FieldExtractor.extractPhases123 _ _ _ _ _ _ _) as [p this']. simpl in *.
  now rewrite Hp.
Qed.

Lemma fromEntries_In {V : Type} (es : list (string * V)) (kv : string * V) :
  In kv (Obj.fromEntries es) -> In kv es.
Proof.
  unfold Obj.fromEntries.
  assert (G : forall (todo : list (string * V)) (acc : Obj.t V),
             (forall e, In e acc -> In e es) ->
             (forall e, In e todo -> In e es) ->
             In kv (fold_left (fun o e => Obj.set o (fst e) (snd e)) todo acc) ->
             In kv es).
  { induction todo as [| [k v] todo IH]; intros acc Hacc Htodo H; simpl in H.
    - now apply Hacc.
    - apply (IH _) in H; [exact H | | intros e He; apply Htodo; now right].
      intros [k1 v1] Hin. simpl in Hin.
      destruct (Obj_set_In _ _ _ _ _ Hin) as [-> | Ho]; [| now apply Hacc].
      apply Htodo. now left. }
  apply G; [intros ? [] | auto].
Qed.

(** ** Validators that keep state *)

Lemma every_stateless {S : Type} (vs : list (Closures.Validator S)) (v : string)
    (store store0 : S) :
  Forall stateless vs ->
  Closures.every vs v store
  = (forallb (fun validator : Validator =>
                match validator v with
                | Some b => b
                | None => false
                end)
       (map (fun (validator : Closures.Validator S) v => fst (validator v store0)) vs),
     store).
Proof.
  induction 1 as [| validator vs Hv _ IH]; simpl; [reflexivity |].
  rewrite (Hv v store store0).
  destruct (fst (validator v store0)) as [[|] |]; simpl;
    [exact IH | reflexivity | reflexivity].
Qed.

Lemma validateValue_stateless {S : Type} (rule : Closures.StatefulRule S)
    (v : string) (store store0 : S) :
  statelessRule rule ->
  Closures.validateValue v (Closures.s_validators rule) store
  = (RulesEngine.validateValue v (validators (Closures.asRule store0 rule)), store).
Proof.
  unfold statelessRule, Closures.validateValue, RulesEngine.validateValue. simpl.
  destruct (Closures.s_validators rule) as [vs |]; simpl; [| reflexivity].
  apply every_stateless.
Qed.

Lemma matchStep_stateless {S : Type} (text : string) (rule : Closures.StatefulRule S)
    (f : string) (pattern : RegExp) (store0 : S) (ms : list RegExpMatch)
    (matches : list Candidate) (store : S) :
  statelessRule rule ->
  fold_left (Closures.matchStep text rule f pattern) ms (matches, store)
  = ((matches ++
      flat_map (fun m =>
        match RulesEngine.cleanValue (RulesEngine.matchValue m) f with
        | Some cleanValue =>
            if JsString.truthy cleanValue
               && RulesEngine.validateValue cleanValue
                    (validators (Closures.asRule store0 rule))
            then [ {| value := cleanValue;
                      confidence :=
                        RulesEngine.calculateConfidence m pattern
                          (Closures.asRule store0 rule);
                      position := Some (m_index m);
                      context := RulesEngine.extractContext text (m_index m) 50;
                      cand_source := None |} ]
            else []
        | None => []
        end) ms)%list, store).
Proof.
  intros Hrule. revert matches.
  induction ms as [| m ms IH]; intros matches; simpl.
  - now rewrite app_nil_r.
  - destruct (RulesEngine.cleanValue (RulesEngine.matchValue m) f) as [cleanValue |];
      [| apply IH].
    destruct (JsString.truthy cleanValue); simpl; [| apply IH].
    rewrite (validateValue_stateless rule cleanValue store store0 Hrule).
    destruct (RulesEngine.validateValue cleanValue _); simpl.
    + rewrite IH, <- app_assoc. reflexivity.
    + apply IH.
Qed.

Lemma extractField_stateless {S : Type} (text : string) (rule : Closures.StatefulRule S)
    (f : string) (store : S) :
  statelessRule rule ->
  Closures.extractField text rule f store
  = (RulesEngine.extractField text (Closures.asRule store rule) f, store).
Proof.
  intros Hrule. unfold Closures.extractField, RulesEngine.extractField.
  change (patterns (Closures.asRule store rule))
    with (map (fun pattern : S -> RegExp => pattern store) (Closures.s_patterns rule)).
  assert (G : forall (ps : list (S -> RegExp)) (matches : list Candidate),
             fold_left (fun acc (pattern : S -> RegExp) =>
                          fold_left (Closures.matchStep text rule f (pattern (snd acc)))
                            (matchAll (pattern (snd acc)) text) acc) ps (matches, store)
             = ((matches ++
                 flat_map (fun pattern =>
                   flat_map (fun m =>
                     match RulesEngine.cleanValue (RulesEngine.matchValue m) f with
                     | Some cleanValue =>
                         if JsString.truthy cleanValue
                            && RulesEngine.validateValue cleanValue
                                 (validators (Closures.asRule store rule))
                         then [ {| value := cleanValue;
                                   confidence :=
                                     RulesEngine.calculateConfidence m pattern
                                       (Closures.asRule store rule);
                                   position := Some (m_index m);
                                   context :=
                                     RulesEngine.extractContext text (m_index m) 50;
                                   cand_source := None |} ]
                         else []
                     | None => []
                     end) (matchAll pattern text))
                   (map (fun pattern : S -> RegExp => pattern store) ps))%list, store)).
  { induction ps as [| pattern ps IH]; intros matches; simpl.
    - now rewrite app_nil_r.
    - rewrite (matchStep_stateless text rule f (pattern store) store _ _ _ Hrule).
      rewrite IH, <- app_assoc. reflexivity. }
  rewrite (G (Closures.s_patterns rule) []). reflexivity.
Qed.

Lemma Obj_set_map {V W : Type} (g : V -> W) (o : Obj.t V) (k : string) (v : V) :
  Obj.set (map (fun kv => (fst kv, g (snd kv))) o) k (g v)
  = map (fun kv => (fst kv, g (snd kv))) (Obj.set o k v).
Proof.
  induction o as [| [k' v'] o IH]; simpl; [reflexivity |].
  destruct (String.eqb k k'); simpl; [reflexivity | now rewrite IH].
Qed.

Lemma fromEntries_map {V W : Type} (g : V -> W) (es : list (string * V)) :
  Obj.fromEntries (map (fun kv => (fst kv, g (snd kv))) es)
  = map (fun kv => (fst kv, g (snd kv))) (Obj.fromEntries es).
Proof.
  unfold Obj.fromEntries.
  change (@Obj.empty W) with (map (fun kv : string * V => (fst kv, g (snd kv))) Obj.empty).
  generalize (@Obj.empty V) as acc.
  induction es as [| [k v] es IH]; intros acc; simpl; [reflexivity |].
  rewrite Obj_set_map. apply IH.
Qed.

Lemma filter_keys_map {V W : Type} (g : V -> W) (p : string -> bool)
    (es : list (string * V)) :
  List.filter (fun '(key, _) => p key) (map (fun kv => (fst kv, g (snd kv))) es)
  = map (fun kv => (fst kv, g (snd kv))) (List.filter (fun '(key, _) => p key) es).
Proof.
  induction es as [| [k v] es IH]; simpl; [reflexivity |].
  destruct (p k); simpl; now rewrite IH.
Qed.

(** With validators that keep no state, the rules stage leaves the store
    as it is and returns what the matcher of [RulesEngine] returns for the
    same rules, read at that store. *)
Lemma extractFields_stateless {S : Type} (this : Closures.t S) (text : string)
    (specificFields : option (list string)) (store : S) :
  statelessEngine this ->
  Closures.extractFields this text specificFields store
  = (RulesEngine.extractFields (engineAt store this) text specificFields, store).
Proof.
  intros Hall. unfold statelessEngine in Hall.
  apply Forall_app in Hall as [Hrules Hcustom].
  rewrite List.Forall_forall in Hrules, Hcustom.
  unfold Closures.extractFields, RulesEngine.extractFields, Obj.entries.
  cbn [RulesEngine.rules RulesEngine.customRules engineAt].
  set (g := fun kv : string * Closures.StatefulRule S =>
              (fst kv, Closures.asRule store (snd kv))).
  set (toApply := match specificFields with
                  | Some sf =>
                      Obj.fromEntries
                        (List.filter (fun '(key, _) => JsArray.includes sf key)
                           (Closures.rules this))
                  | None => Closures.rules this
                  end).
  assert (HtoApply :
            match specificFields with
            | Some sf =>
                Obj.fromEntries
                  (List.filter (fun '(key, _) => JsArray.includes sf key)
                     (map g (Closures.rules this)))
            | None => map g (Closures.rules this)
            end = map g toApply).
  { subst toApply g. destruct specificFields as [sf |]; [| reflexivity].
    rewrite (filter_keys_map (Closures.asRule store) (JsArray.includes sf)).
    apply fromEntries_map. }
  rewrite HtoApply.
  assert (Hin : forall kv, In kv toApply -> statelessRule (snd kv)).
  { intros kv Hkv. apply Hrules. subst toApply.
    destruct specificFields as [sf |]; [| exact Hkv].
    apply fromEntries_In in Hkv. now apply List.filter_In in Hkv as [Hkv _]. }
  assert (G1 : forall (es : list (string * Closures.StatefulRule S)) (results : Fields),
             (forall kv, In kv es -> statelessRule (snd kv)) ->
             fold_left (fun '(results, store) '(fieldName, rule) =>
                          let '(matches, store') :=
                            Closures.extractField text rule fieldName store in
                          (Obj.set results fieldName matches, store'))
               es (results, store)
             = (fold_left (fun results '(fieldName, rule) =>
                             Obj.set results fieldName
                               (RulesEngine.extractField text rule fieldName))
                  (map g es) results, store)).
  { induction es as [| [k rule] es IH]; intros results Hes; simpl; [reflexivity |].
    rewrite (extractField_stateless text rule k store)
      by (apply (Hes (k, rule)); now left).
    apply IH. intros kv Hkv. apply Hes. now right. }
  rewrite (G1 toApply Obj.empty Hin).
  assert (G2 : forall (es : list (string * Closures.StatefulRule S)) (results : Fields),
             (forall kv, In kv es -> statelessRule (snd kv)) ->
             fold_left (fun '(results, store) '(fieldName, rule) =>
                          if match specificFields with
                             | None => true
                             | Some sf => JsArray.includes sf fieldName
                             end
                          then
                            let '(matches, store') :=
                              Closures.extractField text rule fieldName store in
                            (Obj.set results fieldName matches, store')
                          else (results, store))
               es (results, store)
             = (fold_left (fun results '(fieldName, rule) =>
                             if match specificFields with
                                | None => true
                                | Some sf => JsArray.includes sf fieldName
                                end
                             then Obj.set results fieldName
                                    (RulesEngine.extractField text rule fieldName)
                             else results)
                  (map g es) results, store)).
  { induction es as [| [k rule] es IH]; intros results Hes; simpl; [reflexivity |].
    destruct (match specificFields with
              | None => true
              | Some sf => JsArray.includes sf k
              end).
    - rewrite (extractField_stateless text rule k store)
        by (apply (Hes (k, rule)); now left).
      apply IH. intros kv Hkv. apply Hes. now right.
    - apply IH. intros kv Hkv. apply Hes. now right. }
  rewrite (G2 (Closures.customRules this) _ Hcustom). reflexivity.
Qed.

Lemma asClosures_stateless {S : Type} (this : RulesEngine.t) :
  statelessEngine (@asClosures S this).
Proof.
  unfold statelessEngine, asClosures. simpl. rewrite <- map_app.
  apply List.Forall_forall. intros kv Hkv.
  apply List.in_map_iff in Hkv as ([k rule] & <- & _). simpl.
  unfold statelessRule. simpl.
  destruct (validators rule) as [vs |]; simpl; [| exact I].
  apply List.Forall_forall. intros validator Hv.
  apply List.in_map_iff in Hv as (w & <- & _). intros v store store'. reflexivity.
Qed.

(** C9, as the code has it: when every validator of the rule set keeps no
    state, an invocation of the rules stage leaves the store of the closures
    as it found it, and a second invocation on the same text, rule set and
    requested fields returns the same fields, candidate for candidate; so
    do the post-processed fields, which are the [extractedFields] of
    [extract] when the fallback is off. *)
Theorem C9_stateless_rules_are_deterministic {S : Type} (rt : Runtime)
    (this : Closures.t S) (text : string) (specificFields : option (list string))
    (store : S) :
  statelessEngine this ->
  let first := Closures.extractFields this text specificFields store in
  let again := Closures.extractFields this text specificFields (snd first) in
  snd first = store
  /\ snd again = store
  /\ fst again = fst first
  /\ FieldExtractor.postProcess rt (fst again) = FieldExtractor.postProcess rt (fst first)
  /\ (forall (config : Config) (net : Network) (now : Timestamp)
             (fx : FieldExtractor.t) (doc : FieldExtractor.ProcessedDocument)
             (options : FieldExtractor.Options),
        FieldExtractor.rulesEngine fx = engineAt store this ->
        FieldExtractor.text doc = text ->
        FieldExtractor.specificFields options = specificFields ->
        FieldExtractor.enableLLMFallback options = false ->
        FieldExtractor.extractedFields
          (fst (FieldExtractor.extract rt config net now fx doc options))
        = FieldExtractor.postProcess rt (fst first)).
Proof.
  intros Hall first again. subst again first.
  assert (E := extractFields_stateless this text specificFields store Hall).
  rewrite E. cbn [fst snd]. rewrite E. cbn [fst snd]. repeat split.
  intros config net now fx doc options Hengine Htext Hfields Hoff.
  rewrite (rules_only_extractedFields rt config net now fx doc options Hoff).
  now rewrite Hengine, Htext, Hfields.
Qed.

(** The rule of the test suite, whose validator reads the length of the
    value only: two invocations in a row. *)
Lemma C9_stateless_rules_are_deterministic_witness :
  let this : Closures.t nat := asClosures (Example.idEngine 1) in
  let first := Closures.extractFields this Example.idText (Some ["customId"]) 0%nat in
  let again :=
    Closures.extractFields this Example.idText (Some ["customId"]) (snd first) in
  snd first = 0%nat
  /\ snd again = 0%nat
  /\ fst again = fst first
  /\ FieldExtractor.postProcess Example.runtime (fst again)
     = FieldExtractor.postProcess Example.runtime (fst first)
  /\ (forall (config : Config) (net : Network) (now : Timestamp)
             (fx : FieldExtractor.t) (doc : FieldExtractor.ProcessedDocument)
             (options : FieldExtractor.Options),
        FieldExtractor.rulesEngine fx = engineAt 0%nat this ->
        FieldExtractor.text doc = Example.idText ->
        FieldExtractor.specificFields options = Some ["customId"] ->
        FieldExtractor.enableLLMFallback options = false ->
        FieldExtractor.extractedFields
          (fst (FieldExtractor.extract Example.runtime config net now fx doc options))
        = FieldExtractor.postProcess Example.runtime (fst first)).
Proof.
  apply (C9_stateless_rules_are_deterministic (S := nat) Example.runtime
           (asClosures (Example.idEngine 1)) Example.idText (Some ["customId"])
           0%nat).
  apply asClosures_stateless.
Defined.

(** C9 as stated fails: a rule set is a set of closures, and a validator
    can keep state between calls.  With the validator
    [id => digits.test(id)], where [digits] is [/^\d+$/g], the first
    invocation on a text with one id finds it and leaves [lastIndex] at 5;
    the second invocation, on the same text with the same rule set and the
    fallback off, starts from there, the validator rejects the same value,
    and no field is returned. *)
Lemma C9_counterexample :
  let first :=
    Closures.extractFields Example.statefulIdEngine Example.oneIdText
      (Some ["customId"]) 0%nat in
  let second :=
    Closures.extractFields Example.statefulIdEngine Example.oneIdText
      (Some ["customId"]) (snd first) in
  map (fun kv => (fst kv, map value (snd kv))) (fst first) = [("customId", ["12345"])]
  /\ snd first = 5%nat
  /\ fst second = []
  /\ Obj.keys (FieldExtractor.postProcess Example.runtime (fst first)) = ["customId"]
  /\ FieldExtractor.postProcess Example.runtime (fst second) = [].
Proof. vm_compute. repeat split. Qed.

(** * Further properties of the code *)

(** ** Where the candidates of the rules stage come from *)



Lemma fold_left_Forall_in {A B : Type} (P : B -> Prop) (step : list B -> A -> list B)
    (xs : list A) (acc : list B) :
  (forall acc x, In x xs -> Forall P acc -> Forall P (step acc x)) ->
  Forall P acc -> Forall P (fold_left step xs acc).
Proof.
  revert acc. induction xs as [| x xs IH]; intros acc Hstep Hacc; simpl; [exact Hacc |].
  apply IH.
  - intros acc' y Hy. apply Hstep. now right.
  - apply Hstep; [now left | exact Hacc].
Qed.

Lemma rankAndCleanResults_ranked (results : Fields) (kv : string * list Candidate) :
  In kv (RulesEngine.rankAndCleanResults results) ->
  exists raw, In (fst kv, raw) results /\ raw <> []
              /\ snd kv = take 5 (RulesEngine.removeDuplicates raw).
Proof.
  unfold RulesEngine.rankAndCleanResults, Obj.entries.
  set (Q := fun kv : string * list Candidate =>
              exists raw, In (fst kv, raw) results /\ raw <> []
                          /\ snd kv = take 5 (RulesEngine.removeDuplicates raw)).
  intros H.
  assert (HQ : Forall Q
                 (fold_left
                    (fun ranked '(fieldName, matches) =>
                       match matches with
                       | [] => ranked
                       | _ :: _ =>
                           Obj.set ranked fieldName
                             (take 5 (RulesEngine.removeDuplicates matches))
                       end) results Obj.empty)).
  { apply fold_left_Forall_in; [| constructor].
    intros acc [f ms] Hin Hacc. destruct ms as [| m ms]; [exact Hacc |].
    apply Obj_set_Forall; [exact Hacc |]. exists (m :: ms). now repeat split. }
  rewrite List.Forall_forall in HQ. now apply HQ.
Qed.

(** A field of the result of the rules stage holds the five best of the
    deduplicated, non-empty matches of a rule registered for that field. *)
Lemma extractFields_origin (this : RulesEngine.t) (text : string)
    (sf : option (list string)) (f : string) (ms : list Candidate) :
  Obj.get (RulesEngine.extractFields this text sf) f = Some ms ->
  exists rule,
    registeredFor this f rule
    /\ RulesEngine.extractField text rule f <> []
    /\ ms = take 5 (RulesEngine.removeDuplicates (RulesEngine.extractField text rule f)).
Proof.
  intros H. apply Obj_get_In in H. unfold RulesEngine.extractFields in H.
  apply rankAndCleanResults_ranked in H as (raw & Hraw & Hne & Heq).
  simpl in Hraw, Heq. subst ms.
  set (P := fun kv : string * list Candidate =>
              exists rule, registeredFor this (fst kv) rule
                           /\ snd kv = RulesEngine.extractField text rule (fst kv)).
  assert (HP : Forall P
                 (fold_left
                    (fun results '(fieldName, rule) =>
                       if match sf with
                          | Some sf0 => JsArray.includes sf0 fieldName
                          | None => true
                          end
                       then Obj.set results fieldName
                              (RulesEngine.extractField text rule fieldName)
                       else results)
                    (Obj.entries (RulesEngine.customRules this))
                    (fold_left
                       (fun results '(fieldName, rule) =>
                          Obj.set results fieldName
                            (RulesEngine.extractField text rule fieldName))
                       (Obj.entries
                          match sf with
                          | Some sf0 =>
                              Obj.fromEntries
                                (List.filter (fun '(key, _) => JsArray.includes sf0 key)
                                   (Obj.entries (RulesEngine.rules this)))
                          | None => RulesEngine.rules this
                          end) Obj.empty))).
  { apply fold_left_Forall_in.
    - intros acc [k rule] Hin Hacc.
      destruct (match sf with Some sf0 => JsArray.includes sf0 k | None => true end);
        [| exact Hacc].
      apply Obj_set_Forall; [exact Hacc |]. exists rule. split; [now right | reflexivity].
    - apply fold_left_Forall_in; [| constructor].
      intros acc [k rule] Hin Hacc. apply Obj_set_Forall; [exact Hacc |].
      exists rule. split; [| reflexivity]. left. unfold Obj.entries in Hin.
      destruct sf as [sf0 |]; [| exact Hin].
      apply fromEntries_In in Hin. now apply List.filter_In in Hin as [Hin _]. }
  rewrite List.Forall_forall in HP. destruct (HP _ Hraw) as (rule & Hreg & Hrule).
  simpl in Hreg, Hrule. subst raw. now exists rule.
Qed.

(** What stands behind a raw candidate: a match of a pattern of the rule,
    cleaned to a non-empty value that every validator accepts. *)
Lemma extractField_In (text : string) (rule : Rule) (f : string) (c : Candidate) :
  In c (RulesEngine.extractField text rule f) ->
  exists pattern m,
    In pattern (patterns rule) /\ In m (matchAll pattern text)
    /\ RulesEngine.cleanValue (RulesEngine.matchValue m) f = Some (value c)
    /\ JsString.truthy (value c) = true
    /\ RulesEngine.validateValue (value c) (validators rule) = true
    /\ confidence c = RulesEngine.calculateConfidence m pattern rule
    /\ position c = Some (m_index m)
    /\ cand_source c = None.
Proof.
  unfold RulesEngine.extractField, RulesEngine.sortByConfidence. intros H.
  apply sort_In in H. apply in_flat_map in H as (pattern & Hp & H).
  apply in_flat_map in H as (m & Hm & H).
  exists pattern, m.
  destruct (RulesEngine.cleanValue (RulesEngine.matchValue m) f) as [cv |]; [| destruct H].
  destruct (JsString.truthy cv && RulesEngine.validateValue cv (validators rule)) eqn:E;
    [| destruct H].
  apply andb_true_iff in E as [E1 E2].
  destruct H as [<- | []]. simpl. now repeat split.
Qed.

(** Deduplication returns candidates of its input only. *)
Lemma removeDuplicates_In (raw : list Candidate) (k : Candidate) :
  In k (RulesEngine.removeDuplicates raw) -> In k raw.
Proof.
  unfold RulesEngine.removeDuplicates, RulesEngine.sortByConfidence. intros H.
  apply sort_In in H. unfold Obj.values in H.
  apply List.in_map_iff in H as ([key k'] & Heq & Hin). simpl in Heq. subst k'.
  destruct (fold_keepBest_origin _ _ _ Hin) as [[] | H]. exact H.
Qed.

Lemma In_take {A : Type} (n : nat) (l : list A) (x : A) : In x (take n l) -> In x l.
Proof.
  intros H. apply list_elem_of_In. apply list_elem_of_In in H.
  eapply elem_of_sublist; [exact H | apply sublist_take].
Qed.

(** Every candidate of the rules stage is a raw candidate of a rule
    registered for its field. *)
Lemma extractFields_In (this : RulesEngine.t) (text : string)
    (sf : option (list string)) (f : string) (ms : list Candidate) (c : Candidate) :
  Obj.get (RulesEngine.extractFields this text sf) f = Some ms ->
  In c ms ->
  exists rule, registeredFor this f rule /\ In c (RulesEngine.extractField text rule f).
Proof.
  intros Hget Hin. apply extractFields_origin in Hget as (rule & Hreg & _ & ->).
  exists rule. split; [exact Hreg |]. now apply In_take, removeDuplicates_In in Hin.
Qed.

Lemma removeDuplicates_nonempty (raw : list Candidate) :
  raw <> [] -> RulesEngine.removeDuplicates raw <> [].
Proof.
  destruct raw as [| m raw]; [contradiction |]. intros _ Hnil.
  destruct (removeDuplicates_keeps_best (m :: raw) m (or_introl eq_refl))
    as (k & Hk & _).
  rewrite Hnil in Hk. destruct Hk.
Qed.

Lemma extractFields_never_empty_list (this : RulesEngine.t) (text : string)
    (sf : option (list string)) (f : string) :
  Obj.get (RulesEngine.extractFields this text sf) f = Some [] -> False.
Proof.
  intros H. apply extractFields_origin in H as (rule & _ & Hne & Heq).
  apply removeDuplicates_nonempty in Hne.
  destruct (RulesEngine.removeDuplicates _); [contradiction | discriminate].
Qed.

(** X1: every list that the rules stage returns for a field holds between
    one and five candidates, in non-increasing order of confidence. *)
Theorem X1_rules_lists_are_ranked (this : RulesEngine.t) (text : string)
    (specificFields : option (list string)) (f : string) (ms : list Candidate) :
  Obj.get (RulesEngine.extractFields this text specificFields) f = Some ms ->
  ms <> [] /\ (length ms <= 5)%nat /\ StronglySorted rankedBefore ms.
Proof.
  intros H. apply extractFields_origin in H as (rule & _ & Hne & ->).
  apply removeDuplicates_nonempty in Hne. repeat split.
  - destruct (RulesEngine.removeDuplicates _); [contradiction | discriminate].
  - rewrite length_take. lia.
  - apply StronglySorted_take, removeDuplicates_sorted.
Qed.

(** The test-suite rule on a text with three matches, two of them equal. *)
Lemma X1_rules_lists_are_ranked_witness :
  let ms :=
    default [] (Obj.get
                  (RulesEngine.extractFields (Example.idEngine 1) Example.idTwiceText
                     (Some ["customId"])) "customId") in
  ms <> [] /\ (length ms <= 5)%nat /\ StronglySorted rankedBefore ms.
Proof.
  apply (X1_rules_lists_are_ranked (Example.idEngine 1) Example.idTwiceText
           (Some ["customId"]) "customId").
  vm_compute. reflexivity.
Defined.

(** ** Bounds on the confidence of the rules stage *)

(** The confidence grows as the priority number falls. *)
Lemma calculateConfidence_lower (m : RegExpMatch) (pattern : RegExp) (rule : Rule)
    (p : Z) :
  (priority rule <= p)%Z ->
  (Qmin (0.5 + (10 - inject_Z p) * 0.05) 1
   <= RulesEngine.calculateConfidence m pattern rule)%Q.
Proof.
  intros Hp. unfold RulesEngine.calculateConfidence.
  assert (Hq : (inject_Z (priority rule) <= inject_Z p)%Q) by now rewrite <- Zle_Qle.
  apply Q.min_le_compat; [| lra].
  repeat match goal with
         | |- context [if ?b then _ else _] => destruct b
         end; lra.
Qed.

Lemma registeredFor_forallb (this : RulesEngine.t) (p : Rule -> bool)
    (f : string) (rule : Rule) :
  forallb (fun kv => p (snd kv))
    (RulesEngine.rules this ++ RulesEngine.customRules this) = true ->
  registeredFor this f rule -> p rule = true.
Proof.
  intros Hall Hreg. rewrite forallb_forall in Hall.
  apply (Hall (f, rule)). apply in_or_app. exact Hreg.
Qed.

(** X2: when no registered rule has a priority above 20, every candidate of
    the rules stage has its confidence between 0 and 1. *)
Theorem X2_rules_confidence_in_unit_interval (this : RulesEngine.t) (text : string)
    (specificFields : option (list string)) (f : string) (ms : list Candidate)
    (c : Candidate) :
  forallb (fun kv => Z.leb (priority (snd kv)) 20)
    (RulesEngine.rules this ++ RulesEngine.customRules this) = true ->
  Obj.get (RulesEngine.extractFields this text specificFields) f = Some ms ->
  In c ms ->
  (0 <= confidence c)%Q /\ (confidence c <= 1)%Q.
Proof.
  intros Hprio Hget Hin.
  destruct (extractFields_In _ _ _ _ _ _ Hget Hin) as (rule & Hreg & Hraw).
  apply extractField_In in Hraw as (pattern & m & _ & _ & _ & _ & _ & -> & _).
  split.
  - apply calculateConfidence_nonneg. apply Z.leb_le.
    exact (registeredFor_forallb this (fun r => Z.leb (priority r) 20) f rule Hprio Hreg).
  - apply calculateConfidence_le_1.
Qed.

Lemma X2_rules_confidence_in_unit_interval_witness :
  let ms :=
    default [] (Obj.get
                  (RulesEngine.extractFields (Example.idEngine 20) Example.idText
                     (Some ["customId"])) "customId") in
  let c := default {| value := ""; confidence := 0; position := None;
                      context := ""; cand_source := None |} (head ms) in
  (0 <= confidence c)%Q /\ (confidence c <= 1)%Q.
Proof.
  apply (X2_rules_confidence_in_unit_interval (Example.idEngine 20) Example.idText
           (Some ["customId"]) "customId"
           (default [] (Obj.get
                          (RulesEngine.extractFields (Example.idEngine 20)
                             Example.idText (Some ["customId"])) "customId"))).
  - reflexivity.
  - vm_compute. reflexivity.
  - vm_compute. left. reflexivity.
Defined.

Lemma builtin_priorities (rt : Runtime) :
  forallb (fun kv => Z.leb (priority (snd kv)) 8) (EXTRACTION_RULES rt) = true.
Proof. reflexivity. Qed.

(** With the built-in rules alone every candidate has a confidence of at
    least 0.6. *)
Lemma builtin_confidence_lower (rt : Runtime) (text : string)
    (sf : option (list string)) (f : string) (ms : list Candidate) (c : Candidate) :
  Obj.get (RulesEngine.extractFields (RulesEngine.new rt) text sf) f = Some ms ->
  In c ms ->
  (0.6 <= confidence c)%Q.
Proof.
  intros Hget Hin.
  destruct (extractFields_In _ _ _ _ _ _ Hget Hin) as (rule & Hreg & Hraw).
  apply extractField_In in Hraw as (pattern & m & _ & _ & _ & _ & _ & -> & _).
  assert (Hp : (priority rule <= 8)%Z).
  { apply Z.leb_le.
    apply (registeredFor_forallb (RulesEngine.new rt)
             (fun r => Z.leb (priority r) 8) f rule); [| exact Hreg].
    change (forallb (fun kv => Z.leb (priority (snd kv)) 8)
              (EXTRACTION_RULES rt ++ []) = true).
    rewrite app_nil_r. apply builtin_priorities. }
  eapply Qle_trans; [| apply (calculateConfidence_lower m pattern rule 8 Hp)].
  apply Q.min_glb; unfold Qle; simpl; lia.
Qed.

(** X3: with the built-in rules alone, a threshold of at most 0.6 and
    requested fields of ordinary names, the gap fields are exactly the
    requested fields for which the rules stage found nothing: the backend is
    never asked to improve on a value that a built-in rule found.  (Under a
    name that a plain object inherits, such as [constructor], the look-up of
    the rules results finds a member of [Object.prototype] instead of
    [undefined], and the gap detection of the code throws or takes the
    member for a list; [Obj.get] is the look-up for the other names.) *)
Theorem X3_builtin_gaps_are_the_empty_fields (rt : Runtime) (this : FieldExtractor.t)
    (text : string) (specificFields : option (list string)) (threshold : Q)
    (f : string) :
  FieldExtractor.rulesEngine this = RulesEngine.new rt ->
  (threshold <= 0.6)%Q ->
  forallb Obj.plainName (requestedFields this specificFields) = true ->
  let rulesResults :=
    RulesEngine.extractFields (FieldExtractor.rulesEngine this) text specificFields in
  In f (FieldExtractor.identifyMissingFields this rulesResults threshold specificFields)
  <-> In f (requestedFields this specificFields) /\ Obj.get rulesResults f = None.
Proof.
  intros Hengine Hthr _ rulesResults. split.
  - intros H. unfold FieldExtractor.identifyMissingFields in H.
    apply List.filter_In in H as [Hreq Hmiss]. split; [exact Hreq |].
    unfold FieldExtractor.isMissing in Hmiss.
    destruct (Obj.get rulesResults f) as [ms |] eqn:E; [| reflexivity].
    exfalso. subst rulesResults. rewrite Hengine in E.
    destruct ms as [| best rest].
    + now apply extractFields_never_empty_list in E.
    + apply Qltb_lt in Hmiss.
      pose proof (builtin_confidence_lower rt text specificFields f _ best E
                    (or_introl eq_refl)).
      lra.
  - intros [Hreq Hnone]. now apply requested_empty_field_is_gap.
Qed.

(** An invoice number that the third built-in pattern finds, requested
    together with the e-mail address, which the text does not hold: the
    invoice number is no gap, the address is. *)
Lemma X3_builtin_gaps_are_the_empty_fields_witness :
  let this := FieldExtractor.new Example.invoiceRuntime Example.config in
  let requested := Some ["invoiceNumber"; "email"] in
  let rulesResults :=
    RulesEngine.extractFields (FieldExtractor.rulesEngine this) Example.invoiceText
      requested in
  (map (fun kv => (fst kv, map value (snd kv))) rulesResults
   = [("invoiceNumber", ["ABC-12345"])]
   /\ FieldExtractor.identifyMissingFields this rulesResults 0.6%Q requested
      = ["email"])
  /\ (In "invoiceNumber"
        (FieldExtractor.identifyMissingFields this rulesResults 0.6%Q requested)
      <-> In "invoiceNumber" (requestedFields this requested)
          /\ Obj.get rulesResults "invoiceNumber" = None)
  /\ (In "email"
        (FieldExtractor.identifyMissingFields this rulesResults 0.6%Q requested)
      <-> In "email" (requestedFields this requested)
          /\ Obj.get rulesResults "email" = None).
Proof.
  split; [vm_compute; split; reflexivity |].
  split.
  - apply (X3_builtin_gaps_are_the_empty_fields Example.invoiceRuntime
             (FieldExtractor.new Example.invoiceRuntime Example.config)
             Example.invoiceText (Some ["invoiceNumber"; "email"]) 0.6%Q
             "invoiceNumber").
    + reflexivity.
    + apply Qle_bool_iff. reflexivity.
    + reflexivity.
  - apply (X3_builtin_gaps_are_the_empty_fields Example.invoiceRuntime
             (FieldExtractor.new Example.invoiceRuntime Example.config)
             Example.invoiceText (Some ["invoiceNumber"; "email"]) 0.6%Q "email").
    + reflexivity.
    + apply Qle_bool_iff. reflexivity.
    + reflexivity.
Defined.

(** ** What a candidate of the rules stage is *)

(** X4: every candidate that the rules stage returns for a field comes from
    a match of a pattern of a rule registered for that field; its value is
    the cleaned match, it is not empty, and every validator of the rule
    accepts it (a validator that throws rejects). *)
Theorem X4_rules_candidates_are_validated_matches (this : RulesEngine.t)
    (text : string) (specificFields : option (list string)) (f : string)
    (ms : list Candidate) (c : Candidate) :
  Obj.get (RulesEngine.extractFields this text specificFields) f = Some ms ->
  In c ms ->
  exists rule pattern m,
    registeredFor this f rule
    /\ In pattern (patterns rule)
    /\ In m (matchAll pattern text)
    /\ RulesEngine.cleanValue (RulesEngine.matchValue m) f = Some (value c)
    /\ JsString.truthy (value c) = true
    /\ RulesEngine.validateValue (value c) (validators rule) = true
    /\ position c = Some (m_index m).
Proof.
  intros Hget Hin.
  destruct (extractFields_In _ _ _ _ _ _ Hget Hin) as (rule & Hreg & Hraw).
  apply extractField_In in Hraw as (pattern & m & ? & ? & ? & ? & ? & _ & ? & _).
  exists rule, pattern, m. now repeat split.
Qed.

Lemma X4_rules_candidates_are_validated_matches_witness :
  let ms :=
    default [] (Obj.get
                  (RulesEngine.extractFields (Example.idEngine 1) Example.idText
                     (Some ["customId"])) "customId") in
  let c := default {| value := ""; confidence := 0; position := None;
                      context := ""; cand_source := None |} (head ms) in
  exists rule pattern m,
    registeredFor (Example.idEngine 1) "customId" rule
    /\ In pattern (patterns rule)
    /\ In m (matchAll pattern Example.idText)
    /\ RulesEngine.cleanValue (RulesEngine.matchValue m) "customId" = Some (value c)
    /\ JsString.truthy (value c) = true
    /\ RulesEngine.validateValue (value c) (validators rule) = true
    /\ position c = Some (m_index m).
Proof.
  apply (X4_rules_candidates_are_validated_matches (Example.idEngine 1)
           Example.idText (Some ["customId"]) "customId"
           (default [] (Obj.get
                          (RulesEngine.extractFields (Example.idEngine 1)
                             Example.idText (Some ["customId"])) "customId"))).
  - vm_compute. reflexivity.
  - vm_compute. left. reflexivity.
Defined.

Lemma allChars_filterChars (p : ascii -> bool) (s : string) :
  allChars p (JsString.filterChars p s) = true.
Proof.
  induction s as [| ch s IH]; simpl; [reflexivity |].
  destruct (p ch) eqn:E; simpl; [now rewrite E | exact IH].
Qed.

Lemma lowerChar_idempotent (ch : ascii) :
  JsString.lowerChar (JsString.lowerChar ch) = JsString.lowerChar ch.
Proof. destruct ch as [[] [] [] [] [] [] [] []]; reflexivity. Qed.

Lemma toLowerCase_idempotent (s : string) :
  JsString.toLowerCase (JsString.toLowerCase s) = JsString.toLowerCase s.
Proof.
  unfold JsString.toLowerCase.
  induction s as [| ch s IH]; simpl; [reflexivity |].
  now rewrite lowerChar_idempotent, IH.
Qed.

(** X5: the values of the rules stage are cleaned by field type, whatever
    rule is registered for the field: a phone value holds digits only, an
    amount value holds no dollar sign and no comma, an email value has no
    upper-case letter left. *)
Theorem X5_rules_values_are_cleaned (this : RulesEngine.t) (text : string)
    (specificFields : option (list string)) (f : string) (ms : list Candidate)
    (c : Candidate) :
  Obj.get (RulesEngine.extractFields this text specificFields) f = Some ms ->
  In c ms ->
  (f = "phone" -> allChars JsString.isDigit (value c) = true)
  /\ (f = "amount" ->
      allChars (fun ch => negb (Ascii.eqb ch "$"%char || Ascii.eqb ch ","%char))
        (value c) = true)
  /\ (f = "email" -> JsString.toLowerCase (value c) = value c).
Proof.
  intros Hget Hin.
  destruct (extractFields_In _ _ _ _ _ _ Hget Hin) as (rule & _ & Hraw).
  apply extractField_In in Hraw as (pattern & m & _ & _ & Hclean & _).
  unfold RulesEngine.cleanValue in Hclean.
  destruct (negb (JsString.truthy (RulesEngine.matchValue m))); [discriminate |].
  injection Hclean as Hclean.
  repeat split; intros ->; simpl in Hclean; rewrite <- Hclean.
  - apply allChars_filterChars.
  - apply (allChars_filterChars
             (fun ch => negb (Ascii.eqb ch "$"%char || Ascii.eqb ch ","%char))).
  - apply toLowerCase_idempotent.
Qed.

Lemma X5_rules_values_are_cleaned_witness :
  let ms :=
    default [] (Obj.get
                  (RulesEngine.extractFields Example.phoneIdEngine Example.idText
                     (Some ["phone"])) "phone") in
  let c := default {| value := ""; confidence := 0; position := None;
                      context := ""; cand_source := None |} (head ms) in
  ("phone" = "phone" -> allChars JsString.isDigit (value c) = true)
  /\ ("phone" = "amount" ->
      allChars (fun ch => negb (Ascii.eqb ch "$"%char || Ascii.eqb ch ","%char))
        (value c) = true)
  /\ ("phone" = "email" -> JsString.toLowerCase (value c) = value c).
Proof.
  apply (X5_rules_values_are_cleaned Example.phoneIdEngine Example.idText
           (Some ["phone"]) "phone"
           (default [] (Obj.get
                          (RulesEngine.extractFields Example.phoneIdEngine
                             Example.idText (Some ["phone"])) "phone"))).
  - vm_compute. reflexivity.
  - vm_compute. left. reflexivity.
Defined.

(** ** The statistics of the rules stage *)

Lemma fold_left_inv {A B : Type} (P : B -> Prop) (step : B -> A -> B)
    (xs : list A) (acc : B) :
  (forall acc x, P acc -> P (step acc x)) -> P acc -> P (fold_left step xs acc).
Proof.
  intros Hstep. revert acc. induction xs as [| x xs IH]; intros acc Hacc; simpl; auto.
Qed.

Lemma rankAndCleanResults_NoDup (results : Fields) :
  NoDup (Obj.keys (RulesEngine.rankAndCleanResults results)).
Proof.
  unfold RulesEngine.rankAndCleanResults.
  apply (fold_left_inv (fun o : Fields => NoDup (Obj.keys o))).
  - intros acc [f ms] Hacc. destruct ms; [exact Hacc | now apply Obj_set_NoDup].
  - apply NoDup_nil_2.
Qed.

Lemma extractFields_NoDup (this : RulesEngine.t) (text : string)
    (sf : option (list string)) :
  NoDup (Obj.keys (RulesEngine.extractFields this text sf)).
Proof. apply rankAndCleanResults_NoDup. Qed.

Lemma Obj_keys_In_get {V : Type} (o : Obj.t V) (k : string) :
  In k (Obj.keys o) -> exists v, Obj.get o k = Some v.
Proof.
  induction o as [| [k' v'] o IH]; simpl; [tauto |].
  destruct (String.eqb k k') eqn:E; [eauto |].
  apply String.eqb_neq in E. intros [Heq | Hin]; [congruence | auto].
Qed.

(** Every field of the result of the rules stage has a registered rule. *)
Lemma extractFields_keys_registered (this : RulesEngine.t) (text : string)
    (sf : option (list string)) (f : string) :
  In f (Obj.keys (RulesEngine.extractFields this text sf)) ->
  In f (Obj.keys (RulesEngine.rules this) ++ Obj.keys (RulesEngine.customRules this)).
Proof.
  intros H. apply Obj_keys_In_get in H as (ms & Hget).
  apply extractFields_origin in Hget as (rule & [Hreg | Hreg] & _).
  - apply in_or_app. left. change f with (fst (f, rule)). now apply in_map.
  - apply in_or_app. right. change f with (fst (f, rule)). now apply in_map.
Qed.

Lemma NoDup_incl_length_le (l k : list string) :
  NoDup l -> (forall x, In x l -> In x k) -> (length l <= length k)%nat.
Proof.
  intros Hnd Hincl. apply submseteq_length, NoDup_submseteq; [exact Hnd |].
  intros x Hx. apply list_elem_of_In. apply Hincl. now apply list_elem_of_In.
Qed.

Lemma filter_all {A : Type} (p : A -> bool) (l : list A) :
  Forall (fun x => p x = true) l -> List.filter p l = l.
Proof.
  induction 1 as [| x l Hx _ IH]; simpl; [reflexivity |]. now rewrite Hx, IH.
Qed.

Lemma Qofnat_ratio_in_unit (a b : nat) :
  (a <= b)%nat -> (0 < b)%nat ->
  (0 <= Qofnat a / Qofnat b)%Q /\ (Qofnat a / Qofnat b <= 1)%Q.
Proof.
  intros Hab Hb. unfold Qofnat.
  assert (Hb' : (0 < inject_Z (Z.of_nat b))%Q).
  { change 0%Q with (inject_Z 0). rewrite <- Zlt_Qlt. lia. }
  assert (Ha' : (0 <= inject_Z (Z.of_nat a))%Q).
  { change 0%Q with (inject_Z 0). rewrite <- Zle_Qle. lia. }
  assert (Hab' : (inject_Z (Z.of_nat a) <= inject_Z (Z.of_nat b))%Q).
  { rewrite <- Zle_Qle. lia. }
  split.
  - apply Qle_shift_div_l; [exact Hb' | lra].
  - apply Qle_shift_div_r; [exact Hb' | lra].
Qed.

(** X7: in the statistics of a rules-stage result the number of extracted
    fields never exceeds the number of registered rules, so that, with at
    least one rule registered, the extraction rate lies between 0 and 1;
    and the matches counted are at most five per extracted field. *)
Theorem X7_rules_stats_rate_in_unit_interval (this : RulesEngine.t) (text : string)
    (specificFields : option (list string)) :
  let stats :=
    RulesEngine.getExtractionStats this
      (RulesEngine.extractFields this text specificFields) in
  (0 < RulesEngine.totalFields stats)%nat ->
  (RulesEngine.stats_extractedFields stats <= RulesEngine.totalFields stats)%nat
  /\ (0 <= RulesEngine.stats_extractionRate stats)%Q
  /\ (RulesEngine.stats_extractionRate stats <= 1)%Q
  /\ (RulesEngine.totalMatches stats
      <= 5 * RulesEngine.stats_extractedFields stats)%nat.
Proof.
  intros stats Hpos. subst stats. unfold RulesEngine.getExtractionStats in *.
  simpl in *.
  set (results := RulesEngine.extractFields this text specificFields) in *.
  assert (Hall : Forall (fun ms : list Candidate => ms <> [] /\ (length ms <= 5)%nat)
                   (Obj.values results)).
  { apply List.Forall_forall. intros ms Hin. unfold Obj.values in Hin.
    apply List.in_map_iff in Hin as ([f ms'] & Heq & Hin). simpl in Heq. subst ms'.
    apply rankAndCleanResults_ranked in Hin as (raw & _ & Hne & Heq).
    simpl in Heq. subst ms. apply removeDuplicates_nonempty in Hne. split.
    - destruct (RulesEngine.removeDuplicates raw); [contradiction | discriminate].
    - rewrite length_take. lia. }
  rewrite filter_all.
  2:{ eapply List.Forall_impl; [| exact Hall]. intros ms [Hne _]. now destruct ms. }
  assert (Hlen : (length (Obj.values results)
                  <= length (Obj.keys (RulesEngine.rules this))
                     + Obj.size (RulesEngine.customRules this))%nat).
  { unfold Obj.values, Obj.size. rewrite length_map.
    rewrite <- (length_map fst results).
    rewrite <- (length_map fst (RulesEngine.customRules this)).
    rewrite <- length_app. apply NoDup_incl_length_le.
    - apply extractFields_NoDup.
    - apply extractFields_keys_registered. }
  split; [exact Hlen |].
  destruct (Qofnat_ratio_in_unit _ _ Hlen Hpos) as [H0 H1].
  split; [exact H0 |]. split; [exact H1 |].
  clear - Hall. induction Hall as [| ms l [_ Hms] _ IH]; simpl; [lia |].
  rewrite length_app. lia.
Qed.

Lemma X7_rules_stats_rate_in_unit_interval_witness :
  let stats :=
    RulesEngine.getExtractionStats (Example.idEngine 1)
      (RulesEngine.extractFields (Example.idEngine 1) Example.idText
         (Some ["customId"])) in
  (RulesEngine.stats_extractedFields stats <= RulesEngine.totalFields stats)%nat
  /\ (0 <= RulesEngine.stats_extractionRate stats)%Q
  /\ (RulesEngine.stats_extractionRate stats <= 1)%Q
  /\ (RulesEngine.totalMatches stats
      <= 5 * RulesEngine.stats_extractedFields stats)%nat.
Proof.
  apply (X7_rules_stats_rate_in_unit_interval (Example.idEngine 1) Example.idText
           (Some ["customId"])).
  vm_compute. lia.
Defined.

(** ** The shape of the final result *)

Lemma extractFields_entries_wellRanked (this : RulesEngine.t) (text : string)
    (sf : option (list string)) :
  Forall (fun kv => wellRanked (snd kv)) (RulesEngine.extractFields this text sf).
Proof.
  apply List.Forall_forall. intros kv Hin. unfold RulesEngine.extractFields in Hin.
  apply rankAndCleanResults_ranked in Hin as (raw & _ & Hne & ->).
  apply removeDuplicates_nonempty in Hne. repeat split.
  - destruct (RulesEngine.removeDuplicates raw); [contradiction | discriminate].
  - rewrite length_take. lia.
  - apply StronglySorted_take, removeDuplicates_sorted.
Qed.

Lemma sort_nonempty {A : Type} (after : A -> A -> bool) (l : list A) :
  l <> [] -> JsArray.sort after l <> [].
Proof.
  intros Hne Hnil. apply Hne. apply Permutation_nil_r.
  rewrite <- Hnil. symmetry. apply sort_Permutation.
Qed.

Lemma take_nonempty {A : Type} (n : nat) (l : list A) :
  l <> [] -> take (S n) l <> [].
Proof. destruct l; [contradiction | discriminate]. Qed.

Lemma mergeResults_wellRanked (rulesResults llmResults : Fields)
    (missingFields : list string) :
  Forall (fun kv => wellRanked (snd kv)) rulesResults ->
  Forall (fun kv => wellRanked (snd kv))
    (FieldExtractor.mergeResults rulesResults llmResults missingFields).
Proof.
  unfold FieldExtractor.mergeResults.
  apply (fold_left_inv (fun o : Fields => Forall (fun kv => wellRanked (snd kv)) o)).
  intros acc g Hacc.
  destruct (Obj.get llmResults g) as [[| m ms] |]; try exact Hacc.
  apply Obj_set_Forall; [exact Hacc |]. simpl. repeat split.
  - apply take_nonempty, sort_nonempty.
    destruct (default [] (Obj.get acc g)); discriminate.
  - rewrite length_take. lia.
  - apply StronglySorted_take, sortByConfidence_sorted.
Qed.

Lemma phases123_wellRanked (rt : Runtime) (config : Config) (net : Network)
    (now : Timestamp) (this : FieldExtractor.t)
    (doc : FieldExtractor.ProcessedDocument) (options : FieldExtractor.Options) :
  Forall (fun kv => wellRanked (snd kv))
    (FieldExtractor.p_extractedFields
       (fst (FieldExtractor.extractPhases123 rt config net now this doc options))).
Proof.
  destruct (phases123_extractedFields rt config net now this doc options)
    as [Heq | (llm & Heq)]; rewrite Heq; [| apply mergeResults_wellRanked];
    rewrite phases123_rulesResults; apply extractFields_entries_wellRanked.
Qed.

Lemma postProcess_origin (rt : Runtime) (fields : Fields)
    (kv : string * list Candidate) :
  In kv (FieldExtractor.postProcess rt fields) ->
  exists raw, In (fst kv, raw) fields /\ raw <> []
              /\ snd kv = map (FieldExtractor.postProcessMatch rt (fst kv)) raw.
Proof.
  unfold FieldExtractor.postProcess, Obj.entries. intros H.
  set (Q := fun kv : string * list Candidate =>
              exists raw, In (fst kv, raw) fields /\ raw <> []
                          /\ snd kv = map (FieldExtractor.postProcessMatch rt (fst kv)) raw).
  assert (HQ : Forall Q
                 (fold_left
                    (fun processed '(fieldName, matches) =>
                       match matches with
                       | [] => processed
                       | _ :: _ =>
                           Obj.set processed fieldName
                             (map (FieldExtractor.postProcessMatch rt fieldName) matches)
                       end) fields Obj.empty)).
  { apply fold_left_Forall_in; [| constructor].
    intros acc [f ms] Hin Hacc. destruct ms as [| m ms]; [exact Hacc |].
    apply Obj_set_Forall; [exact Hacc |]. exists (m :: ms). now repeat split. }
  rewrite List.Forall_forall in HQ. now apply HQ.
Qed.

Lemma clamp01_monotone (a b : Q) :
  (a <= b)%Q -> (FieldExtractor.clamp01 a <= FieldExtractor.clamp01 b)%Q.
Proof.
  intros H. unfold FieldExtractor.clamp01.
  apply Q.min_le_compat_r. now apply Q.max_le_compat_r.
Qed.

Lemma postProcessMatch_sorted (rt : Runtime) (f : string) (l : list Candidate) :
  StronglySorted rankedBefore l ->
  StronglySorted rankedBefore (map (FieldExtractor.postProcessMatch rt f) l).
Proof.
  induction 1 as [| x l _ IH Hx]; simpl; constructor; [exact IH |].
  rewrite List.Forall_forall in Hx |- *. intros y Hy.
  apply List.in_map_iff in Hy as (y0 & <- & Hy0).
  unfold rankedBefore. simpl. apply clamp01_monotone. now apply Hx.
Qed.

(** X8: in the result of [extract], with or without an answer of the
    backend, every field holds between one and five candidates, in
    non-increasing order of confidence, each with a confidence between 0
    and 1. *)
Theorem X8_final_lists_are_ranked (rt : Runtime) (config : Config) (net : Network)
    (now : Timestamp) (this : FieldExtractor.t)
    (doc : FieldExtractor.ProcessedDocument) (options : FieldExtractor.Options)
    (f : string) (ms : list Candidate) :
  Obj.get (FieldExtractor.extractedFields
             (fst (FieldExtractor.extract rt config net now this doc options))) f
  = Some ms ->
  wellRanked ms
  /\ Forall (fun c => (0 <= confidence c)%Q /\ (confidence c <= 1)%Q) ms.
Proof.
  unfold FieldExtractor.extract.
  pose proof (phases123_wellRanked rt config net now this doc options) as Hwf.
  destruct (FieldExtractor.extractPhases123 _ _ _ _ _ _ _) as [p this']. simpl in *.
  intros Hget. apply Obj_get_In in Hget.
  apply postProcess_origin in Hget as (raw & Hraw & Hne & Heq). simpl in Hraw, Heq.
  subst ms. rewrite List.Forall_forall in Hwf.
  destruct (Hwf _ Hraw) as (_ & Hlen & Hsorted). simpl in Hlen, Hsorted.
  split; [repeat split |].
  - destruct raw; [contradiction | discriminate].
  - now rewrite length_map.
  - now apply postProcessMatch_sorted.
  - apply List.Forall_forall. intros c Hc.
    apply List.in_map_iff in Hc as (c0 & <- & _). apply clamp01_range.
Qed.

(** A run in which the backend answers for a gap field. *)
Lemma X8_final_lists_are_ranked_witness :
  let ms :=
    default [] (Obj.get
                  (FieldExtractor.extractedFields
                     (Example.run (Example.answering Example.replyRef)
                        Example.idRefExtractor Example.idRefText
                        ["customId"; "ref"] true)) "ref") in
  wellRanked ms
  /\ Forall (fun c => (0 <= confidence c)%Q /\ (confidence c <= 1)%Q) ms.
Proof.
  apply (X8_final_lists_are_ranked Example.runtime Example.config
           (Example.answering Example.replyRef) Example.now Example.idRefExtractor
           (Example.doc Example.idRefText) (Example.only ["customId"; "ref"] true)
           "ref").
  vm_compute. reflexivity.
Defined.

(** ** The answer of the backend *)

Lemma parseExtractionResponse_entries (rt : Runtime) (responseText : option string)
    (missingFields : list string) :
  Forall (fun kv => In (fst kv) missingFields
                    /\ exists v, JsString.truthy v = true /\ snd kv = [llmCandidate v])
    (LLMProvider.parseExtractionResponse rt responseText missingFields).
Proof.
  unfold LLMProvider.parseExtractionResponse.
  destruct responseText as [responseText |]; [| constructor].
  destruct (rt_JSON_parse rt _) as [extracted |]; [| constructor].
  apply fold_left_Forall_in; [| constructor].
  intros acc g Hg Hacc. destruct (extracted g) as [v |]; [| exact Hacc].
  destruct (JsString.truthy v) eqn:E; [| exact Hacc].
  apply Obj_set_Forall; [exact Hacc |]. simpl. split; [exact Hg |]. now exists v.
Qed.

Lemma parseExtractionResponse_NoDup (rt : Runtime) (responseText : option string)
    (missingFields : list string) :
  NoDup (Obj.keys (LLMProvider.parseExtractionResponse rt responseText missingFields)).
Proof.
  unfold LLMProvider.parseExtractionResponse.
  destruct responseText as [responseText |]; [| apply NoDup_nil_2].
  destruct (rt_JSON_parse rt _) as [extracted |]; [| apply NoDup_nil_2].
  apply (fold_left_inv (fun o : Fields => NoDup (Obj.keys o))); [| apply NoDup_nil_2].
  intros acc g Hacc. destruct (extracted g) as [v |]; [| exact Hacc].
  destruct (JsString.truthy v); [now apply Obj_set_NoDup | exact Hacc].
Qed.

(** The three ways in which [callOpenAI] reads the status of a rejected
    request. *)
Lemma status_cases {A : Type} (status : option nat) (a b c : A) :
  let r := match status with
           | Some 401%nat => a
           | Some 429%nat => b
           | _ => c
           end in
  r = a \/ r = b \/ r = c.
Proof.
  destruct status as [n |]; [| right; right; reflexivity].
  do 430 (case n; clear n;
          [first [ exact (or_intror (or_intror eq_refl))
                 | exact (or_introl eq_refl)
                 | exact (or_intror (or_introl eq_refl)) ]
          | intros n]).
  exact (or_intror (or_intror eq_refl)).
Qed.

(** An answer of the provider is the parse of some response text. *)
Lemma provider_answer_is_parsed (rt : Runtime) (config : Config) (net : Network)
    (now : Timestamp) (this : LLMProvider.t) (text : string)
    (missingFields : list string) (sessionId : string) (results : Fields)
    (this' : LLMProvider.t) :
  LLMProvider.extractFields rt config net now this text missingFields sessionId
  = (Ok results, this') ->
  exists responseText,
    results = LLMProvider.parseExtractionResponse rt responseText missingFields.
Proof.
  unfold LLMProvider.extractFields.
  rewrite canMakeRequest_no_daily_cap. simpl.
  destruct (String.eqb (LLMProvider.provider this) "ollama").
  - unfold LLMProvider.callOllama.
    destruct (net _ _) as [e | d].
    + destruct (match err_code e with Some c => _ | None => _ end); discriminate.
    + destruct (CostTracker.trackRequest _ _ _ _ _ _) as [r ct].
      intros [= <- _]. eauto.
  - destruct (String.eqb (LLMProvider.provider this) "openai"); [| discriminate].
    unfold LLMProvider.callOpenAI.
    destruct (match openaiApiKey config with Some k => _ | None => _ end);
      [discriminate |].
    destruct (net _ _) as [e | d].
    + destruct (status_cases (err_status e)
                  (Throw "Invalid OpenAI API key", this)
                  (Throw "OpenAI API rate limit exceeded", this)
                  (@Throw Fields ("OpenAI API error: " ++ err_message e), this))
        as [H | [H | H]]; cbv zeta in H; rewrite H; discriminate.
    + destruct (data_usage d) as [[pt ct_] |]; [| discriminate].
      destruct (CostTracker.trackRequest _ _ _ _ _ _) as [r ct].
      destruct (data_content d) as [content |]; [| discriminate].
      intros [= <- _]. eauto.
Qed.

(** X9: for gap fields of ordinary names and a reply whose values are
    strings or [null] (the replies that [rt_JSON_parse] describes), an
    answer of the provider holds requested gap fields only, each at most
    once and with a single candidate: the value of the reply, which is not
    empty, with confidence 0.7 and source [llm].  (The code makes a
    candidate of any truthy value of the reply, also of a number, [true], an
    array or an object, and of the member of [Object.prototype] that the
    decoded reply inherits under a name such as [toString].) *)
Theorem X9_provider_answer_shape (rt : Runtime) (config : Config) (net : Network)
    (now : Timestamp) (this : LLMProvider.t) (text : string)
    (missingFields : list string) (sessionId : string) (results : Fields)
    (this' : LLMProvider.t) :
  forallb Obj.plainName missingFields = true ->
  LLMProvider.extractFields rt config net now this text missingFields sessionId
  = (Ok results, this') ->
  NoDup (Obj.keys results)
  /\ Forall (fun kv => In (fst kv) missingFields
                       /\ exists v, JsString.truthy v = true
                                    /\ snd kv = [llmCandidate v]) results.
Proof.
  intros _ H. apply provider_answer_is_parsed in H as (responseText & ->). split.
  - apply parseExtractionResponse_NoDup.
  - apply parseExtractionResponse_entries.
Qed.

Lemma X9_provider_answer_shape_witness :
  let results :=
    LLMProvider.parseExtractionResponse Example.runtime (Some Example.replyRef)
      ["ref"] in
  NoDup (Obj.keys results)
  /\ Forall (fun kv => In (fst kv) ["ref"]
                       /\ exists v, JsString.truthy v = true
                                    /\ snd kv = [llmCandidate v]) results.
Proof.
  apply (X9_provider_answer_shape Example.runtime Example.config
           (Example.answering Example.replyRef) Example.now
           (LLMProvider.new Example.config) Example.refText ["ref"] "default"
           (LLMProvider.parseExtractionResponse Example.runtime
              (Some Example.replyRef) ["ref"])
           (snd (LLMProvider.extractFields Example.runtime Example.config
                   (Example.answering Example.replyRef) Example.now
                   (LLMProvider.new Example.config) Example.refText ["ref"]
                   "default"))).
  - reflexivity.
  - vm_compute. reflexivity.
Defined.

(** ** A fallback candidate in the merge *)

Lemma dominatedBy_sublist (c : Candidate) (l k : list Candidate) :
  (forall x, In x l -> In x k) -> dominatedBy c k -> dominatedBy c l.
Proof.
  unfold dominatedBy. rewrite !List.Forall_forall. auto.
Qed.

(** A candidate that dominates the list it is in comes first in the sort. *)
Lemma sort_head_dominant (c : Candidate) (l : list Candidate) :
  In c l -> dominatedBy c l ->
  exists rest, RulesEngine.sortByConfidence l = c :: rest.
Proof.
  intros Hin Hdom.
  pose proof (sortByConfidence_sorted l) as Hsorted.
  assert (Hin' : In c (RulesEngine.sortByConfidence l)) by now apply sort_In.
  destruct (RulesEngine.sortByConfidence l) as [| h rest] eqn:E; [destruct Hin' |].
  pose proof (sorted_head_max h c rest Hsorted Hin') as Hle.
  assert (Hh : In h l).
  { apply (sort_In (fun a b => Qltb (confidence a) (confidence b))).
    unfold RulesEngine.sortByConfidence in E. rewrite E. now left. }
  unfold dominatedBy in Hdom. rewrite List.Forall_forall in Hdom.
  destruct (Hdom h Hh) as [-> | Hlt]; [now exists rest | lra].
Qed.

(** One step of the merge on the field [f] that the backend answered with
    [c] alone. *)
Lemma merge_step_dominant (c : Candidate) (existing : list Candidate) :
  dominatedBy c existing ->
  exists rest,
    take 3 (RulesEngine.sortByConfidence (existing ++ [c])) = c :: rest
    /\ (length rest <= 2)%nat
    /\ dominatedBy c (c :: rest).
Proof.
  intros Hdom.
  assert (Hdom' : dominatedBy c (existing ++ [c])).
  { apply Forall_app. split; [exact Hdom |]. constructor; [now left | constructor]. }
  destruct (sort_head_dominant c (existing ++ [c])) as (rest & Hsort);
    [apply in_or_app; right; now left | exact Hdom' |].
  rewrite Hsort. exists (take 2 rest). simpl. repeat split.
  - rewrite length_take. lia.
  - apply (dominatedBy_sublist c _ (existing ++ [c])); [| exact Hdom'].
    intros x [<- | Hx].
    + apply in_or_app. right. now left.
    + apply In_take in Hx.
      apply (sort_In (fun a b => Qltb (confidence a) (confidence b))).
      unfold RulesEngine.sortByConfidence in Hsort. rewrite Hsort. now right.
Qed.

Lemma mergeResults_dominant (rulesResults llmResults : Fields)
    (missingFields : list string) (f : string) (c : Candidate) :
  Obj.get llmResults f = Some [c] ->
  In f missingFields ->
  dominatedBy c (default [] (Obj.get rulesResults f)) ->
  exists rest,
    Obj.get (FieldExtractor.mergeResults rulesResults llmResults missingFields) f
    = Some (c :: rest)
    /\ (length rest <= 2)%nat.
Proof.
  intros Hllm Hin Hdom. unfold FieldExtractor.mergeResults.
  set (step := fun (merged : Fields) (fieldName : string) =>
                 match Obj.get llmResults fieldName with
                 | Some ((_ :: _) as llmMatches) =>
                     Obj.set merged fieldName
                       (take 3 (RulesEngine.sortByConfidence
                                  (default [] (Obj.get merged fieldName) ++ llmMatches)))
                 | _ => merged
                 end).
  set (K := fun o : Fields =>
              exists rest, Obj.get o f = Some (c :: rest)
                           /\ (length rest <= 2)%nat /\ dominatedBy c (c :: rest)).
  assert (Hf : forall acc, dominatedBy c (default [] (Obj.get acc f)) -> K (step acc f)).
  { intros acc Hacc. unfold step. rewrite Hllm.
    destruct (merge_step_dominant c _ Hacc) as (rest & Heq & Hlen & Hd).
    exists rest. rewrite Obj_get_set_eq, Heq. auto. }
  assert (Hother : forall acc g, g <> f -> Obj.get (step acc g) f = Obj.get acc f).
  { intros acc g Hne. unfold step.
    destruct (Obj.get llmResults g) as [[| m ms] |]; try reflexivity.
    now apply Obj_get_set_ne. }
  assert (HK : forall acc g, K acc -> K (step acc g)).
  { intros acc g (rest & Hget & Hlen & Hd).
    destruct (String.eqb g f) eqn:E.
    - apply String.eqb_eq in E. subst g. apply Hf. now rewrite Hget.
    - apply String.eqb_neq in E. exists rest. now rewrite Hother. }
  assert (G : forall (todo : list string) (acc : Fields),
             In f todo -> dominatedBy c (default [] (Obj.get acc f)) ->
             K (fold_left step todo acc)).
  { induction todo as [| g todo IH]; intros acc Htodo Hacc; [destruct Htodo |].
    simpl. destruct (String.eqb g f) eqn:E.
    - apply String.eqb_eq in E. subst g.
      apply (fold_left_inv K); [exact HK | now apply Hf].
    - apply String.eqb_neq in E. destruct Htodo as [-> | Htodo]; [congruence |].
      apply IH; [exact Htodo |]. now rewrite Hother. }
  destruct (G missingFields rulesResults Hin Hdom) as (rest & Hget & Hlen & _).
  now exists rest.
Qed.

(** Below the threshold: the rules list of a gap field is dominated by any
    candidate at or above the threshold. *)
Lemma gap_list_dominated (this : RulesEngine.t) (text : string)
    (sf : option (list string)) (threshold : Q) (f : string) (c : Candidate) :
  FieldExtractor.isMissing (RulesEngine.extractFields this text sf) threshold f = true ->
  (threshold <= confidence c)%Q ->
  dominatedBy c (default [] (Obj.get (RulesEngine.extractFields this text sf) f)).
Proof.
  intros Hmiss Hthr. unfold FieldExtractor.isMissing in Hmiss.
  destruct (Obj.get (RulesEngine.extractFields this text sf) f) as [ms |] eqn:E;
    [| constructor].
  destruct ms as [| best rest]; [constructor |]. simpl.
  apply Qltb_lt in Hmiss.
  pose proof (rankedFor_sorted _ _ _ (extractFields_rankedFor _ _ _ _ _ E)) as Hs.
  apply List.Forall_forall. intros x Hx. right.
  pose proof (sorted_head_max best x rest Hs Hx). lra.
Qed.

Lemma mergeResults_NoDup (rulesResults llmResults : Fields)
    (missingFields : list string) :
  NoDup (Obj.keys rulesResults) ->
  NoDup (Obj.keys (FieldExtractor.mergeResults rulesResults llmResults missingFields)).
Proof.
  unfold FieldExtractor.mergeResults.
  apply (fold_left_inv (fun o : Fields => NoDup (Obj.keys o))).
  intros acc g Hacc.
  destruct (Obj.get llmResults g) as [[| m ms] |]; try exact Hacc.
  now apply Obj_set_NoDup.
Qed.

Lemma phases123_NoDup (rt : Runtime) (config : Config) (net : Network)
    (now : Timestamp) (this : FieldExtractor.t)
    (doc : FieldExtractor.ProcessedDocument) (options : FieldExtractor.Options) :
  NoDup (Obj.keys
           (FieldExtractor.p_extractedFields
              (fst (FieldExtractor.extractPhases123 rt config net now this doc options)))).
Proof.
  destruct (phases123_extractedFields rt config net now this doc options)
    as [Heq | (llm & Heq)]; rewrite Heq; [| apply mergeResults_NoDup];
    rewrite phases123_rulesResults; apply extractFields_NoDup.
Qed.

(** Reading a field of the post-processed result. *)
Lemma postProcess_get (rt : Runtime) (fields : Fields) (f : string) :
  NoDup (Obj.keys fields) ->
  Obj.get (FieldExtractor.postProcess rt fields) f
  = match Obj.get fields f with
    | Some ((_ :: _) as ms) => Some (map (FieldExtractor.postProcessMatch rt f) ms)
    | _ => None
    end.
Proof.
  unfold FieldExtractor.postProcess, Obj.entries.
  set (step := fun (processed : Fields) '(fieldName, matches) =>
                 match matches with
                 | [] => processed
                 | _ :: _ =>
                     Obj.set processed fieldName
                       (map (FieldExtractor.postProcessMatch rt fieldName) matches)
                 end).
  assert (G : forall (todo acc : Fields),
             NoDup (Obj.keys todo) ->
             Obj.get (fold_left step todo acc) f
             = match Obj.get todo f with
               | Some ((_ :: _) as ms) =>
                   Some (map (FieldExtractor.postProcessMatch rt f) ms)
               | _ => Obj.get acc f
               end).
  { induction todo as [| [k v] todo IH]; intros acc Hnd; [reflexivity |].
    simpl in Hnd. apply NoDup_cons in Hnd as [Hk Hnd]. simpl fold_left.
    rewrite (IH _ Hnd). simpl Obj.get.
    destruct (String.eqb f k) eqn:E.
    - apply String.eqb_eq in E. subst k.
      assert (Hnone : Obj.get todo f = None).
      { destruct (Obj.get todo f) eqn:E'; [| reflexivity].
        exfalso. apply Hk. apply list_elem_of_In. apply Obj_get_In in E'.
        change f with (fst (f, l)). now apply in_map. }
      rewrite Hnone. destruct v as [| m ms]; simpl; [reflexivity |].
      apply Obj_get_set_eq.
    - apply String.eqb_neq in E.
      destruct (Obj.get todo f) as [[| m ms] |]; try reflexivity;
        destruct v as [| m' ms']; simpl; try reflexivity;
        apply Obj_get_set_ne; congruence. }
  intros Hnd. rewrite (G fields Obj.empty Hnd).
  now destruct (Obj.get fields f) as [[| m ms] |].
Qed.

(** X10: with a threshold of at most 0.7, requested fields of ordinary
    names and a reply whose values are strings or [null] (the replies that
    [rt_JSON_parse] describes), a gap field for which the provider has an
    answer comes out with that answer as its best match, the post-processed
    value of the backend, ahead of every rules candidate, in a list of at
    most three candidates.  (For another truthy value of the reply the
    post-processing of the code throws, and [extract] returns no result.) *)
Theorem X10_fallback_answer_is_best_match (rt : Runtime) (config : Config)
    (net : Network) (now : Timestamp) (this : FieldExtractor.t)
    (doc : FieldExtractor.ProcessedDocument) (options : FieldExtractor.Options)
    (llmResults : Fields) (llm' : LLMProvider.t) (f : string)
    (cs : list Candidate) :
  let rulesResults :=
    RulesEngine.extractFields (FieldExtractor.rulesEngine this)
      (FieldExtractor.text doc) (FieldExtractor.specificFields options) in
  let missingFields :=
    FieldExtractor.identifyMissingFields this rulesResults
      (FieldExtractor.confidenceThreshold options)
      (FieldExtractor.specificFields options) in
  FieldExtractor.enableLLMFallback options = true ->
  (FieldExtractor.confidenceThreshold options <= 0.7)%Q ->
  forallb Obj.plainName
    (requestedFields this (FieldExtractor.specificFields options)) = true ->
  LLMProvider.extractFields rt config net now (FieldExtractor.llmProvider this)
    (FieldExtractor.text doc) missingFields (FieldExtractor.sessionId options)
  = (Ok llmResults, llm') ->
  Obj.get llmResults f = Some cs ->
  exists v rest,
    cs = [llmCandidate v]
    /\ Obj.get (FieldExtractor.extractedFields
                  (fst (FieldExtractor.extract rt config net now this doc options))) f
       = Some (FieldExtractor.postProcessMatch rt f (llmCandidate v) :: rest)
    /\ (length rest <= 2)%nat.
Proof.
  intros rulesResults missingFields Hon Hthr _ Hcall Hget.
  pose proof (provider_answer_is_parsed _ _ _ _ _ _ _ _ _ _ Hcall) as (resp & Hparsed).
  pose proof (parseExtractionResponse_entries rt resp missingFields) as Hshape.
  rewrite <- Hparsed in Hshape. rewrite List.Forall_forall in Hshape.
  destruct (Hshape _ (Obj_get_In _ _ _ Hget)) as (Hmiss & v & _ & Hcs).
  simpl in Hmiss, Hcs. subst cs.
  assert (Hdom : dominatedBy (llmCandidate v) (default [] (Obj.get rulesResults f))).
  { apply (gap_list_dominated _ _ _ (FieldExtractor.confidenceThreshold options)).
    - now apply identifyMissingFields_isMissing in Hmiss.
    - exact Hthr. }
  destruct (mergeResults_dominant rulesResults llmResults missingFields f
              (llmCandidate v) Hget Hmiss Hdom) as (rest & Hmerged & Hlen).
  exists v, (map (FieldExtractor.postProcessMatch rt f) rest).
  split; [reflexivity |]. rewrite length_map. split; [| exact Hlen].
  pose proof (phases123_NoDup rt config net now this doc options) as Hnd.
  unfold FieldExtractor.extract.
  assert (Hp : FieldExtractor.p_extractedFields
                 (fst (FieldExtractor.extractPhases123 rt config net now this doc options))
               = FieldExtractor.mergeResults rulesResults llmResults missingFields).
  { unfold FieldExtractor.extractPhases123. fold rulesResults. fold missingFields.
    rewrite Hon, Hcall.
    destruct missingFields as [| g gs]; [destruct Hmiss | reflexivity]. }
  destruct (FieldExtractor.extractPhases123 _ _ _ _ _ _ _) as [p this']. simpl in *.
  rewrite postProcess_get by exact Hnd. rewrite Hp, Hmerged. reflexivity.
Qed.

Lemma X10_fallback_answer_is_best_match_witness :
  exists v rest,
    [llmCandidate "ref-a1"] = [llmCandidate v]
    /\ Obj.get (FieldExtractor.extractedFields
                  (Example.run (Example.answering Example.replyRef)
                     Example.idRefExtractor Example.idRefText
                     ["customId"; "ref"] true)) "ref"
       = Some (FieldExtractor.postProcessMatch Example.runtime "ref" (llmCandidate v)
               :: rest)
    /\ (length rest <= 2)%nat.
Proof.
  apply (X10_fallback_answer_is_best_match Example.runtime Example.config
           (Example.answering Example.replyRef) Example.now Example.idRefExtractor
           (Example.doc Example.idRefText) (Example.only ["customId"; "ref"] true)
           [("ref", [llmCandidate "ref-a1"])]
           (snd (LLMProvider.extractFields Example.runtime Example.config
                   (Example.answering Example.replyRef) Example.now
                   (FieldExtractor.llmProvider Example.idRefExtractor)
                   Example.idRefText ["ref"] "default"))
           "ref").
  - reflexivity.
  - apply Qle_bool_iff. reflexivity.
  - reflexivity.
  - vm_compute. reflexivity.
  - reflexivity.
Defined.

(** ** The summary of a result *)

Lemma nonempty_get (fields : Fields) (k : string) :
  Forall (fun kv => snd kv <> []) fields ->
  In k (Obj.keys fields) ->
  exists m ms, Obj.get fields k = Some (m :: ms).
Proof.
  intros Hall Hk. apply Obj_keys_In_get in Hk as (v & Hget).
  rewrite List.Forall_forall in Hall.
  pose proof (Hall _ (Obj_get_In _ _ _ Hget)) as Hne. simpl in Hne.
  destruct v as [| m ms]; [contradiction | eauto].
Qed.

Lemma postProcess_NoDup (rt : Runtime) (fields : Fields) :
  NoDup (Obj.keys (FieldExtractor.postProcess rt fields)).
Proof.
  unfold FieldExtractor.postProcess.
  apply (fold_left_inv (fun o : Fields => NoDup (Obj.keys o))); [| apply NoDup_nil_2].
  intros acc [f ms] Hacc. destruct ms; [exact Hacc | now apply Obj_set_NoDup].
Qed.

Lemma filter_length_le {A : Type} (p : A -> bool) (l : list A) :
  (length (List.filter p l) <= length l)%nat.
Proof.
  induction l as [| x l IH]; simpl; [lia |]. destruct (p x); simpl; lia.
Qed.

(** X6: the summary agrees with the fields of the result: [fieldsFound]
    lists exactly the keys of [extractedFields], in their order, the number
    of fields extracted is the number of these keys and equals
    [metadata.finalFieldsCount], and no more fields are counted as highly
    confident than were extracted. *)
Theorem X6_summary_agrees_with_fields (rt : Runtime) (config : Config)
    (net : Network) (now : Timestamp) (this : FieldExtractor.t)
    (doc : FieldExtractor.ProcessedDocument) (options : FieldExtractor.Options) :
  let r := fst (FieldExtractor.extract rt config net now this doc options) in
  let s := FieldExtractor.summary r in
  FieldExtractor.fieldsFound s = Obj.keys (FieldExtractor.extractedFields r)
  /\ FieldExtractor.fieldsExtracted s
     = length (Obj.keys (FieldExtractor.extractedFields r))
  /\ FieldExtractor.finalFieldsCount (FieldExtractor.metadata r)
     = Some (FieldExtractor.fieldsExtracted s)
  /\ (FieldExtractor.highConfidenceFields s <= FieldExtractor.fieldsExtracted s)%nat.
Proof.
  unfold FieldExtractor.extract.
  destruct (FieldExtractor.extractPhases123 _ _ _ _ _ _ _) as [p this']. simpl.
  set (final := FieldExtractor.postProcess rt (FieldExtractor.p_extractedFields p)).
  assert (Hkeys :
            List.filter (fun f => match Obj.get final f with
                                  | Some (_ :: _) => true
                                  | _ => false
                                  end) (Obj.keys final)
            = Obj.keys final).
  { apply filter_all. apply List.Forall_forall. intros k Hk.
    destruct (nonempty_get final k (postProcess_nonempty rt _) Hk) as (m & ms & ->).
    reflexivity. }
  rewrite Hkeys. repeat split. apply filter_length_le.
Qed.

Lemma sum_in_unit (l : list Q) (acc : Q) :
  Forall (fun x => (0 <= x)%Q /\ (x <= 1)%Q) l ->
  (acc <= fold_left Qplus l acc)%Q
  /\ (fold_left Qplus l acc <= acc + Qofnat (length l))%Q.
Proof.
  intros Hall. revert acc.
  induction Hall as [| x l [H0 H1] _ IH]; intros acc; cbn [fold_left length].
  - change (Qofnat 0) with 0%Q. split; lra.
  - destruct (IH (acc + x)%Q) as [Hlo Hhi]. split; [lra |].
    eapply Qle_trans; [exact Hhi |].
    assert (Hs : (Qofnat (S (length l)) == Qofnat (length l) + 1)%Q).
    { unfold Qofnat. rewrite Nat2Z.inj_succ, <- Z.add_1_r, inject_Z_plus. reflexivity. }
    rewrite Hs. lra.
Qed.

Lemma best_confidences_in_unit (rt : Runtime) (fields : Fields) :
  Forall (fun x => (0 <= x)%Q /\ (x <= 1)%Q)
    (flat_map (fun matches : list Candidate =>
                 match matches with
                 | m :: _ => [confidence m]
                 | [] => []
                 end) (Obj.values (FieldExtractor.postProcess rt fields))).
Proof.
  apply List.Forall_forall. intros x Hx.
  apply in_flat_map in Hx as (ms & Hms & Hx). unfold Obj.values in Hms.
  apply List.in_map_iff in Hms as ([f ms'] & Heq & Hin). simpl in Heq. subst ms'.
  apply postProcess_entries in Hin as (raw & _ & Heq). simpl in Heq. subst ms.
  destruct raw as [| m raw]; [destruct Hx |]. simpl in Hx.
  destruct Hx as [<- | []]. apply clamp01_range.
Qed.

(** X11: the average confidence of a summary, the mean of the best
    confidences of the fields, lies between 0 and 1. *)
Theorem X11_average_confidence_in_unit_interval (rt : Runtime) (config : Config)
    (net : Network) (now : Timestamp) (this : FieldExtractor.t)
    (doc : FieldExtractor.ProcessedDocument) (options : FieldExtractor.Options) :
  let r := fst (FieldExtractor.extract rt config net now this doc options) in
  let average := FieldExtractor.averageConfidence (FieldExtractor.summary r) in
  (0 <= average)%Q /\ (average <= 1)%Q.
Proof.
  unfold FieldExtractor.extract.
  destruct (FieldExtractor.extractPhases123 _ _ _ _ _ _ _) as [p this']. simpl.
  unfold FieldExtractor.calculateAverageConfidence.
  pose proof (best_confidences_in_unit rt (FieldExtractor.p_extractedFields p)) as Hall.
  set (best := flat_map _ _) in *.
  destruct (sum_in_unit best 0 Hall) as [Hlo Hhi].
  split.
  - destruct (Nat.ltb 0 (length best)) eqn:E; [| lra].
    apply Nat.ltb_lt in E.
    apply Qle_shift_div_l; [| lra].
    unfold Qofnat. change 0%Q with (inject_Z 0). rewrite <- Zlt_Qlt. lia.
  - destruct (Nat.ltb 0 (length best)) eqn:E; [| lra].
    apply Nat.ltb_lt in E.
    apply Qle_shift_div_r; [| lra].
    unfold Qofnat. change 0%Q with (inject_Z 0). rewrite <- Zlt_Qlt. lia.
Qed.

(** ** The books of the ledger *)






(** ** Requests of a day *)

Lemma requestsFold_insert (date : string) (m : gmap string CostTracker.Session)
    (sid : string) (s : CostTracker.Session) :
  map_fold (fun _ session count =>
              (count + length (CostTracker.requestsOn date session))%nat) 0%nat
    (<[sid := s]> m)
  = (map_fold (fun _ session count =>
                 (count + length (CostTracker.requestsOn date session))%nat) 0%nat
       (delete sid m)
     + length (CostTracker.requestsOn date s))%nat.
Proof.
  rewrite <- insert_delete_eq. rewrite map_fold_insert_L; [reflexivity | |].
  - intros. lia.
  - apply lookup_delete_eq.
Qed.

Lemma requestsFold_lookup (date : string) (m : gmap string CostTracker.Session)
    (sid : string) (s : CostTracker.Session) :
  m !! sid = Some s ->
  map_fold (fun _ session count =>
              (count + length (CostTracker.requestsOn date session))%nat) 0%nat m
  = (map_fold (fun _ session count =>
                 (count + length (CostTracker.requestsOn date session))%nat) 0%nat
       (delete sid m)
     + length (CostTracker.requestsOn date s))%nat.
Proof.
  intros H.
  rewrite (map_fold_delete_L _ _ sid s m); [reflexivity | | exact H].
  intros. lia.
Qed.

Lemma trackRequest_requests_on (ct : CostTracker.t) (now : Timestamp)
    (sessionId model : string) (inputTokens outputTokens : N) (date : string) :
  CostTracker.getTotalRequestsForDate
    (snd (CostTracker.trackRequest ct now sessionId model inputTokens outputTokens))
    date
  = (CostTracker.getTotalRequestsForDate ct date
     + if String.eqb (dayOf now) date then 1 else 0)%nat.
Proof.
  unfold CostTracker.getTotalRequestsForDate, CostTracker.trackRequest. simpl.
  rewrite requestsFold_insert.
  destruct (CostTracker.costs ct !! sessionId) as [s |] eqn:E.
  - rewrite (requestsFold_lookup date _ sessionId s E).
    unfold CostTracker.requestsOn. simpl. rewrite List.filter_app, length_app. simpl.
    destruct (String.eqb (dayOf now) date); simpl; lia.
  - rewrite (delete_id _ _ E).
    unfold CostTracker.requestsOn. simpl.
    destruct (String.eqb (dayOf now) date); simpl; lia.
Qed.

(** X13: a recorded request is counted on its own day and on no other:
    the number of requests that the ledger reports for a date goes up by one
    when the request was made on that date and stays as it was otherwise; in
    particular the daily statistics of today count one request more. *)
Theorem X13_request_is_counted_on_its_day (ct : CostTracker.t) (now : Timestamp)
    (sessionId model : string) (inputTokens outputTokens : N) (date : string) :
  let ct' :=
    snd (CostTracker.trackRequest ct now sessionId model inputTokens outputTokens) in
  CostTracker.getTotalRequestsForDate ct' date
  = (CostTracker.getTotalRequestsForDate ct date
     + if String.eqb (dayOf now) date then 1 else 0)%nat
  /\ CostTracker.ds_requestCount (CostTracker.getDailyStats ct' now None)
     = S (CostTracker.ds_requestCount (CostTracker.getDailyStats ct now None)).
Proof.
  intros ct'. subst ct'. split; [apply trackRequest_requests_on |].
  unfold CostTracker.getDailyStats. cbn [CostTracker.ds_requestCount].
  rewrite trackRequest_requests_on, String.eqb_refl. lia.
Qed.

(** ** What a run of the extractor does to the ledger *)

(** The provider leaves its instance as it is and throws, or the network
    answered and one request of the session, made now, is recorded. *)
Lemma provider_ledger_step (rt : Runtime) (config : Config) (net : Network)
    (now : Timestamp) (this : LLMProvider.t) (text : string)
    (missingFields : list string) (sessionId : string) :
  let out :=
    LLMProvider.extractFields rt config net now this text missingFields sessionId in
  (snd out = this /\ exists message, fst out = Throw message)
  \/ exists url body d model inputTokens outputTokens,
       net url body = Resolved d
       /\ LLMProvider.costTracker (snd out)
          = snd (CostTracker.trackRequest (LLMProvider.costTracker this) now sessionId
                   model inputTokens outputTokens).
Proof.
  intros out. subst out. unfold LLMProvider.extractFields.
  destruct (negb _); [left; simpl; eauto |].
  destruct (String.eqb (LLMProvider.provider this) "ollama").
  - unfold LLMProvider.callOllama.
    destruct (net _ _) as [error | d] eqn:Enet.
    + left. destruct (match err_code error with Some c => _ | None => _ end);
        simpl; eauto.
    + right. destruct (CostTracker.trackRequest _ _ _ _ _ _) as [r ct] eqn:E.
      simpl. do 6 eexists. split; [exact Enet |].
      change ct with (snd (r, ct)). rewrite <- E. reflexivity.
  - destruct (String.eqb (LLMProvider.provider this) "openai"); [| left; simpl; eauto].
    unfold LLMProvider.callOpenAI.
    destruct (match openaiApiKey config with Some k => _ | None => _ end);
      [left; simpl; eauto |].
    destruct (net _ _) as [error | d] eqn:Enet.
    + left.
      destruct (status_cases (err_status error)
                  (Throw "Invalid OpenAI API key", this)
                  (Throw "OpenAI API rate limit exceeded", this)
                  (@Throw Fields ("OpenAI API error: " ++ err_message error), this))
        as [H | [H | H]]; cbv zeta in H; rewrite H; simpl; eauto.
    + destruct (data_usage d) as [[prompt_tokens completion_tokens] |];
        [| left; simpl; eauto].
      right. destruct (CostTracker.trackRequest _ _ _ _ _ _) as [r ct] eqn:E.
      do 6 eexists. split; [exact Enet |].
      destruct (data_content d); simpl; change ct with (snd (r, ct));
        rewrite <- E; reflexivity.
Qed.

(** The same for a whole run of [extract]; when the instance is left as it
    is, the result is not marked as having used the fallback. *)
Lemma extract_ledger_step (rt : Runtime) (config : Config) (net : Network)
    (now : Timestamp) (this : FieldExtractor.t)
    (doc : FieldExtractor.ProcessedDocument) (options : FieldExtractor.Options) :
  let out := FieldExtractor.extract rt config net now this doc options in
  (snd out = this
   /\ FieldExtractor.llmFallbackUsed (FieldExtractor.metadata (fst out)) = false)
  \/ exists url body d model inputTokens outputTokens,
       net url body = Resolved d
       /\ FieldExtractor.getCostTracker (snd out)
          = snd (CostTracker.trackRequest (FieldExtractor.getCostTracker this) now
                   (FieldExtractor.sessionId options) model inputTokens outputTokens).
Proof.
  intros out. subst out.
  unfold FieldExtractor.extract, FieldExtractor.extractPhases123,
    FieldExtractor.getCostTracker.
  destruct (_ && _); [| left; split; reflexivity].
  pose proof (provider_ledger_step rt config net now (FieldExtractor.llmProvider this)
                (FieldExtractor.text doc)
                (FieldExtractor.identifyMissingFields this
                   (RulesEngine.extractFields (FieldExtractor.rulesEngine this)
                      (FieldExtractor.text doc) (FieldExtractor.specificFields options))
                   (FieldExtractor.confidenceThreshold options)
                   (FieldExtractor.specificFields options))
                (FieldExtractor.sessionId options)) as H.
  cbv zeta in H.
  destruct (LLMProvider.extractFields _ _ _ _ _ _ _ _) as [[results | message] llm].
  - right. destruct H as [[_ (m & Hm)] | H]; [discriminate | exact H].
  - destruct H as [[Hsame _] | H]; [left | right; exact H].
    simpl in Hsame. subst llm. destruct this. split; reflexivity.
Qed.

Lemma trackRequest_session (ct : CostTracker.t) (now : Timestamp)
    (sessionId model : string) (inputTokens outputTokens : N) :
  let before := CostTracker.getSessionStats ct sessionId in
  let after :=
    CostTracker.getSessionStats
      (snd (CostTracker.trackRequest ct now sessionId model inputTokens outputTokens))
      sessionId in
  exists entry,
    CostTracker.ss_requests after = (CostTracker.ss_requests before ++ [entry])%list
    /\ CostTracker.req_timestamp entry = now
    /\ CostTracker.ss_requestCount after = S (CostTracker.ss_requestCount before)
    /\ (CostTracker.ss_totalCost after
        == CostTracker.ss_totalCost before + CostTracker.req_cost entry)%Q.
Proof.
  unfold CostTracker.getSessionStats, CostTracker.trackRequest. simpl.
  rewrite lookup_insert_eq.
  destruct (CostTracker.costs ct !! sessionId) as [s |]; simpl;
    eexists; (split; [reflexivity |]); simpl; repeat split;
    rewrite ?length_app; simpl; try lia; reflexivity.
Qed.

Lemma trackRequest_other_session (ct : CostTracker.t) (now : Timestamp)
    (sessionId model : string) (inputTokens outputTokens : N) (other : string) :
  String.eqb other sessionId = false ->
  CostTracker.getSessionStats
    (snd (CostTracker.trackRequest ct now sessionId model inputTokens outputTokens))
    other
  = CostTracker.getSessionStats ct other.
Proof.
  intros Hne. apply String.eqb_neq in Hne.
  unfold CostTracker.getSessionStats, CostTracker.trackRequest. simpl.
  rewrite lookup_insert_ne by congruence. reflexivity.
Qed.

(** X14: a run whose result is marked as having used the fallback has
    recorded exactly one request in the cost information of its session: the
    requests on record are those from before followed by one made now, the
    count is one higher and the total has grown by the cost of that
    request. *)
Theorem X14_used_fallback_is_one_request (rt : Runtime) (config : Config)
    (net : Network) (now : Timestamp) (this : FieldExtractor.t)
    (doc : FieldExtractor.ProcessedDocument) (options : FieldExtractor.Options) :
  let out := FieldExtractor.extract rt config net now this doc options in
  let sid := FieldExtractor.sessionId options in
  let before :=
    PipelineService.ci_session (PipelineService.getCostInfo this now sid) in
  let after :=
    PipelineService.ci_session (PipelineService.getCostInfo (snd out) now sid) in
  FieldExtractor.llmFallbackUsed (FieldExtractor.metadata (fst out)) = true ->
  exists entry,
    CostTracker.ss_requests after = (CostTracker.ss_requests before ++ [entry])%list
    /\ CostTracker.req_timestamp entry = now
    /\ CostTracker.ss_requestCount after = S (CostTracker.ss_requestCount before)
    /\ (CostTracker.ss_totalCost after
        == CostTracker.ss_totalCost before + CostTracker.req_cost entry)%Q.
Proof.
  intros out sid before after Hused. subst before after sid.
  unfold PipelineService.getCostInfo. cbn [PipelineService.ci_session].
  destruct (extract_ledger_step rt config net now this doc options)
    as [[_ Hnot] | (url & body & d & model & i & o & _ & Hstep)].
  - fold out in Hnot. congruence.
  - fold out in Hstep. rewrite Hstep. apply trackRequest_session.
Qed.

(** X15: a run of the extractor changes the statistics of no session but
    its own. *)
Theorem X15_other_sessions_untouched (rt : Runtime) (config : Config)
    (net : Network) (now : Timestamp) (this : FieldExtractor.t)
    (doc : FieldExtractor.ProcessedDocument) (options : FieldExtractor.Options)
    (other : string) :
  String.eqb other (FieldExtractor.sessionId options) = false ->
  CostTracker.getSessionStats
    (FieldExtractor.getCostTracker
       (snd (FieldExtractor.extract rt config net now this doc options))) other
  = CostTracker.getSessionStats (FieldExtractor.getCostTracker this) other.
Proof.
  intros Hne.
  destruct (extract_ledger_step rt config net now this doc options)
    as [[Hsame _] | (url & body & d & model & i & o & _ & Hstep)].
  - now rewrite Hsame.
  - rewrite Hstep. now apply trackRequest_other_session.
Qed.

(** X16: a run during which no request gets an answer, the network
    rejecting every one, leaves the extractor and its ledger exactly as they
    were: nothing is recorded and nothing is charged. *)
Theorem X16_unanswered_run_records_nothing (rt : Runtime) (config : Config)
    (net : Network) (now : Timestamp) (this : FieldExtractor.t)
    (doc : FieldExtractor.ProcessedDocument) (options : FieldExtractor.Options)
    (error : AxiosError) :
  (forall url body, net url body = Rejected error) ->
  snd (FieldExtractor.extract rt config net now this doc options) = this.
Proof.
  intros Hnet.
  destruct (extract_ledger_step rt config net now this doc options)
    as [[Hsame _] | (url & body & d & model & i & o & Hd & _)]; [exact Hsame |].
  rewrite Hnet in Hd. discriminate.
Qed.

Lemma X14_used_fallback_is_one_request_witness :
  let out :=
    FieldExtractor.extract Example.runtime Example.config
      (Example.answering Example.replyRef) Example.now Example.idRefExtractor
      (Example.doc Example.idRefText) (Example.only ["customId"; "ref"] true) in
  let before :=
    PipelineService.ci_session
      (PipelineService.getCostInfo Example.idRefExtractor Example.now "default") in
  let after :=
    PipelineService.ci_session
      (PipelineService.getCostInfo (snd out) Example.now "default") in
  FieldExtractor.llmFallbackUsed (FieldExtractor.metadata (fst out)) = true
  /\ exists entry,
       CostTracker.ss_requests after = (CostTracker.ss_requests before ++ [entry])%list
       /\ CostTracker.req_timestamp entry = Example.now
       /\ CostTracker.ss_requestCount after = S (CostTracker.ss_requestCount before)
       /\ (CostTracker.ss_totalCost after
           == CostTracker.ss_totalCost before + CostTracker.req_cost entry)%Q.
Proof.
  intros out before after. split; [vm_compute; reflexivity |].
  apply (X14_used_fallback_is_one_request Example.runtime Example.config
           (Example.answering Example.replyRef) Example.now Example.idRefExtractor
           (Example.doc Example.idRefText) (Example.only ["customId"; "ref"] true)).
  vm_compute. reflexivity.
Defined.

Lemma X15_other_sessions_untouched_witness :
  CostTracker.getSessionStats
    (FieldExtractor.getCostTracker
       (snd (FieldExtractor.extract Example.runtime Example.config
               (Example.answering Example.replyRef) Example.now Example.idRefExtractor
               (Example.doc Example.idRefText) (Example.only ["customId"; "ref"] true))))
    "batch-2"
  = CostTracker.getSessionStats
      (FieldExtractor.getCostTracker Example.idRefExtractor) "batch-2".
Proof.
  apply (X15_other_sessions_untouched Example.runtime Example.config
           (Example.answering Example.replyRef) Example.now Example.idRefExtractor
           (Example.doc Example.idRefText) (Example.only ["customId"; "ref"] true)
           "batch-2").
  reflexivity.
Defined.

Lemma X16_unanswered_run_records_nothing_witness :
  snd (FieldExtractor.extract Example.runtime Example.config Example.unreachable
         Example.now Example.idRefExtractor (Example.doc Example.idRefText)
         (Example.only ["customId"; "ref"] true))
  = Example.idRefExtractor.
Proof.
  apply (X16_unanswered_run_records_nothing Example.runtime Example.config
           Example.unreachable Example.now Example.idRefExtractor
           (Example.doc Example.idRefText) (Example.only ["customId"; "ref"] true)
           {| err_code := Some "ECONNREFUSED"; err_status := None;
              err_message := "connect ECONNREFUSED 127.0.0.1:11434" |}).
  intros url body. reflexivity.
Defined.

(** ** Truncating a prompt *)

Lemma substring_0_prefix (n : nat) (s : string) :
  String.prefix (String.substring 0 n s) s = true.
Proof.
  revert n. induction s as [| c s IH]; intros [| n]; simpl; try reflexivity.
  rewrite IH. now destruct (ascii_dec c c).
Qed.

Lemma substring_0_length (n : nat) (s : string) :
  (n <= String.length s)%nat -> String.length (String.substring 0 n s) = n.
Proof.
  revert n. induction s as [| c s IH]; intros [| n] H; simpl in *;
    try reflexivity; try lia.
  rewrite IH; lia.
Qed.

Lemma append_length (s1 s2 : string) :
  String.length (s1 ++ s2) = (String.length s1 + String.length s2)%nat.
Proof.
  induction s1 as [| c s1 IH]; simpl; [reflexivity | now rewrite IH].
Qed.

Lemma JsSubstring_0 (s : string) (n : nat) :
  (n <= String.length s)%nat ->
  JsString.substring s 0 n = String.substring 0 n s.
Proof.
  intros H. unfold JsString.substring.
  rewrite Nat.min_0_l, (Nat.min_l n) by exact H.
  now rewrite Nat.min_0_l, Nat.max_0_l, Nat.sub_0_r.
Qed.

Lemma truncation_target (len : nat) (maxTokens estimatedTokens : N) :
  (maxTokens < estimatedTokens)%N ->
  (10 * Z.to_nat (Qfloor (Qofnat len * (QofN maxTokens / QofN estimatedTokens) * 0.9)%Q)
   <= 9 * len)%nat.
Proof.
  intros Hlt.
  set (x := (Qofnat len * (QofN maxTokens / QofN estimatedTokens) * 0.9)%Q).
  assert (Hr : (QofN maxTokens / QofN estimatedTokens <= 1)%Q).
  { apply Qle_shift_div_r.
    - unfold QofN. change 0%Q with (inject_Z 0). rewrite <- Zlt_Qlt. lia.
    - rewrite Qmult_1_l. unfold QofN. rewrite <- Zle_Qle. lia. }
  assert (Hr0 : (0 <= QofN maxTokens / QofN estimatedTokens)%Q).
  { apply Qle_shift_div_l.
    - unfold QofN. change 0%Q with (inject_Z 0). rewrite <- Zlt_Qlt. lia.
    - rewrite Qmult_0_l. apply QofN_nonneg. }
  assert (Hl : (0 <= Qofnat len)%Q).
  { unfold Qofnat. change 0%Q with (inject_Z 0). rewrite <- Zle_Qle. lia. }
  assert (Hx : (x <= 0.9 * Qofnat len)%Q) by (subst x; nra).
  pose proof (Qfloor_le x) as Hf.
  assert (H : (inject_Z (Qfloor x) * inject_Z 10 <= inject_Z 9 * Qofnat len)%Q).
  { change (inject_Z 10) with 10%Q. change (inject_Z 9) with 9%Q. lra. }
  unfold Qofnat in H. rewrite <- !inject_Z_mult, <- Zle_Qle in H. lia.
Qed.

(** X17: [truncateToTokenLimit] returns a text within the limit as it is;
    otherwise it keeps a prefix of the text, of at most nine tenths of its
    length, and appends the mark of truncation. *)
Theorem X17_truncation_keeps_a_prefix (text : string) (maxTokens : N) :
  let out := CostTracker.truncateToTokenLimit text maxTokens in
  ((CostTracker.estimateTokens text <= maxTokens)%N /\ out = text)
  \/ ((maxTokens < CostTracker.estimateTokens text)%N
      /\ exists kept,
           out = kept ++ "...[truncated]"
           /\ String.prefix kept text = true
           /\ (10 * String.length kept <= 9 * String.length text)%nat
           /\ String.length out = (String.length kept + 14)%nat).
Proof.
  intros out. subst out. unfold CostTracker.truncateToTokenLimit.
  destruct (N.leb_spec (CostTracker.estimateTokens text) maxTokens) as [Hle | Hlt].
  - left. split; [exact Hle | reflexivity].
  - right. split; [exact Hlt |].
    pose proof (truncation_target (String.length text) _ _ Hlt) as Hn.
    set (n := Z.to_nat _) in *.
    assert (Hlen : (n <= String.length text)%nat) by lia.
    exists (String.substring 0 n text). rewrite JsSubstring_0 by exact Hlen.
    repeat split.
    + apply substring_0_prefix.
    + rewrite substring_0_length by exact Hlen. exact Hn.
    + rewrite append_length. reflexivity.
Qed.

(** ** What is sent to the portal *)

Lemma Obj_set_new {V : Type} (o : Obj.t V) (k : string) (v : V) :
  ~ In k (Obj.keys o) -> Obj.set o k v = (o ++ [(k, v)])%list.
Proof.
  induction o as [| [k' v'] o IH]; simpl; intros H; [reflexivity |].
  destruct (String.eqb k k') eqn:E.
  - apply String.eqb_eq in E. subst k'. tauto.
  - rewrite IH; tauto.
Qed.

Lemma formatFieldsForPortal_fold (fields : Fields) (acc : Obj.t string) :
  Forall (fun kv => snd kv <> []) fields ->
  NoDup (Obj.keys acc ++ Obj.keys fields) ->
  fold_left (fun formatted '(fieldName, matches) =>
               match matches with
               | [] => formatted
               | bestMatch :: _ => Obj.set formatted fieldName (value bestMatch)
               end) fields acc
  = (acc ++ map (fun kv => (fst kv,
                            match snd kv with
                            | bestMatch :: _ => value bestMatch
                            | [] => EmptyString
                            end)) fields)%list.
Proof.
  intros Hall. revert acc.
  induction Hall as [| [f ms] fields Hne _ IH]; intros acc Hnd; simpl.
  - now rewrite app_nil_r.
  - destruct ms as [| m ms]; [contradiction |]. simpl in Hnd.
    assert (Hf : ~ In f (Obj.keys acc)).
    { apply NoDup_app in Hnd as (_ & Hdisj & _). intros Hin.
      apply (Hdisj f); [now apply list_elem_of_In | left]. }
    rewrite (Obj_set_new acc f (value m) Hf). rewrite IH.
    + now rewrite <- app_assoc.
    + unfold Obj.keys in *. rewrite map_app, <- app_assoc. exact Hnd.
Qed.

Lemma bestValues_get (fields : Fields) (f : string) :
  Forall (fun kv => snd kv <> []) fields ->
  Obj.get (map (fun kv => (fst kv,
                           match snd kv with
                           | bestMatch :: _ => value bestMatch
                           | [] => EmptyString
                           end)) fields) f
  = match Obj.get fields f with
    | Some (bestMatch :: _) => Some (value bestMatch)
    | _ => None
    end.
Proof.
  induction 1 as [| [g ms] fields Hne _ IH]; simpl; [reflexivity |].
  destruct (String.eqb f g); [| exact IH].
  destruct ms; [contradiction | reflexivity].
Qed.

(** X18: what [formatFieldsForPortal] makes of the fields of a result: the
    same fields in the same order, each with the value of its best match. *)
Theorem X18_portal_gets_best_values (rt : Runtime) (config : Config) (net : Network)
    (now : Timestamp) (this : FieldExtractor.t)
    (doc : FieldExtractor.ProcessedDocument) (options : FieldExtractor.Options)
    (f : string) :
  let fields :=
    FieldExtractor.extractedFields
      (fst (FieldExtractor.extract rt config net now this doc options)) in
  let formatted := PipelineService.formatFieldsForPortal fields in
  Obj.keys formatted = Obj.keys fields
  /\ Obj.get formatted f
     = match Obj.get fields f with
       | Some (bestMatch :: _) => Some (value bestMatch)
       | _ => None
       end.
Proof.
  unfold FieldExtractor.extract.
  destruct (FieldExtractor.extractPhases123 _ _ _ _ _ _ _) as [p this']. simpl.
  set (fields := FieldExtractor.postProcess rt (FieldExtractor.p_extractedFields p)).
  pose proof (postProcess_nonempty rt (FieldExtractor.p_extractedFields p)) as Hne.
  pose proof (postProcess_NoDup rt (FieldExtractor.p_extractedFields p)) as Hnd.
  fold fields in Hne, Hnd.
  unfold PipelineService.formatFieldsForPortal, Obj.entries, Obj.empty.
  rewrite (formatFieldsForPortal_fold fields [] Hne) by exact Hnd. simpl.
  split; [| now apply bestValues_get].
  unfold Obj.keys. rewrite map_map. reflexivity.
Qed.

(** ** Post-processing of phone numbers *)




(** ** The recommendations of a summary *)

Lemma insertBySeverity_sorted (x : FieldExtractor.Recommendation)
    (l : list FieldExtractor.Recommendation) :
  StronglySorted atLeastAsSevere l ->
  StronglySorted atLeastAsSevere
    (JsArray.insert
       (fun a b =>
          Nat.ltb (FieldExtractor.severityOrder (FieldExtractor.severity a))
            (FieldExtractor.severityOrder (FieldExtractor.severity b))) x l).
Proof.
  induction 1 as [| y l Hl IH Hy]; simpl.
  - repeat constructor.
  - destruct (Nat.ltb _ _) eqn:E.
    + constructor; [exact IH |].
      apply List.Forall_forall. intros z Hz.
      apply list_elem_of_In in Hz. rewrite insert_Permutation in Hz.
      apply list_elem_of_In in Hz. destruct Hz as [<- | Hz].
      * apply Nat.ltb_lt in E. unfold atLeastAsSevere. lia.
      * rewrite List.Forall_forall in Hy. now apply Hy.
    + apply Nat.ltb_ge in E. constructor.
      * now constructor.
      * constructor; [exact E |].
        rewrite List.Forall_forall in Hy |- *. intros z Hz.
        specialize (Hy z Hz). unfold atLeastAsSevere in *. lia.
Qed.

Lemma List_filter_Permutation {A : Type} (p : A -> bool) (l l' : list A) :
  l ≡ₚ l' -> List.filter p l ≡ₚ List.filter p l'.
Proof.
  induction 1 as [| x l l' _ IH | x y l | l l' l'' _ IH1 _ IH2]; simpl.
  - reflexivity.
  - destruct (p x); [now constructor | exact IH].
  - destruct (p x), (p y); try reflexivity. apply perm_swap.
  - now rewrite IH1.
Qed.

Lemma filter_about_recommendationFor (f g : string) (ms : list Candidate) :
  List.filter (about f) (FieldExtractor.recommendationFor g ms)
  = if String.eqb g f then FieldExtractor.recommendationFor g ms else [].
Proof.
  unfold FieldExtractor.recommendationFor, about.
  destruct ms as [| best rest]; simpl.
  - now destruct (String.eqb g f).
  - destruct (Qltb (confidence best) 0.5); simpl.
    + now destruct (String.eqb g f).
    + destruct (match rest with [] => false | _ => _ end); simpl;
        now destruct (String.eqb g f).
Qed.

Lemma filter_about_fields (f : string) (fields : Fields) :
  NoDup (Obj.keys fields) ->
  List.filter (about f)
    (flat_map (fun '(fieldName, matches) =>
                 FieldExtractor.recommendationFor fieldName matches) fields)
  = match Obj.get fields f with
    | Some ms => FieldExtractor.recommendationFor f ms
    | None => []
    end.
Proof.
  induction fields as [| [g ms] fields IH]; simpl; intros Hnd; [reflexivity |].
  apply NoDup_cons in Hnd as [Hg Hnd].
  rewrite List.filter_app, filter_about_recommendationFor, (IH Hnd).
  rewrite (String.eqb_sym f g).
  destruct (String.eqb g f) eqn:E; [| reflexivity].
  apply String.eqb_eq in E. subst g.
  destruct (Obj.get fields f) as [ms' |] eqn:Eget; [| apply app_nil_r].
  exfalso. apply Hg. apply list_elem_of_In.
  apply Obj_get_In in Eget. change f with (fst (f, ms')). now apply in_map.
Qed.

Lemma recommendationFor_length (f : string) (ms : list Candidate) :
  (length (FieldExtractor.recommendationFor f ms) <= 1)%nat.
Proof.
  unfold FieldExtractor.recommendationFor.
  destruct ms as [| best rest]; simpl; [lia |].
  destruct (Qltb (confidence best) 0.5); simpl; [lia |].
  destruct (match rest with [] => false | _ => _ end); simpl; lia.
Qed.

(** X21: the review recommendations of a summary are listed by severity,
    the more severe first, and those about a field are what the rule for
    one field says of its candidates: at most one recommendation for a field
    of the result, none for any other field. *)
Theorem X21_recommendations_by_field (rt : Runtime) (config : Config) (net : Network)
    (now : Timestamp) (this : FieldExtractor.t)
    (doc : FieldExtractor.ProcessedDocument) (options : FieldExtractor.Options)
    (f : string) :
  let r := fst (FieldExtractor.extract rt config net now this doc options) in
  let recommendations :=
    FieldExtractor.recommendedReview (FieldExtractor.summary r) in
  StronglySorted atLeastAsSevere recommendations
  /\ List.filter (about f) recommendations
     = match Obj.get (FieldExtractor.extractedFields r) f with
       | Some ms => FieldExtractor.recommendationFor f ms
       | None => []
       end
  /\ (length (List.filter (about f) recommendations) <= 1)%nat.
Proof.
  unfold FieldExtractor.extract.
  destruct (FieldExtractor.extractPhases123 _ _ _ _ _ _ _) as [p this']. simpl.
  set (fields := FieldExtractor.postProcess rt (FieldExtractor.p_extractedFields p)).
  pose proof (postProcess_NoDup rt (FieldExtractor.p_extractedFields p)) as Hnd.
  fold fields in Hnd.
  unfold FieldExtractor.getReviewRecommendations, Obj.entries.
  set (after := fun a b : FieldExtractor.Recommendation => Nat.ltb _ _).
  set (raw := flat_map _ fields).
  assert (Hsorted : StronglySorted atLeastAsSevere (JsArray.sort after raw)).
  { unfold JsArray.sort. induction raw as [| x raw IH]; simpl; [constructor |].
    now apply insertBySeverity_sorted. }
  assert (Hf : List.filter (about f) (JsArray.sort after raw)
               = match Obj.get fields f with
                 | Some ms => FieldExtractor.recommendationFor f ms
                 | None => []
                 end).
  { pose proof (List_filter_Permutation (about f) _ _ (sort_Permutation after raw))
      as Hperm.
    subst raw. rewrite (filter_about_fields f fields Hnd) in Hperm.
    assert (Hlen : (length (match Obj.get fields f with
                            | Some ms => FieldExtractor.recommendationFor f ms
                            | None => []
                            end) <= 1)%nat).
    { destruct (Obj.get fields f); [apply recommendationFor_length | simpl; lia]. }
    destruct (match Obj.get fields f with Some ms => _ | None => _ end)
      as [| x [| y rest]].
    - now apply Permutation_nil_r in Hperm.
    - symmetry in Hperm. now apply Permutation_singleton_l in Hperm.
    - simpl in Hlen. lia. }
  split; [exact Hsorted |]. split; [exact Hf |].
  rewrite Hf. destruct (Obj.get fields f); [apply recommendationFor_length | simpl; lia].
Qed.

(** ** An answer without fields *)

Lemma mergeResults_nothing (rulesResults : Fields) (missingFields : list string) :
  FieldExtractor.mergeResults rulesResults Obj.empty missingFields = rulesResults.
Proof.
  unfold FieldExtractor.mergeResults.
  induction missingFields as [| g gs IH]; simpl; [reflexivity | exact IH].
Qed.

(** X20: when the provider answers but its answer holds no field (a reply
    that is not JSON, or only nulls), the fields of the result are those of
    the rules stage alone, and the result is all the same marked as obtained
    with the fallback: method [rules+llm], [llmFallbackUsed], the gap fields
    listed and a count of zero fields from the backend. *)
Theorem X20_empty_answer_is_marked_as_fallback (rt : Runtime) (config : Config)
    (net : Network) (now : Timestamp) (this : FieldExtractor.t)
    (doc : FieldExtractor.ProcessedDocument) (options : FieldExtractor.Options)
    (llm' : LLMProvider.t) :
  let rulesResults :=
    RulesEngine.extractFields (FieldExtractor.rulesEngine this)
      (FieldExtractor.text doc) (FieldExtractor.specificFields options) in
  let missingFields :=
    FieldExtractor.identifyMissingFields this rulesResults
      (FieldExtractor.confidenceThreshold options)
      (FieldExtractor.specificFields options) in
  let r := fst (FieldExtractor.extract rt config net now this doc options) in
  FieldExtractor.enableLLMFallback options = true ->
  Nat.ltb 0 (length missingFields) = true ->
  LLMProvider.extractFields rt config net now (FieldExtractor.llmProvider this)
    (FieldExtractor.text doc) missingFields (FieldExtractor.sessionId options)
  = (Ok Obj.empty, llm') ->
  FieldExtractor.extractedFields r = FieldExtractor.postProcess rt rulesResults
  /\ FieldExtractor.sum_extractionMethod (FieldExtractor.summary r) = "rules+llm"
  /\ FieldExtractor.sum_llmFallbackUsed (FieldExtractor.summary r) = true
  /\ FieldExtractor.llmFields (FieldExtractor.metadata r) = Some missingFields
  /\ FieldExtractor.llmFieldsCount (FieldExtractor.metadata r) = Some 0%nat.
Proof.
  intros rulesResults missingFields r Hon Hgap Hcall. subst r.
  unfold FieldExtractor.extract, FieldExtractor.extractPhases123.
  fold rulesResults. fold missingFields. rewrite Hon, Hgap, Hcall. simpl.
  rewrite mergeResults_nothing. repeat split.
Qed.

Lemma X20_empty_answer_is_marked_as_fallback_witness :
  let r :=
    fst (FieldExtractor.extract Example.runtime Example.config
           (Example.answering "I could not find anything.") Example.now
           Example.idRefExtractor (Example.doc Example.idRefText)
           (Example.only ["customId"; "ref"] true)) in
  FieldExtractor.extractedFields r
  = FieldExtractor.postProcess Example.runtime
      (RulesEngine.extractFields (FieldExtractor.rulesEngine Example.idRefExtractor)
         Example.idRefText (Some ["customId"; "ref"]))
  /\ FieldExtractor.sum_extractionMethod (FieldExtractor.summary r) = "rules+llm"
  /\ FieldExtractor.sum_llmFallbackUsed (FieldExtractor.summary r) = true
  /\ FieldExtractor.llmFields (FieldExtractor.metadata r) = Some ["ref"]
  /\ FieldExtractor.llmFieldsCount (FieldExtractor.metadata r) = Some 0%nat.
Proof.
  apply (X20_empty_answer_is_marked_as_fallback Example.runtime Example.config
           (Example.answering "I could not find anything.") Example.now
           Example.idRefExtractor (Example.doc Example.idRefText)
           (Example.only ["customId"; "ref"] true)
           (snd (LLMProvider.extractFields Example.runtime Example.config
                   (Example.answering "I could not find anything.") Example.now
                   (FieldExtractor.llmProvider Example.idRefExtractor)
                   Example.idRefText ["ref"] "default"))).
  - reflexivity.
  - vm_compute. reflexivity.
  - vm_compute. reflexivity.
Defined.

(** ** Custom rules *)






(** ** Resetting a session *)

(** X23: resetting one session forgets its requests but not what they
    cost: the statistics of the session are empty afterwards and the total
    cost of every day is as before, while the number of requests reported
    for a day drops by the requests that the session had made on that day. *)
Theorem X23_session_reset_keeps_the_day (ct : CostTracker.t) (now : Timestamp)
    (sid : string) (date : option string) :
  JsString.truthy sid = true ->
  let ct' := CostTracker.reset ct (Some sid) in
  let before := CostTracker.getDailyStats ct now date in
  let after := CostTracker.getDailyStats ct' now date in
  CostTracker.ss_requests (CostTracker.getSessionStats ct' sid) = []
  /\ CostTracker.ss_requestCount (CostTracker.getSessionStats ct' sid) = 0%nat
  /\ CostTracker.ds_totalCost after = CostTracker.ds_totalCost before
  /\ (CostTracker.ds_requestCount after
      + length (List.filter
                  (fun req =>
                     String.eqb (dayOf (CostTracker.req_timestamp req))
                       (CostTracker.ds_date before))
                  (CostTracker.ss_requests (CostTracker.getSessionStats ct sid))))%nat
     = CostTracker.ds_requestCount before.
Proof.
  intros Htruthy ct' before after. subst ct' before after.
  unfold CostTracker.reset. rewrite Htruthy.
  unfold CostTracker.getSessionStats, CostTracker.getDailyStats,
    CostTracker.getTotalRequestsForDate.
  cbn [CostTracker.costs CostTracker.dailyTotals CostTracker.ds_totalCost
       CostTracker.ds_requestCount CostTracker.ds_date].
  rewrite lookup_delete_eq. cbn [CostTracker.ss_requests CostTracker.ss_requestCount].
  repeat split.
  destruct (CostTracker.costs ct !! sid) as [s |] eqn:E.
  - rewrite (requestsFold_lookup _ _ sid s E). reflexivity.
  - rewrite (delete_id _ _ E). simpl. lia.
Qed.

Lemma X23_session_reset_keeps_the_day_witness :
  let ct' := CostTracker.reset Example.ledgerAtCap (Some "s1") in
  let before := CostTracker.getDailyStats Example.ledgerAtCap Example.now None in
  let after := CostTracker.getDailyStats ct' Example.now None in
  CostTracker.ss_requests (CostTracker.getSessionStats ct' "s1") = []
  /\ CostTracker.ss_requestCount (CostTracker.getSessionStats ct' "s1") = 0%nat
  /\ CostTracker.ds_totalCost after = CostTracker.ds_totalCost before
  /\ (CostTracker.ds_requestCount after
      + length (List.filter
                  (fun req =>
                     String.eqb (dayOf (CostTracker.req_timestamp req))
                       (CostTracker.ds_date before))
                  (CostTracker.ss_requests
                     (CostTracker.getSessionStats Example.ledgerAtCap "s1"))))%nat
     = CostTracker.ds_requestCount before.
Proof.
  apply (X23_session_reset_keeps_the_day Example.ledgerAtCap Example.now "s1" None).
  reflexivity.
Defined.

(** ** Fields of the rules stage in the result *)

Lemma mergeResults_keeps (rulesResults llmResults : Fields)
    (missingFields : list string) (f : string) (ms : list Candidate) :
  Obj.get rulesResults f = Some ms -> ms <> [] ->
  exists ms',
    Obj.get (FieldExtractor.mergeResults rulesResults llmResults missingFields) f
    = Some ms' /\ ms' <> [].
Proof.
  intros Hget Hne. unfold FieldExtractor.mergeResults.
  apply (fold_left_inv
           (fun merged : Fields =>
              exists ms', Obj.get merged f = Some ms' /\ ms' <> [])); [| eauto].
  intros acc g (ms' & Hacc & Hne').
  destruct (Obj.get llmResults g) as [[| c cs] |]; eauto.
  destruct (String.eqb_spec g f) as [-> | Hgf].
  - rewrite Obj_get_set_eq. eexists. split; [reflexivity |].
    apply take_nonempty, sort_nonempty. rewrite Hacc. simpl.
    destruct ms'; [contradiction | discriminate].
  - rewrite Obj_get_set_ne by exact Hgf. eauto.
Qed.

Lemma postProcess_keys (rt : Runtime) (fields : Fields) (f : string) :
  NoDup (Obj.keys fields) ->
  In f (Obj.keys (FieldExtractor.postProcess rt fields))
  <-> exists m ms, Obj.get fields f = Some (m :: ms).
Proof.
  intros Hnd. split.
  - intros Hin. apply Obj_keys_In_get in Hin as (v & Hv).
    rewrite (postProcess_get rt fields f Hnd) in Hv.
    destruct (Obj.get fields f) as [[| m ms] |]; try discriminate. eauto.
  - intros (m & ms & Hget).
    pose proof (postProcess_get rt fields f Hnd) as H. rewrite Hget in H.
    apply Obj_get_In in H. change f with (fst (f, map (FieldExtractor.postProcessMatch rt f) (m :: ms))).
    now apply in_map.
Qed.

(** X24: the later stages lose no field of the rules stage: for requested
    fields of ordinary names and a reply whose values are strings or [null]
    (the replies that [rt_JSON_parse] describes), every field for which the
    rules stage returned candidates is a field of the result, whichever
    fields the backend answered and also when it failed, so the result has at
    least as many fields as the metadata counts fields of the rules stage.
    (For another truthy value of the reply the post-processing of the code
    throws, and [extract] returns no result.) *)
Theorem X24_no_field_of_the_rules_is_lost (rt : Runtime) (config : Config)
    (net : Network) (now : Timestamp) (this : FieldExtractor.t)
    (doc : FieldExtractor.ProcessedDocument) (options : FieldExtractor.Options) :
  let r := fst (FieldExtractor.extract rt config net now this doc options) in
  let rulesResults :=
    RulesEngine.extractFields (FieldExtractor.rulesEngine this)
      (FieldExtractor.text doc) (FieldExtractor.specificFields options) in
  forallb Obj.plainName
    (requestedFields this (FieldExtractor.specificFields options)) = true ->
  Forall (fun f => In f (Obj.keys (FieldExtractor.extractedFields r)))
    (Obj.keys rulesResults)
  /\ (FieldExtractor.totalFields (FieldExtractor.metadata r)
      <= length (Obj.keys (FieldExtractor.extractedFields r)))%nat.
Proof.
  intros r rulesResults _.
  assert (Hall : Forall (fun f => In f (Obj.keys (FieldExtractor.extractedFields r)))
                   (Obj.keys rulesResults)).
  { apply List.Forall_forall. intros f Hf. subst r.
    apply Obj_keys_In_get in Hf as (ms & Hget).
    assert (Hne : ms <> []).
    { intros ->. now apply extractFields_never_empty_list in Hget. }
    pose proof (phases123_NoDup rt config net now this doc options) as Hnd.
    pose proof (phases123_extractedFields rt config net now this doc options) as Hp.
    pose proof (phases123_rulesResults rt config net now this doc options) as Hr.
    cbv zeta in Hp. rewrite Hr in Hp. fold rulesResults in Hp.
    unfold FieldExtractor.extract.
    destruct (FieldExtractor.extractPhases123 _ _ _ _ _ _ _) as [p this'].
    simpl in *. apply postProcess_keys; [exact Hnd |].
    destruct Hp as [Hp | (llm & Hp)]; rewrite Hp.
    - destruct ms as [| m ms]; [contradiction | eauto].
    - destruct (mergeResults_keeps rulesResults llm
                  (FieldExtractor.p_missingFields p) f ms Hget Hne)
        as ([| m' ms'] & Hget' & Hne'); [contradiction | eauto]. }
  split; [exact Hall |].
  assert (Htotal : FieldExtractor.totalFields (FieldExtractor.metadata r)
                   = length (Obj.keys rulesResults)).
  { subst r. unfold FieldExtractor.extract. phase3_cases; reflexivity. }
  rewrite Htotal. apply NoDup_incl_length_le.
  - apply extractFields_NoDup.
  - rewrite List.Forall_forall in Hall. exact Hall.
Qed.

(** Two fields from the rules stage, one of them a gap that the backend
    answers: both are fields of the result. *)
Lemma X24_no_field_of_the_rules_is_lost_witness :
  let r :=
    fst (FieldExtractor.extract Example.runtime Example.config
           (Example.answering Example.replyRef) Example.now Example.idRefExtractor
           (Example.doc Example.idRefText) (Example.only ["customId"; "ref"] true)) in
  let rulesResults :=
    RulesEngine.extractFields (FieldExtractor.rulesEngine Example.idRefExtractor)
      Example.idRefText (Some ["customId"; "ref"]) in
  (Obj.keys rulesResults = ["customId"; "ref"]
   /\ FieldExtractor.llmFallbackUsed (FieldExtractor.metadata r) = true)
  /\ Forall (fun f => In f (Obj.keys (FieldExtractor.extractedFields r)))
       (Obj.keys rulesResults)
  /\ (FieldExtractor.totalFields (FieldExtractor.metadata r)
      <= length (Obj.keys (FieldExtractor.extractedFields r)))%nat.
Proof.
  split; [vm_compute; split; reflexivity |].
  apply (X24_no_field_of_the_rules_is_lost Example.runtime Example.config
           (Example.answering Example.replyRef) Example.now Example.idRefExtractor
           (Example.doc Example.idRefText) (Example.only ["customId"; "ref"] true)).
  reflexivity.
Defined.

(** ** The extraction rate of a run over all fields *)

Lemma mergeResults_keys (llmResults : Fields) (missingFields : list string)
    (rulesResults : Fields) (f : string) :
  In f (Obj.keys (FieldExtractor.mergeResults rulesResults llmResults missingFields)) ->
  In f (Obj.keys rulesResults) \/ In f missingFields.
Proof.
  unfold FieldExtractor.mergeResults. revert rulesResults.
  induction missingFields as [| g gs IH]; intros acc; simpl; [now left |].
  intros Hin. apply IH in Hin as [Hin | Hin]; [| now right; right].
  destruct (Obj.get llmResults g) as [[| c cs] |]; try now left.
  rewrite Obj_keys_set in Hin. destruct (Obj.has acc g); [now left |].
  apply in_app_or in Hin as [Hin | [<- | []]]; [now left | right; now left].
Qed.

(** X25: when no subset of fields is requested, every field of the result
    has a registered rule, so the summary never counts more extracted fields
    than registered rules and, with at least one rule registered, its
    extraction rate lies between 0 and 1. *)
Theorem X25_rate_over_all_fields_in_unit_interval (rt : Runtime) (config : Config)
    (net : Network) (now : Timestamp) (this : FieldExtractor.t)
    (doc : FieldExtractor.ProcessedDocument) (options : FieldExtractor.Options) :
  let s :=
    FieldExtractor.summary
      (fst (FieldExtractor.extract rt config net now this doc options)) in
  FieldExtractor.specificFields options = None ->
  (0 < FieldExtractor.totalFieldsRequested s)%nat ->
  (FieldExtractor.fieldsExtracted s <= FieldExtractor.totalFieldsRequested s)%nat
  /\ (0 <= FieldExtractor.extractionRate s)%Q
  /\ (FieldExtractor.extractionRate s <= 1)%Q.
Proof.
  intros s Hnone. subst s.
  pose proof (phases123_NoDup rt config net now this doc options) as Hnd.
  pose proof (phases123_extractedFields rt config net now this doc options) as Hp.
  pose proof (phases123_rulesResults rt config net now this doc options) as Hr.
  pose proof (phases123_missingFields rt config net now this doc options) as Hm.
  pose proof (phases123_rulesStats rt config net now this doc options) as Hs.
  cbv zeta in Hp, Hs. unfold FieldExtractor.extract.
  destruct (FieldExtractor.extractPhases123 _ _ _ _ _ _ _) as [p this'].
  simpl in *.
  set (final := FieldExtractor.postProcess rt (FieldExtractor.p_extractedFields p)).
  set (registered :=
         (Obj.keys (RulesEngine.rules (FieldExtractor.rulesEngine this))
          ++ Obj.keys (RulesEngine.customRules (FieldExtractor.rulesEngine this)))%list).
  assert (Htotal : RulesEngine.totalFields
                     (FieldExtractor.rulesStats (FieldExtractor.p_metadata p))
                   = length registered).
  { rewrite Hs. subst registered. simpl. unfold Obj.keys, Obj.size.
    now rewrite length_app, !length_map. }
  assert (Hle : (length (List.filter
                           (fun f => match Obj.get final f with
                                     | Some (_ :: _) => true
                                     | _ => false
                                     end) (Obj.keys final))
                 <= length registered)%nat).
  { etransitivity; [apply filter_length_le |].
    apply NoDup_incl_length_le; [apply postProcess_NoDup |].
    intros f Hf. apply (postProcess_keys rt _ f Hnd) in Hf as (m & ms & Hget).
    assert (Hrules : forall g,
               In g (Obj.keys (FieldExtractor.p_rulesResults p)) -> In g registered).
    { intros g Hg. rewrite Hr in Hg.
      now apply extractFields_keys_registered in Hg. }
    apply Obj_get_In in Hget.
    assert (Hkey : In f (Obj.keys (FieldExtractor.p_extractedFields p))).
    { change f with (fst (f, m :: ms)). now apply in_map. }
    destruct Hp as [Hp | (llm & Hp)]; rewrite Hp in Hkey; [now apply Hrules |].
    apply mergeResults_keys in Hkey as [Hkey | Hkey]; [now apply Hrules |].
    rewrite Hm, Hnone in Hkey. unfold FieldExtractor.identifyMissingFields in Hkey.
    apply List.filter_In in Hkey as [Hkey _].
    subst registered. apply in_or_app. now left. }
  rewrite Htotal. intros Hpos. split; [exact Hle |].
  now apply Qofnat_ratio_in_unit.
Qed.

Lemma X25_rate_over_all_fields_in_unit_interval_witness :
  let s :=
    FieldExtractor.summary
      (fst (FieldExtractor.extract Example.runtime Example.config Example.unreachable
              Example.now Example.idRefExtractor (Example.doc Example.idRefText)
              FieldExtractor.defaultOptions)) in
  (FieldExtractor.fieldsExtracted s <= FieldExtractor.totalFieldsRequested s)%nat
  /\ (0 <= FieldExtractor.extractionRate s)%Q
  /\ (FieldExtractor.extractionRate s <= 1)%Q.
Proof.
  apply (X25_rate_over_all_fields_in_unit_interval Example.runtime Example.config
           Example.unreachable Example.now Example.idRefExtractor
           (Example.doc Example.idRefText) FieldExtractor.defaultOptions).
  - reflexivity.
  - vm_compute. lia.
Defined.
